(** * Report layout engine of [full_table_generator.py]

    A shallow embedding of the table generator: the aggregation of the
    stock records into per-type and per-pattern tables, the planning of
    the table shape, the placement of the blocks on the sheets and the
    rendering of every block into the cells of a worksheet.

    Python integers are [Z], Python lists are [list], the worksheet's
    cell dictionary is a [gmap] keyed by (row, column).  The current date
    ([datetime.now()]) is an argument [date_str] of the functions that
    read it. *)

From Stdlib Require Import Ascii String QArith.
From stdpp Require Import base numbers list strings gmap pretty sorting.

Open Scope string_scope.
Open Scope list_scope.
Open Scope Z_scope.

(** ** Python built-ins used by the generator *)

Module Py.

(** [sorted]: a stable sort that only asks [x < y], as list.sort does.
    Every stable sort returns the same list when [lt] is a strict weak
    order, which is the case for strings, integers and floats other than
    NaN. *)
Fixpoint insert_sorted {A} (lt : A → A → bool) (x : A) (l : list A) : list A :=
  match l with
  | [] => [x]
  | y :: l' => if lt y x then y :: insert_sorted lt x l' else x :: y :: l'
  end.

Definition sorted_by {A} (lt : A → A → bool) (l : list A) : list A :=
  foldr (insert_sorted lt) [] l.

(** [sorted(l)] on strings: code point order, which is the byte order of
    the UTF-8 text. *)
Definition sorted (l : list string) : list string := sorted_by String.ltb l.

(** [sorted(l, key=k)] and [sorted(l, key=k, reverse=True)] for an integer
    key; equal keys keep their order in both directions. *)
Definition sorted_key {A} (key : A → Z) (reverse : bool) (l : list A) : list A :=
  if reverse then sorted_by (λ a b, key b <? key a) l
  else sorted_by (λ a b, key a <? key b) l.

(** [Series.unique()]: the distinct values in order of first appearance. *)
Fixpoint unique (l : list string) : list string :=
  match l with
  | [] => []
  | x :: l' => x :: filter (λ y, y ≠ x) (unique l')
  end.

(** The value of an integer kept in 64 bits (two's complement). *)
Definition int64 (z : Z) : Z := (z + 2 ^ 63) mod 2 ^ 64 - 2 ^ 63.

(** [range(0, n, 2)], by the number of elements left. *)
Fixpoint range2 (start : nat) (n : nat) : list nat :=
  match n with
  | O => []
  | S O => [start]
  | S (S m) => start :: range2 (start + 2) m
  end.

(** *** [float(s)] on text

    The value of a float literal, kept as an exact rational.  The model
    covers ASCII text: surrounding white space, a sign, [inf], [infinity],
    [nan] in any case, digits with single underscores between them, a
    fraction and an exponent.  The rounding to binary64 is not modelled. *)
Inductive pyfloat := FNan | FNegInf | FNum (q : Q) | FPosInf.

Definition float_lt (a b : pyfloat) : bool :=
  match a, b with
  | FNan, _ | _, FNan => false
  | FNegInf, FNegInf => false
  | FNegInf, _ => true
  | _, FNegInf => false
  | FPosInf, _ => false
  | FNum _, FPosInf => true
  | FNum x, FNum y => Qnum x * Zpos (Qden y) <? Qnum y * Zpos (Qden x)
  end.

Definition is_space (c : ascii) : bool :=
  let n := nat_of_ascii c in
  ((n =? 32) || ((9 <=? n) && (n <=? 13)) || ((28 <=? n) && (n <=? 31)))%nat.

Definition digit_of (c : ascii) : option Z :=
  let n := nat_of_ascii c in
  if ((48 <=? n) && (n <=? 57))%nat then Some (Z.of_nat n - 48) else None.

Definition lower_ascii (c : ascii) : ascii :=
  let n := nat_of_ascii c in
  if ((65 <=? n) && (n <=? 90))%nat then ascii_of_nat (n + 32) else c.

Fixpoint lstrip (cs : list ascii) : list ascii :=
  match cs with
  | c :: cs' => if is_space c then lstrip cs' else cs
  | [] => []
  end.

Definition strip (cs : list ascii) : list ascii :=
  reverse (lstrip (reverse (lstrip cs))).

(** digitpart ::= digit (["_"] digit)*; the digits read and the rest. *)
Fixpoint digitpart (cs : list ascii) : list Z * list ascii :=
  match cs with
  | c :: cs' =>
      match digit_of c with
      | None => ([], cs)
      | Some d =>
          match cs' with
          | u :: cs'' =>
              if bool_decide (u = "_"%char) then
                match digitpart cs'' with
                | ([], _) => ([d], cs')
                | (ds, rest) => (d :: ds, rest)
                end
              else let '(ds, rest) := digitpart cs' in (d :: ds, rest)
          | [] => ([d], [])
          end
      end
  | [] => ([], [])
  end.

Definition decimal (ds : list Z) : Z := foldl (λ acc d, 10 * acc + d) 0 ds.

Definition read_sign (cs : list ascii) : bool * list ascii :=
  match cs with
  | c :: cs' =>
      if bool_decide (c = "-"%char) then (true, cs')
      else if bool_decide (c = "+"%char) then (false, cs')
      else (false, cs)
  | [] => (false, [])
  end.

(** exponent ::= ("e" | "E") [sign] digitpart, up to the end of the text. *)
Definition read_exponent (cs : list ascii) : option Z :=
  match cs with
  | [] => Some 0
  | c :: cs' =>
      if bool_decide (lower_ascii c = "e"%char) then
        let '(neg, cs'') := read_sign cs' in
        match digitpart cs'' with
        | (d :: ds, []) => Some (if neg then - decimal (d :: ds) else decimal (d :: ds))
        | _ => None
        end
      else None
  end.

(** number ::= [digitpart] "." digitpart | digitpart ["."] *)
Definition read_number (cs : list ascii) : option Q :=
  let '(ip, rest) := digitpart cs in
  let '(fp, rest') :=
    match rest with
    | c :: r => if bool_decide (c = "."%char) then digitpart r else ([], rest)
    | [] => ([], [])
    end in
  match ip, fp with
  | [], [] => None
  | _, _ =>
      match read_exponent rest' with
      | None => None
      | Some e =>
          let mant := decimal (ip ++ fp) in
          let e' := e - Z.of_nat (length fp) in
          Some (if 0 <=? e' then Qmake (mant * 10 ^ e') 1
                else Qmake mant (Z.to_pos (10 ^ (- e'))))
      end
  end.

Definition float_of (s : string) : option pyfloat :=
  let '(neg, cs) := read_sign (strip (list_ascii_of_string s)) in
  let word := string_of_list_ascii (map lower_ascii cs) in
  if bool_decide (word = "inf" ∨ word = "infinity") then
    Some (if neg then FNegInf else FPosInf)
  else if bool_decide (word = "nan") then Some FNan
  else match read_number cs with
       | Some q => Some (FNum (if neg then Qopp q else q))
       | None => None
       end.

End Py.

(** ** Records and the pandas operations on them *)

(** One row of the standardized frame: 类型, 图案, 颜色, 规格, 数量.  The
    four text fields are strings, as the records of the specification
    have them; the quantity is the integer [standardize] coerces it to. *)
Record Row := mkRow {
  r_type : string;
  r_pattern : string;
  r_color : string;
  r_spec : string;
  r_qty : Z
}.

Abbreviation Frame := (list Row).

(** [df[df[col] == v]] *)
Definition where_eq (col : Row → string) (v : string) (df : Frame) : Frame :=
  filter (λ r, col r = v) df.

(** [df.groupby(col)]: the groups in sorted key order, rows in frame order. *)
Definition groupby (col : Row → string) (df : Frame) : list (string * Frame) :=
  map (λ k, (k, where_eq col k df)) (Py.sorted (Py.unique (map col df))).

(** The sum of the quantities of the rows, as an integer. *)
Definition qty_sum (df : Frame) : Z := foldr (λ r acc, r_qty r + acc) 0 df.

(** [df["数量"].sum()]: the column holds 64-bit integers and pandas adds
    them in 64 bits, where the sum wraps around without an error. *)
Definition sum64 (df : Frame) : Z := Py.int64 (qty_sum df).

(** ** Cell values *)

(** A value stored in a cell: nothing, text, an integer, or the formula
    text [=SUM(<L><r1>:<L><r2>)] where [<L>] is the letter of column
    [col]; [formula_text] below gives the text itself. *)
Inductive Value :=
  | VNone
  | VStr (s : string)
  | VInt (z : Z)
  | VSum (col r1 r2 : Z).

Global Instance Value_eq_dec : EqDecision Value.
Proof. solve_decision. Defined.

(** [sum(vs)] over a slice of a row, whose entries are integers. *)
Definition py_sum (vs : list Value) : Z :=
  foldr (λ v acc, match v with VInt z => z + acc | _ => acc end) 0 vs.

(** [l[a:b]] for [0 <= a]. *)
Definition slice {A} (a b : nat) (l : list A) : list A := take (b - a) (drop a l).

Definition len {A} (l : list A) : Z := Z.of_nat (length l).

(** [[x] * n]; a negative [n] gives the empty list. *)
Definition times {A} (x : A) (n : Z) : list A := replicate (Z.to_nat n) x.

(** ** The worksheet

    The part of an openpyxl worksheet the generator writes: the cells by
    (row, column), each with a value and four style attributes, and the
    list of merged ranges.  Row heights, column widths and the page setup
    are left out: no cell depends on them. *)

Module Sheet.

Inductive Side := NoSide | Thin.

Record Border := mkBorder {
  b_left : Side; b_right : Side; b_top : Side; b_bottom : Side
}.

Record Font := mkFont { f_bold : bool; f_size : Z }.

(** A solid fill by its colour, or no fill. *)
Definition Fill := option string.

Inductive Alignment := GeneralAlign | CenterAlign.

Record Cell := mkCell {
  c_value : Value;
  c_font : Font;
  c_fill : Fill;
  c_alignment : Alignment;
  c_border : Border
}.

Definition default_border : Border := mkBorder NoSide NoSide NoSide NoSide.

(** A cell that was never written. *)
Definition blank : Cell :=
  mkCell VNone (mkFont false 11) None GeneralAlign default_border.

(** A merged range: first row, first column, last row, last column. *)
Record Range := mkRange { mr_row : Z; mr_col : Z; mr_end_row : Z; mr_end_col : Z }.

Record Worksheet := mkWorksheet {
  ws_title : string;
  ws_cells : gmap (Z * Z) Cell;
  ws_merged : list Range
}.

Definition empty_sheet : Worksheet := mkWorksheet "Sheet" ∅ [].

Definition get_cell (ws : Worksheet) (k : Z * Z) : Cell :=
  default blank (ws_cells ws !! k).

(** [ws.cell(row, column)] followed by assignments to the cell: the cell
    is created when absent and [f] is applied to it. *)
Definition upd_cell (k : Z * Z) (f : Cell → Cell) (ws : Worksheet) : Worksheet :=
  mkWorksheet (ws_title ws) (<[k := f (get_cell ws k)]> (ws_cells ws)) (ws_merged ws).

(** [ws.merge_cells(...)]: the range is recorded; at every call of the
    generator the cells of the range have not been written yet. *)
Definition merge_cells (r1 c1 r2 c2 : Z) (ws : Worksheet) : Worksheet :=
  mkWorksheet (ws_title ws) (ws_cells ws) (ws_merged ws ++ [mkRange r1 c1 r2 c2]).

Definition set_title (t : string) (ws : Worksheet) : Worksheet :=
  mkWorksheet t (ws_cells ws) (ws_merged ws).

(** [ws.cell(..., value=v)] leaves the value alone when [v] is None. *)
Definition set_value (v : Value) (c : Cell) : Cell :=
  match v with
  | VNone => c
  | _ => mkCell v (c_font c) (c_fill c) (c_alignment c) (c_border c)
  end.
Definition set_font (x : Font) (c : Cell) : Cell :=
  mkCell (c_value c) x (c_fill c) (c_alignment c) (c_border c).
Definition set_fill (x : Fill) (c : Cell) : Cell :=
  mkCell (c_value c) (c_font c) x (c_alignment c) (c_border c).
Definition set_alignment (x : Alignment) (c : Cell) : Cell :=
  mkCell (c_value c) (c_font c) (c_fill c) x (c_border c).
Definition set_border (x : Border) (c : Cell) : Cell :=
  mkCell (c_value c) (c_font c) (c_fill c) (c_alignment c) x.

Definition in_range (m : Range) (k : Z * Z) : bool :=
  (mr_row m <=? fst k) && (fst k <=? mr_end_row m) &&
  (mr_col m <=? snd k) && (snd k <=? mr_end_col m).

(** The body of a [for] loop over [l] that updates a state. *)
Definition for_each {A S} (l : list A) (body : A → S → S) (s : S) : S :=
  foldl (λ s a, body a s) s l.

(** [range(a, b)] *)
Definition range (a b : Z) : list Z := seqZ a (b - a).

(** [enumerate(l)] *)
Definition enumerate {A} (l : list A) : list (Z * A) := zip (seqZ 0 (len l)) l.

(** [l[i]] where the generator reads inside the list. *)
Definition item {A} (d : A) (l : list A) (i : Z) : A := default d (l !! Z.to_nat i).

(** [get_column_letter] for the columns 1 to 18278: A..Z, AA..ZZ,
    AAA..ZZZ (openpyxl raises outside this range). *)
Definition letter (n : Z) : string := String (ascii_of_nat (Z.to_nat (64 + n))) "".

Definition get_column_letter (col : Z) : string :=
  if col <=? 26 then letter col
  else if col <=? 702 then
    letter ((col - 1) / 26) +:+ letter ((col - 1) mod 26 + 1)
  else
    letter ((col - 27) / 676) +:+ letter (((col - 27) / 26) mod 26 + 1)
      +:+ letter ((col - 1) mod 26 + 1).

(** The text the generator stores for a total:
    f"=SUM({letter}{data_start}:{letter}{data_end})". *)
Definition formula_text (v : Value) : option string :=
  match v with
  | VSum col r1 r2 =>
      Some ("=SUM(" +:+ get_column_letter col +:+ pretty r1 +:+ ":"
              +:+ get_column_letter col +:+ pretty r2 +:+ ")")
  | _ => None
  end.

(** Whether a value is a formula. *)
Definition is_formula (v : Value) : bool :=
  match v with VSum _ _ _ => true | _ => false end.

(** What a spreadsheet shows for a cell: a value as it is, a formula as
    the sum of the integers in its range (text and empty cells count as
    0 in a SUM). *)
Definition number_of (ws : Worksheet) (k : Z * Z) : Z :=
  match c_value (get_cell ws k) with VInt z => z | _ => 0 end.

Definition eval_cell (ws : Worksheet) (k : Z * Z) : Value :=
  match c_value (get_cell ws k) with
  | VSum col r1 r2 =>
      VInt (foldr (λ r acc, number_of ws (r, col) + acc) 0 (range r1 (r2 + 1)))
  | v => v
  end.

End Sheet.

(** ** CompleteTableGenerator: aggregation and table structure *)

Module Gen.

Definition min_columns : Z := 6.
Definition max_columns : Z := 10.
Definition left_start_col : Z := 1.
Definition right_start_col : Z := 12.
Definition block_spacing : Z := 2.

(** [_sort_specs]: try [sorted(specs, key=float)]; when [float] rejects
    one of the sizes, [sorted(specs)]. *)
Definition _sort_specs (specs : list string) : list string :=
  match mapM Py.float_of specs with
  | Some keys =>
      map snd (Py.sorted_by (λ a b, Py.float_lt (fst a) (fst b)) (zip keys specs))
  | None => Py.sorted specs
  end.

(** The quantity cells of one colour: for every size the summed quantity
    of the rows of that colour and size, [int(qty)] of the 64-bit sum. *)
Definition qty_cells (group : Frame) (sorted_specs : list string) (color : string)
  : list Value :=
  let color_data := where_eq r_color color group in
  map (λ spec, VInt (sum64 (where_eq r_spec spec color_data))) sorted_specs.

(** The dictionary built per type by [_calculate_type_aggregation]. *)
Record TypeData := mkTypeData {
  td_title : string;
  td_headers : list string;
  td_data : list (list Value);
  td_specs : list string;
  td_total_cols : Z;
  td_data_rows : Z;
  td_total_col_idx : Z
}.

Definition type_data_of (date_str : string) (type_name : string) (group : Frame)
  : TypeData :=
  let colors := Py.sorted (Py.unique (map r_color group)) in
  let raw_specs := Py.sorted (Py.unique (map r_spec group)) in
  let sorted_specs := _sort_specs raw_specs in
  let headers := ["颜色"] ++ sorted_specs ++ ["行合计"] in
  let headers :=
    if len headers <? min_columns
    then headers ++ times "" (min_columns - len headers) else headers in
  let data_matrix :=
    map (λ color,
      let row := [VStr color] ++ qty_cells group sorted_specs color in
      let row := row ++ [VInt (py_sum (slice 1 (length sorted_specs + 1) row))] in
      row ++ times (VStr "") (len headers - len row)) colors in
  {| td_title := type_name +:+ " - " +:+ date_str;
     td_headers := headers;
     td_data := data_matrix;
     td_specs := sorted_specs;
     td_total_cols := len headers;
     td_data_rows := len colors;
     td_total_col_idx := len sorted_specs + 2 |}.

(** [_calculate_type_aggregation]: the dictionary keeps its keys in
    insertion order, which is the order of the groups. *)
Definition _calculate_type_aggregation (date_str : string) (df : Frame)
  : list (string * TypeData) :=
  map (λ g, (fst g, type_data_of date_str (fst g) (snd g))) (groupby r_type df).

(** The dictionary returned by [_get_pattern_table_structure]. *)
Record Struct := mkStruct {
  st_headers : list string;
  st_data : list (list Value);
  st_row_count : Z;
  st_total_cols : Z;
  st_spec_count : Z;
  st_total_col_idx : Z
}.

Definition _get_pattern_table_structure (pattern_data : Frame) : Struct :=
  let colors := Py.sorted (Py.unique (map r_color pattern_data)) in
  let sorted_specs := Py.sorted (Py.unique (map r_spec pattern_data)) in
  let base_headers := ["颜色"] ++ sorted_specs ++ ["行合计"] in
  let base_col_count := len base_headers in
  let '(total_cols, headers) :=
    if base_col_count <? min_columns then
      (min_columns, base_headers ++ times "" (min_columns - base_col_count))
    else if max_columns <? base_col_count then
      let headers := take (Z.to_nat max_columns) base_headers in
      (max_columns, <[(length headers - 1)%nat := "行合计"]> headers)
    else (base_col_count, base_headers) in
  let total_col_idx := len sorted_specs + 2 in
  let total_col_idx := if total_cols <? total_col_idx then total_cols else total_col_idx in
  let data_matrix :=
    map (λ color,
      let row := [VStr color] ++ qty_cells pattern_data sorted_specs color in
      let row_total := py_sum (slice 1 (length sorted_specs + 1) row) in
      let row := row ++ [VInt row_total] in
      take (Z.to_nat total_cols) row ++ times (VStr "") (total_cols - len row)) colors in
  {| st_headers := headers;
     st_data := data_matrix;
     st_row_count := len colors;
     st_total_cols := total_cols;
     st_spec_count := len sorted_specs;
     st_total_col_idx := total_col_idx |}.

(** The pattern dictionaries handled by the detail sheet. *)
Record Pattern := mkPattern {
  p_name : string;
  p_data : Frame;
  p_col_count : Z;
  p_struct : Struct
}.

Definition _sort_patterns_by_columns (patterns : list (string * Frame)) (desc : bool)
  : list Pattern :=
  let patterns_with_cols :=
    map (λ p,
      let struct := _get_pattern_table_structure (snd p) in
      {| p_name := fst p; p_data := snd p;
         p_col_count := st_total_cols struct; p_struct := struct |}) patterns in
  Py.sorted_key p_col_count desc patterns_with_cols.

(** [_group_by_column_range]: the two width bands, empty bands left out. *)
Definition _group_by_column_range (sorted_patterns : list Pattern) : list (list Pattern) :=
  let in_67 := λ p : Pattern, (6 <=? p_col_count p) && (p_col_count p <=? 7) in
  let g67 := filter (λ p, in_67 p = true) sorted_patterns in
  let g810 := filter (λ p, in_67 p ≠ true) sorted_patterns in
  filter (λ g, g ≠ []) [g67; g810].

(** ** CompleteTableGenerator: rendering *)

Import Sheet.

Definition bold_font : Font := mkFont true 11.
Definition normal_font : Font := mkFont false 11.
Definition title_total_fill : Fill := Some "538DD5".
Definition header_fill : Fill := Some "B8CCE4".
Definition white_fill : Fill := Some "FFFFFF".
Definition center_align : Alignment := CenterAlign.
Definition block_border : Border := mkBorder Thin Thin Thin Thin.
Definition no_border : Border := mkBorder NoSide NoSide NoSide NoSide.

(** value, font, fill, alignment and border assigned to one cell, in the
    order of the source. *)
Definition styled (v : Value) (font : Font) (fill : Fill) (c : Cell) : Cell :=
  set_border block_border
    (set_alignment center_align (set_fill fill (set_font font (set_value v c)))).

(** The padding cells of a total row: fill, border, alignment. *)
Definition padded (c : Cell) : Cell :=
  set_alignment center_align (set_border block_border (set_fill title_total_fill c)).

(** A [for] loop left by [break]: the body answers [None] to break. *)
Fixpoint for_break {A S} (l : list A) (body : A → S → option S) (s : S) : S :=
  match l with
  | [] => s
  | a :: l' =>
      match body a s with
      | Some s' => for_break l' body s'
      | None => s
      end
  end.

(** *** The summary sheet: [_generate_original_type_sheet]

    The body of the loop over the types, in the steps of the source:
    title row, header row, data rows, total row, spacer rows. *)

Definition type_title (td : TypeData) (title_row : Z) (ws : Worksheet) : Worksheet :=
  let ws := merge_cells title_row 1 title_row (td_total_cols td) ws in
  upd_cell (title_row, 1) (styled (VStr (td_title td)) bold_font title_total_fill) ws.

Definition type_header (td : TypeData) (header_row : Z) (ws : Worksheet) : Worksheet :=
  for_each (range 1 (td_total_cols td + 1)) (λ col,
    upd_cell (header_row, col)
      (styled (VStr (item "" (td_headers td) (col - 1))) bold_font header_fill)) ws.

Definition type_data_rows (td : TypeData) (data_start : Z) (ws : Worksheet) : Worksheet :=
  for_each (enumerate (td_data td)) (λ rd ws,
    let row_offset := fst rd in
    let data_row := snd rd in
    let data_row_num := data_start + row_offset in
    let fill := if row_offset mod 2 =? 1 then header_fill else white_fill in
    for_each (range 1 (td_total_cols td + 1)) (λ col,
      upd_cell (data_row_num, col)
        (styled (item (VStr "") data_row (col - 1))
           (if (col =? 1) || (col =? td_total_col_idx td) then bold_font else normal_font)
           fill)) ws) ws.

Definition type_total_row (td : TypeData) (data_start data_end total_row : Z)
    (ws : Worksheet) : Worksheet :=
  let total_cols := td_total_cols td in
  let ws := upd_cell (total_row, 1) (styled (VStr "合计") bold_font title_total_fill) ws in
  let ws :=
    for_each (range 0 (len (td_specs td))) (λ col_offset,
      let col_idx := 2 + col_offset in
      upd_cell (total_row, col_idx)
        (styled (VSum col_idx data_start data_end) bold_font title_total_fill)) ws in
  let ws :=
    upd_cell (total_row, td_total_col_idx td)
      (styled (VSum (td_total_col_idx td) data_start data_end) bold_font title_total_fill) ws in
  for_each (range 1 (total_cols + 1)) (λ col_idx ws,
    if (col_idx =? 1)
       || ((2 <=? col_idx) && (col_idx <=? 1 + len (td_specs td)))
       || (col_idx =? td_total_col_idx td)
    then ws
    else upd_cell (total_row, col_idx) padded ws) ws.

Definition type_spacer (td : TypeData) (total_row : Z) (ws : Worksheet) : Worksheet :=
  for_each (range (total_row + 1) (total_row + block_spacing)) (λ row ws,
    for_each (range 1 (td_total_cols td + 1)) (λ col,
      upd_cell (row, col) (set_border no_border)) ws) ws.

(** A block written on the summary sheet: the table and its title row. *)
Record TypeBlock := mkTypeBlock { tb_name : string; tb_data : TypeData; tb_row : Z }.

(** The state of the loop over the types: the sheet, [current_row], and
    a log of the blocks written so far (the log is not in the source; it
    records where each block was put). *)
Record TypeSheet := mkTypeSheet {
  ts_ws : Worksheet;
  ts_row : Z;
  ts_log : list TypeBlock
}.

Definition type_block (item : string * TypeData) (st : TypeSheet) : TypeSheet :=
  let type_data := snd item in
  let current_row := ts_row st in
  let title_row := current_row in
  let header_row := current_row + 1 in
  let data_start := header_row + 1 in
  let data_end := data_start + td_data_rows type_data - 1 in
  let total_row := data_end + 1 in
  let ws := type_title type_data title_row (ts_ws st) in
  let ws := type_header type_data header_row ws in
  let ws := type_data_rows type_data data_start ws in
  let ws := type_total_row type_data data_start data_end total_row ws in
  let ws := type_spacer type_data total_row ws in
  mkTypeSheet ws (total_row + block_spacing)
    (ts_log st ++ [mkTypeBlock (fst item) type_data title_row]).

Definition _generate_original_type_sheet (ws : Worksheet)
    (aggregation_data : list (string * TypeData)) : TypeSheet :=
  let ws := set_title "类型数据汇总" ws in
  let sorted_types := Py.sorted_key (λ x, td_total_cols (snd x)) true aggregation_data in
  for_each sorted_types type_block (mkTypeSheet ws 1 []).

(** *** The detail sheets: [_generate_single_pattern_block]

    The four steps of the source: title row, header row, data rows,
    total row. *)

Definition pattern_title (title : string) (struct : Struct) (start_row start_col : Z)
    (ws : Worksheet) : Worksheet :=
  let col_end := start_col + st_total_cols struct - 1 in
  let ws := merge_cells start_row start_col start_row col_end ws in
  upd_cell (start_row, start_col) (styled (VStr title) bold_font title_total_fill) ws.

Definition pattern_header (struct : Struct) (header_row start_col : Z)
    (ws : Worksheet) : Worksheet :=
  for_each (range 0 (st_total_cols struct)) (λ col_offset,
    let col := start_col + col_offset in
    upd_cell (header_row, col)
      (styled (VStr (item "" (st_headers struct) col_offset)) bold_font header_fill)) ws.

Definition pattern_data_rows (struct : Struct) (data_start start_col : Z)
    (ws : Worksheet) : Worksheet :=
  for_each (enumerate (st_data struct)) (λ rd ws,
    let row_offset := fst rd in
    let data_row := snd rd in
    let data_row_num := data_start + row_offset in
    let fill := if row_offset mod 2 =? 1 then header_fill else white_fill in
    for_each (range 0 (st_total_cols struct)) (λ col_offset,
      let col := start_col + col_offset in
      upd_cell (data_row_num, col)
        (styled (item (VStr "") data_row col_offset)
           (if (col_offset =? 0) || (col_offset + 1 =? st_total_col_idx struct)
            then bold_font else normal_font)
           fill)) ws) ws.

Definition pattern_total_row (struct : Struct) (data_start data_end total_row start_col : Z)
    (ws : Worksheet) : Worksheet :=
  let col_end := start_col + st_total_cols struct - 1 in
  let ws := upd_cell (total_row, start_col) (styled (VStr "合计") bold_font title_total_fill) ws in
  let ws :=
    for_break (range 0 (st_spec_count struct)) (λ col_offset ws,
      let col := start_col + 1 + col_offset in
      if col_end <? col then None
      else Some (upd_cell (total_row, col)
                   (styled (VSum col data_start data_end) bold_font title_total_fill) ws)) ws in
  let total_col := start_col + st_total_col_idx struct - 1 in
  let ws :=
    if total_col <=? col_end then
      upd_cell (total_row, total_col)
        (styled (VSum total_col data_start data_end) bold_font title_total_fill) ws
    else ws in
  for_each (range 0 (st_total_cols struct)) (λ col_offset ws,
    let col := start_col + col_offset in
    if (col_offset =? 0)
       || ((1 <=? col_offset) && (col_offset <=? st_spec_count struct))
       || (col_offset + 1 =? st_total_col_idx struct)
    then ws
    else upd_cell (total_row, col) padded ws) ws.

(** The block of one pattern; the second component is the returned
    [total_row]. *)
Definition _generate_single_pattern_block (ws : Worksheet) (title : string)
    (struct : Struct) (start_row start_col : Z) : Worksheet * Z :=
  let ws := pattern_title title struct start_row start_col ws in
  let header_row := start_row + 1 in
  let ws := pattern_header struct header_row start_col ws in
  let data_start := header_row + 1 in
  let data_end := data_start + st_row_count struct - 1 in
  let ws := pattern_data_rows struct data_start start_col ws in
  let total_row := data_end + 1 in
  let ws := pattern_total_row struct data_start data_end total_row start_col ws in
  (ws, total_row).

Definition _format_blank_column (start_row end_row col_idx : Z) (ws : Worksheet)
  : Worksheet :=
  for_each (range start_row (end_row + 1)) (λ row,
    upd_cell (row, col_idx)
      (λ c, set_alignment center_align (set_border no_border (set_fill white_fill c)))) ws.

(** *** The detail sheets: [_generate_type_pattern_sheet] *)

(** A call of the block renderer: the pattern, the anchor it was given
    and the end row it returned. *)
Record Placed := mkPlaced {
  pl_pattern : Pattern;
  pl_row : Z;
  pl_col : Z;
  pl_end : Z
}.

(** The state of the loops over the bands and the pairs: the sheet,
    [current_row], and a log of the calls of the block renderer (the log
    is not in the source). *)
Record PatternSheet := mkPatternSheet {
  ps_ws : Worksheet;
  ps_row : Z;
  ps_log : list Placed
}.

Definition block_title (type_name date_str : string) (p : Pattern) : string :=
  type_name +:+ " - " +:+ p_name p +:+ " - " +:+ date_str.

(** The body of [for i in range(0, len(group), 2)]. *)
Definition pair_step (type_name date_str : string) (group : list Pattern) (i : nat)
    (st : PatternSheet) : PatternSheet :=
  match group !! i with
  | None => st
  | Some pattern1 =>
      let current_row := ps_row st in
      let '(ws, left_end_row) :=
        _generate_single_pattern_block (ps_ws st)
          (block_title type_name date_str pattern1) (p_struct pattern1)
          current_row left_start_col in
      let log := ps_log st ++ [mkPlaced pattern1 current_row left_start_col left_end_row] in
      let '(ws, right_end_row, log) :=
        match group !! (i + 1)%nat with
        | Some pattern2 =>
            let '(ws, right_end_row) :=
              _generate_single_pattern_block ws
                (block_title type_name date_str pattern2) (p_struct pattern2)
                current_row right_start_col in
            (ws, right_end_row,
             log ++ [mkPlaced pattern2 current_row right_start_col right_end_row])
        | None => (ws, left_end_row, log)
        end in
      let current_row := Z.max left_end_row right_end_row + block_spacing in
      let space_col := left_start_col + st_total_cols (p_struct pattern1) in
      let ws :=
        _format_blank_column (current_row - block_spacing)
          (Z.max left_end_row right_end_row) space_col ws in
      let ws :=
        for_each (range (current_row - block_spacing) current_row) (λ row ws,
          for_each (range (left_start_col + st_total_cols (p_struct pattern1) + 1)
                      right_start_col) (λ col,
            upd_cell (row, col) (set_border no_border)) ws) ws in
      mkPatternSheet ws current_row log
  end.

(** The sheet of one type.  Setting the title succeeds for the type
    names openpyxl accepts in a title (none of the characters
    \ / ? * : [ ]); for the others the source raises at that line. *)
Definition _generate_type_pattern_sheet (date_str : string) (ws : Worksheet)
    (type_name : string) (type_data : Frame) : PatternSheet :=
  let ws := set_title (type_name +:+ "明细") ws in
  let patterns := groupby r_pattern type_data in
  let sorted_patterns := _sort_patterns_by_columns patterns false in
  let pattern_groups := _group_by_column_range sorted_patterns in
  for_each pattern_groups (λ group st,
    for_each (Py.range2 0 (length group)) (pair_step type_name date_str group) st)
    (mkPatternSheet ws 1 []).

End Gen.

(** ** DataStandardizer and the entry point *)

Module Std.

(** A cell of the sheet read by [pd.read_excel]. *)
Inductive RawCell := RText (s : string) | RInt (z : Z) | RBlank.

Record RawFrame := mkRawFrame {
  rf_columns : list string;
  rf_rows : list (list RawCell)
}.

(** What [pd.read_excel] did with the input file. *)
Inductive ReadResult :=
  | ReadOk (df : RawFrame)
  | ReadNotFound
  | ReadFailed (msg : string).

Inductive Exn :=
  | FileNotFoundError
  | RuntimeError (msg : string)
  | ValueError (standard_col : string).

Definition field_mapping : list (string * list string) :=
  [ ("类型", ["类型"; "宝贝类型"; "商品信息"; "产品类型"]);
    ("图案", ["图案"; "图案名称"; "花纹"; "印花"]);
    ("颜色", ["颜色"; "色彩"; "色系"]);
    ("规格", ["规格"; "尺寸"; "尺码"]);
    ("数量", ["数量"; "件数"; "总数"; "库存"]) ].

(** [str.lower] on the ASCII letters; the aliases have no cased letter,
    so a column name equals an alias after [lower] exactly when Python
    finds them equal. *)
Definition lower (s : string) : string :=
  string_of_list_ascii (map Py.lower_ascii (list_ascii_of_string s)).

(** The loop over the aliases of one field: the first alias found among
    the lowered column names, then the first column equal to it. *)
Definition match_alias (columns : list string) (aliases : list string) : option string :=
  match List.find (λ alias, bool_decide (lower alias ∈ map lower columns)) aliases with
  | Some alias => List.find (λ col, bool_decide (lower col = lower alias)) columns
  | None => None
  end.

(** The loop over [field_mapping]: [standardized_cols], or the ValueError
    of the first field without a column. *)
Fixpoint match_fields (columns : list string) (mapping : list (string * list string))
    (standardized_cols : gmap string string) : Exn + gmap string string :=
  match mapping with
  | [] => inr standardized_cols
  | (standard_col, aliases) :: rest =>
      match match_alias columns aliases with
      | Some matched_alias =>
          if bool_decide (matched_alias = "") then inl (ValueError standard_col)
          else match_fields columns rest (<[matched_alias := standard_col]> standardized_cols)
      | None => inl (ValueError standard_col)
      end
  end.

(** [df.rename(columns=standardized_cols)] on the column names. *)
Definition rename (standardized_cols : gmap string string) (columns : list string)
  : list string :=
  map (λ c, default c (standardized_cols !! c)) columns.

(** The cell of the first column called [name]. *)
Definition cell_of (columns : list string) (name : string) (row : list RawCell) : RawCell :=
  match list_find (λ c, c = name) columns with
  | Some (i, _) => default RBlank (row !! i)
  | None => RBlank
  end.

(** The four text fields are taken as text: a numeric cell by its
    decimal digits, a blank one by the text pandas shows for it.  This
    is what pandas holds for a column of text cells; a column of numeric
    cells is a column of integers in pandas and a blank cell is NaN,
    which the strings of a [Row] do not distinguish. *)
Definition text_of (c : RawCell) : string :=
  match c with
  | RText s => s
  | RInt z => pretty z
  | RBlank => "nan"
  end.

(** [pd.to_numeric(..., errors="coerce").fillna(0).astype(int)] on one
    cell: a finite number truncated, anything else 0.  This is what
    pandas returns for numeric and blank cells and for text that is no
    number; for text that reads as a number the value follows [float],
    without the rounding to binary64, and the error that [astype] raises
    for an infinite value is left out. *)
Definition quantity_of (c : RawCell) : Z :=
  match c with
  | RInt z => z
  | RText s =>
      match Py.float_of s with
      | Some (Py.FNum q) => Z.quot (Qnum q) (Zpos (Qden q))
      | _ => 0
      end
  | RBlank => 0
  end.

Definition standardize (file : ReadResult) : Exn + Frame :=
  match file with
  | ReadNotFound => inl FileNotFoundError
  | ReadFailed msg => inl (RuntimeError ("读取文件失败：" +:+ msg))
  | ReadOk df =>
      match match_fields (rf_columns df) field_mapping ∅ with
      | inl e => inl e
      | inr standardized_cols =>
          let columns := rename standardized_cols (rf_columns df) in
          inr (map (λ row,
                 mkRow (text_of (cell_of columns "类型" row))
                       (text_of (cell_of columns "图案" row))
                       (text_of (cell_of columns "颜色" row))
                       (text_of (cell_of columns "规格" row))
                       (quantity_of (cell_of columns "数量" row))) (rf_rows df))
      end
  end.

(** What a call of [generate] comes to: an exception raised to the
    caller, or the workbook handed to [wb.save]. *)
Inductive Outcome :=
  | Raised (e : Exn)
  | Saved (wb : list Sheet.Worksheet).

(** [CompleteTableGenerator.generate]: the summary sheet first, then one
    detail sheet per type. *)
Definition generate (date_str : string) (file : ReadResult) : Outcome :=
  match standardize file with
  | inl e => Raised e
  | inr df =>
      let type_aggregation := Gen._calculate_type_aggregation date_str df in
      let ws_type :=
        Gen.ts_ws (Gen._generate_original_type_sheet Sheet.empty_sheet type_aggregation) in
      let details :=
        map (λ g, Gen.ps_ws (Gen._generate_type_pattern_sheet date_str Sheet.empty_sheet
                               (fst g) (snd g)))
            (groupby r_type df) in
      Saved (ws_type :: details)
  end.

End Std.

(** ** Vocabulary of the statements *)

Module Props.

Import Sheet Gen.

(** [f] never breaks the property [Q] of a cell that has it. *)
Definition keeps (Q : Z * Z → Cell → Prop) (f : Worksheet → Worksheet) : Prop :=
  ∀ ws k, Q k (get_cell ws k) → Q k (get_cell (f ws) k).

(** [f] leaves the list of merged ranges as it was. *)
Definition same_merged (f : Worksheet → Worksheet) : Prop :=
  ∀ ws, ws_merged (f ws) = ws_merged ws.

(** A rectangle of cells is a [Range]; [inside R k] says that the
    position [k] lies in it. *)
Definition inside (R : Range) (k : Z * Z) : Prop :=
  mr_row R ≤ fst k ≤ mr_end_row R ∧ mr_col R ≤ snd k ≤ mr_end_col R.

Definition disjoint (R1 R2 : Range) : Prop := ∀ k, inside R1 k → ¬ inside R2 k.

(** No two rectangles of the list intersect. *)
Definition apart (rs : list Range) : Prop :=
  ∀ i j R1 R2, rs !! i = Some R1 → rs !! j = Some R2 → i ≠ j → disjoint R1 R2.

(** The merged title band of a block. *)
Definition band (R : Range) : Range :=
  mkRange (mr_row R) (mr_col R) (mr_row R) (mr_end_col R).

Definition thin (k : Z * Z) (c : Cell) : Prop := c_border c = block_border.
Definition bare (k : Z * Z) (c : Cell) : Prop := c_border c = no_border.

(** The rectangle of a block: title row to total row, anchor column to
    the last of its columns. *)
Definition block_rect (rows cols r c : Z) : Range :=
  mkRange r c (r + rows + 2) (c + cols - 1).

Definition pattern_rect (S : Struct) (r c : Z) : Range :=
  block_rect (st_row_count S) (st_total_cols S) r c.

Definition type_rect (td : TypeData) (r : Z) : Range :=
  block_rect (td_data_rows td) (td_total_cols td) r 1.

(** No table cell is None. *)
Definition no_none (data : list (list Value)) : Prop :=
  ∀ row v, row ∈ data → v ∈ row → v ≠ VNone.

(** What the renderers rely on in a table. *)
Definition wf_struct (S : Struct) : Prop :=
  1 ≤ st_total_cols S ∧ len (st_data S) = st_row_count S ∧
  0 ≤ st_spec_count S ∧ 2 ≤ st_total_col_idx S ≤ st_total_cols S ∧
  no_none (st_data S).

Definition wf_type (td : TypeData) : Prop :=
  len (td_specs td) + 2 ≤ td_total_cols td ∧
  len (td_data td) = td_data_rows td ∧
  td_total_col_idx td = len (td_specs td) + 2 ∧
  no_none (td_data td).

(** The value a detail block holds at position [k], where it writes
    one: title, headers, table cells, and in the total row the label and
    the SUM formulas over the data rows of the column. *)
Definition pattern_value (title : string) (S : Struct) (r c : Z) (k : Z * Z)
  : option Value :=
  let i := fst k - r in
  let o := snd k - c in
  if i =? 0 then (if o =? 0 then Some (VStr title) else None)
  else if i =? 1 then Some (VStr (item "" (st_headers S) o))
  else if i <=? st_row_count S + 1 then
    Some (item (VStr "") (item [] (st_data S) (i - 2)) o)
  else if o =? 0 then Some (VStr "合计")
  else if (o <=? st_spec_count S) || (o + 1 =? st_total_col_idx S) then
    Some (VSum (snd k) (r + 2) (r + st_row_count S + 1))
  else None.

(** The same for a summary block, whose anchor column is 1. *)
Definition type_value (td : TypeData) (r : Z) (k : Z * Z) : option Value :=
  let i := fst k - r in
  let col := snd k in
  if i =? 0 then (if col =? 1 then Some (VStr (td_title td)) else None)
  else if i =? 1 then Some (VStr (item "" (td_headers td) (col - 1)))
  else if i <=? td_data_rows td + 1 then
    Some (item (VStr "") (item [] (td_data td) (i - 2)) (col - 1))
  else if col =? 1 then Some (VStr "合计")
  else if (col <=? 1 + len (td_specs td)) || (col =? td_total_col_idx td) then
    Some (VSum col (r + 2) (r + td_data_rows td + 1))
  else None.

(** The total row of a detail block with the [break] of the size loop
    resolved: the loop runs over the sizes that fit into the block. *)
Definition total_cells (S : Struct) (ds de tr c : Z) (ws : Worksheet) : Worksheet :=
  let ws := upd_cell (tr, c) (styled (VStr "合计") bold_font title_total_fill) ws in
  let ws :=
    for_each (range 0 (Z.min (st_spec_count S) (st_total_cols S - 1))) (λ o,
      upd_cell (tr, c + 1 + o)
        (styled (VSum (c + 1 + o) ds de) bold_font title_total_fill)) ws in
  let ws :=
    if c + st_total_col_idx S - 1 <=? c + st_total_cols S - 1 then
      upd_cell (tr, c + st_total_col_idx S - 1)
        (styled (VSum (c + st_total_col_idx S - 1) ds de) bold_font title_total_fill) ws
    else ws in
  for_each (range 0 (st_total_cols S)) (λ o ws,
    if (o =? 0) || ((1 <=? o) && (o <=? st_spec_count S))
       || (o + 1 =? st_total_col_idx S)
    then ws else upd_cell (tr, c + o) padded ws) ws.

(** The cells of one summary block: [type_block] without its spacer. *)
Definition type_cells (td : TypeData) (r : Z) (ws : Worksheet) : Worksheet :=
  type_total_row td (r + 1 + 1) (r + 1 + 1 + td_data_rows td - 1)
    (r + 1 + 1 + td_data_rows td - 1 + 1)
    (type_data_rows td (r + 1 + 1) (type_header td (r + 1) (type_title td r ws))).

(** What a cell of a block must be: bordered, unless it is a merged-away
    cell of the title band, and holding the value of the block there. *)
Definition good_cell (R : Range) (value : Z * Z → option Value)
    (k : Z * Z) (cell : Cell) : Prop :=
  (fst k ≠ mr_row R ∨ snd k = mr_col R → thin k cell) ∧
  (∀ v, value k = Some v → c_value cell = v).

Section Blocks.

(** The blocks of a sheet: each has a rectangle [rect b] and a property
    [good b k] of its cell at [k]. *)
Context {Blk : Type} (rect : Blk → Range) (good : Blk → Z * Z → Cell → Prop).

(** [B] draws the block [b]: it writes inside the rectangle only, merges
    the title band, and leaves every cell of the rectangle good. *)
Definition draws (b : Blk) (B : Worksheet → Worksheet) : Prop :=
  (∀ ws k, ¬ inside (rect b) k → get_cell (B ws) k = get_cell ws k) ∧
  (∀ ws, ws_merged (B ws) = ws_merged ws ++ [band (rect b)]) ∧
  (∀ ws k, inside (rect b) k → good b k (get_cell (B ws) k)).

(** The sheet [ws] holds exactly the blocks [bs]. *)
Record shows (ws : Worksheet) (bs : list Blk) : Prop := mkShows {
  sh_merged : ws_merged ws = map (λ b, band (rect b)) bs;
  sh_good : ∀ b k, b ∈ bs → inside (rect b) k → good b k (get_cell ws k);
  sh_bare : ∀ k, (∀ b, b ∈ bs → ¬ inside (rect b) k) → bare k (get_cell ws k);
  sh_apart : apart (map rect bs);
  sh_rows : ∀ b, b ∈ bs → mr_row (rect b) ≤ mr_end_row (rect b)
}.

End Blocks.

(** *** The blocks of the summary sheet *)

Definition type_block_rect (b : TypeBlock) : Range :=
  type_rect (tb_data b) (tb_row b).

Definition type_block_good (b : TypeBlock) : Z * Z → Cell → Prop :=
  good_cell (type_block_rect b) (type_value (tb_data b) (tb_row b)).

(** The total row of a logged block. *)
Definition type_block_end (b : TypeBlock) : Z :=
  tb_row b + td_data_rows (tb_data b) + 2.

(** What holds of the summary sheet after every round of its loop. *)
Definition type_sheet_ok (st : TypeSheet) : Prop :=
  shows type_block_rect type_block_good (ts_ws st) (ts_log st) ∧
  ∀ b, b ∈ ts_log st → type_block_end b + block_spacing ≤ ts_row st.

(** Blocks stacked from [row] on: every block starts [block_spacing]
    rows below the total row of the one before. *)
Fixpoint stacked (items : list (string * TypeData)) (row : Z) : list TypeBlock :=
  match items with
  | [] => []
  | it :: rest =>
      mkTypeBlock (fst it) (snd it) row
        :: stacked rest (row + td_data_rows (snd it) + 2 + block_spacing)
  end.

(** *** The blocks of a detail sheet *)

Definition placed_rect (p : Placed) : Range :=
  pattern_rect (p_struct (pl_pattern p)) (pl_row p) (pl_col p).

Definition placed_good (type_name date_str : string) (p : Placed)
  : Z * Z → Cell → Prop :=
  good_cell (placed_rect p)
    (pattern_value (block_title type_name date_str (pl_pattern p))
       (p_struct (pl_pattern p)) (pl_row p) (pl_col p)).

(** The end row of the block of pattern [p] anchored at [row]. *)
Definition block_end (p : Pattern) (row : Z) : Z :=
  row + st_row_count (p_struct p) + 2.

(** What holds of a detail sheet after every round of its loops. *)
Definition pattern_sheet_ok (type_name date_str : string) (st : PatternSheet) : Prop :=
  shows placed_rect (placed_good type_name date_str) (ps_ws st) (ps_log st) ∧
  ∀ p, p ∈ ps_log st → mr_end_row (placed_rect p) + block_spacing ≤ ps_row st.

Definition wf_pattern (p : Pattern) : Prop :=
  wf_struct (p_struct p) ∧ st_total_cols (p_struct p) ≤ 10.

(** The two clearing loops at the end of [pair_step], for a left block
    of [tc1] columns and the larger end row [m] of the pair. *)
Definition pair_spacer (tc1 m : Z) (ws : Worksheet) : Worksheet :=
  let current_row := m + block_spacing in
  let ws :=
    _format_blank_column (current_row - block_spacing) m (left_start_col + tc1) ws in
  for_each (range (current_row - block_spacing) current_row) (λ row ws,
    for_each (range (left_start_col + tc1 + 1) right_start_col) (λ col,
      upd_cell (row, col) (set_border no_border)) ws) ws.

(** A band packed two per row from [row] on: the calls of the block
    renderer it leads to, and the row after the band. *)
Inductive packed : list Pattern → Z → list Placed → Z → Prop :=
  | packed_nil row : packed [] row [] row
  | packed_one p row :
      packed [p] row
        [mkPlaced p row left_start_col (block_end p row)]
        (block_end p row + block_spacing)
  | packed_two p q rest row log row' :
      packed rest (Z.max (block_end p row) (block_end q row) + block_spacing) log row' →
      packed (p :: q :: rest) row
        (mkPlaced p row left_start_col (block_end p row)
           :: mkPlaced q row right_start_col (block_end q row) :: log)
        row'.

(** The bands of a sheet packed one after the other. *)
Inductive packed_bands : list (list Pattern) → Z → list Placed → Z → Prop :=
  | bands_nil row : packed_bands [] row [] row
  | bands_cons g gs row log1 row1 log2 row2 :
      packed g row log1 row1 → packed_bands gs row1 log2 row2 →
      packed_bands (g :: gs) row (log1 ++ log2) row2.

End Props.

(** ** Inputs used in the examples *)

Module Examples.

Definition today : string := "2026年11月03日".

(** The three records of the scenario of the specification. *)
Definition scenario : Frame :=
  [ mkRow "A" "P" "Red" "S" 3; mkRow "A" "P" "Red" "M" 5; mkRow "A" "P" "Blue" "S" 2 ].

(** The cells of a row of the summary sheet of the scenario, columns 1
    to 6, read through [f]. *)
Definition scenario_row (date_str : string) (f : Sheet.Worksheet → Z * Z → Value) (row : Z)
  : list Value :=
  let ws := Gen.ts_ws (Gen._generate_original_type_sheet Sheet.empty_sheet
                     (Gen._calculate_type_aggregation date_str scenario)) in
  map (λ col, f ws (row, col)) [1; 2; 3; 4; 5; 6].

(** One colour in nine sizes, size [n] in quantity [n]. *)
Definition nine_sizes : Frame :=
  [ mkRow "T" "P" "Red" "1" 1; mkRow "T" "P" "Red" "2" 2; mkRow "T" "P" "Red" "3" 3;
    mkRow "T" "P" "Red" "4" 4; mkRow "T" "P" "Red" "5" 5; mkRow "T" "P" "Red" "6" 6;
    mkRow "T" "P" "Red" "7" 7; mkRow "T" "P" "Red" "8" 8; mkRow "T" "P" "Red" "9" 9 ].

(** A sheet whose size cells are text: the sizes 9 and 10 of type T,
    whose text order differs from their numeric order, and the size M of
    type U. *)
Definition text_sizes : Std.RawFrame :=
  Std.mkRawFrame ["类型"; "图案"; "颜色"; "规格"; "数量"]
    [ [Std.RText "T"; Std.RText "P"; Std.RText "Red"; Std.RText "9"; Std.RInt 1];
      [Std.RText "T"; Std.RText "P"; Std.RText "Red"; Std.RText "10"; Std.RInt 1];
      [Std.RText "U"; Std.RText "Q"; Std.RText "Red"; Std.RText "M"; Std.RInt 1] ].

(** Two types, the first one with two colours. *)
Definition two_types : Frame :=
  [ mkRow "A" "P" "Red" "S" 1; mkRow "A" "P" "Blue" "S" 1; mkRow "B" "P" "Red" "S" 1 ].

(** Three patterns of one type, each with five sizes (seven columns);
    the second has two colours. *)
Definition five (pattern color : string) : Frame :=
  map (λ s, mkRow "T" pattern color s 1) ["1"; "2"; "3"; "4"; "5"].

Definition three_patterns : Frame :=
  five "P1" "Red" ++ five "P2" "Red" ++ five "P2" "Blue" ++ five "P3" "Red".

(** A sheet without a size column. *)
Definition no_size_column : Std.RawFrame :=
  Std.mkRawFrame ["宝贝类型"; "图案"; "颜色"; "件数"]
    [ [Std.RText "T"; Std.RText "P"; Std.RText "Red"; Std.RInt 1] ].

End Examples.

(** ** Orders on sizes and names *)

Module Order.

(** Python's order on text, [a <= b] and [a < b]. *)
Definition text_le (a b : string) : Prop := String.ltb b a = false.
Definition text_lt (a b : string) : Prop := String.ltb a b = true.

(** Text made of ASCII characters only, on which the model of [float]
    is exact. *)
Definition is_ascii (s : string) : Prop :=
  Forall (λ c, (nat_of_ascii c < 128)%nat) (list_ascii_of_string s).

(** The size [s] reads as the whole number [n]; up to 2^53 in magnitude
    a whole number is a float without rounding. *)
Definition whole (s : string) (n : Z) : Prop :=
  ∃ q, Py.float_of s = Some (Py.FNum q) ∧ (q == inject_Z n)%Q ∧ Z.abs n ≤ 2 ^ 53.

End Order.

(** ** Reading a finished sheet *)

Module Read.

Import Sheet.

(** The stored values of the cells of row [r], columns [c] to
    [c + cols - 1]. *)
Definition row_values (ws : Worksheet) (r c cols : Z) : list Value :=
  map (λ j, c_value (get_cell ws (r, c + j))) (seqZ 0 cols).

(** The stored values of [rows] rows from row [r] on. *)
Definition values (ws : Worksheet) (r c rows cols : Z) : list (list Value) :=
  map (λ i, row_values ws (r + i) c cols) (seqZ 0 rows).

(** What a spreadsheet shows in row [r], the formulas evaluated. *)
Definition row_shown (ws : Worksheet) (r c cols : Z) : list Value :=
  map (λ j, eval_cell ws (r, c + j)) (seqZ 0 cols).

(** The number a spreadsheet shows in a cell, 0 for text and for an
    empty cell. *)
Definition shown_number (ws : Worksheet) (k : Z * Z) : Z :=
  match eval_cell ws k with VInt z => z | _ => 0 end.

(** The distinct colours and sizes of a group of records, as the two
    table builders list them before the sizes are put in order. *)
Definition colors_of (group : Frame) : list string :=
  Py.sorted (Py.unique (map r_color group)).

Definition specs_of (group : Frame) : list string :=
  Py.sorted (Py.unique (map r_spec group)).

(** The summed quantity of the records of one colour and size. *)
Definition qty (group : Frame) (color spec : string) : Z :=
  qty_sum (where_eq r_spec spec (where_eq r_color color group)).

(** The absolute values of the quantities, added up. *)
Definition magnitude (df : Frame) : Z := foldr (λ r acc, Z.abs (r_qty r) + acc) 0 df.

(** The quantities are small enough for every sum of some of them to be
    exact, in the 64-bit integers of pandas as in the floating-point
    numbers of a spreadsheet: their magnitude is 2^53 at most. *)
Definition exact (df : Frame) : Prop := magnitude df ≤ 2 ^ 53.

End Read.

(** ** The blocks a frame leads to *)

Module Plan.

Import Gen Props.

(** The blocks of the summary sheet of a frame: the tables of the
    aggregation in descending order of column count, stacked from
    row 1. *)
Definition summary_blocks (date_str : string) (df : Frame) : list TypeBlock :=
  stacked
    (Py.sorted_key (λ x, td_total_cols (snd x)) true
       (_calculate_type_aggregation date_str df)) 1.

(** A band placed two per row from [row] on: the blocks and the row
    after the band. *)
Fixpoint pairs (g : list Pattern) (row : Z) : list Placed * Z :=
  match g with
  | [] => ([], row)
  | [p] =>
      ([mkPlaced p row left_start_col (block_end p row)],
       block_end p row + block_spacing)
  | p :: q :: rest =>
      let '(log, row') :=
        pairs rest (Z.max (block_end p row) (block_end q row) + block_spacing) in
      (mkPlaced p row left_start_col (block_end p row)
         :: mkPlaced q row right_start_col (block_end q row) :: log, row')
  end.

(** The bands placed one after the other. *)
Fixpoint bands (gs : list (list Pattern)) (row : Z) : list Placed :=
  match gs with
  | [] => []
  | g :: gs => let '(log, row') := pairs g row in log ++ bands gs row'
  end.

(** The blocks of the detail sheet of the records of a type: the tables
    of its patterns in ascending order of column count, split into the
    two bands, placed from row 1. *)
Definition detail_blocks (type_data : Frame) : list Placed :=
  bands
    (_group_by_column_range
       (_sort_patterns_by_columns (groupby r_pattern type_data) false)) 1.

End Plan.

(** ** The order of the blocks on a sheet *)

Module Layout.

Import Gen Order.



End Layout.

(** ** The columns of the input sheet *)

Module Columns.

Import Std.

(** The alias names one of the columns, up to the case of the letters. *)
Definition present (columns : list string) (alias : string) : Prop :=
  lower alias ∈ map lower columns.

(** The field has a column under one of its aliases. *)
Definition found (columns : list string) (field : string * list string) : Prop :=
  Exists (present columns) (snd field).

End Columns.

(** ** The look of the cells *)

Module Look.

Import Sheet Gen.

(** A cell written with a value and the four styles of a block cell. *)
Definition full (v : Value) (font : Font) (fill : Fill) : Cell :=
  mkCell v font fill center_align block_border.

(** The fill of the data row at [row_offset]: white, and the header
    colour in every second row. *)
Definition stripe (row_offset : Z) : Fill :=
  if row_offset mod 2 =? 1 then header_fill else white_fill.

(** The cell a detail block anchored at ([r], [c]) on blank cells leaves
    at position [k] of its rectangle: the title cell (the rest of the
    title row is merged into it and stays unwritten), the headers, the
    table cells, and the total row with its label, its formulas and its
    padding. *)
Definition pattern_cell (title : string) (S : Struct) (r c : Z) (k : Z * Z) : Cell :=
  let i := fst k - r in
  let o := snd k - c in
  if i =? 0 then
    (if o =? 0 then full (VStr title) bold_font title_total_fill else blank)
  else if i =? 1 then full (VStr (item "" (st_headers S) o)) bold_font header_fill
  else if i <=? st_row_count S + 1 then
    full (item (VStr "") (item [] (st_data S) (i - 2)) o)
      (if (o =? 0) || (o + 1 =? st_total_col_idx S) then bold_font else normal_font)
      (stripe (i - 2))
  else if o =? 0 then full (VStr "合计") bold_font title_total_fill
  else if (o <=? st_spec_count S) || (o + 1 =? st_total_col_idx S) then
    full (VSum (snd k) (r + 2) (r + st_row_count S + 1)) bold_font title_total_fill
  else padded blank.


(** A cell of the gap column after [_format_blank_column]. *)
Definition gap_cell : Cell :=
  set_alignment center_align (set_border no_border (set_fill white_fill blank)).

(** The row in which a pair of blocks ends: the lower of the total rows
    of the blocks that share the row of [p]. *)
Definition gap_row (log : list Placed) (p : Placed) : Z :=
  foldr Z.max (pl_end p) (map pl_end (filter (λ q, pl_row q = pl_row p) log)).

(** Whether [k] is the gap cell of the pair of the left block [p]: the
    cell right of the block in the row in which the pair ends. *)
Definition gap_at (log : list Placed) (p : Placed) (k : Z * Z) : bool :=
  (pl_col p =? left_start_col) && (fst k =? gap_row log p)
  && (snd k =? left_start_col + st_total_cols (p_struct (pl_pattern p))).

Definition is_gap (log : list Placed) (k : Z * Z) : bool :=
  existsb (λ p, gap_at log p k) log.


(** A detail sheet holds the cells of its blocks, the gap cells of its
    pairs, and nothing else. *)
Definition pattern_sheet_exact (type_name date_str : string) (st : PatternSheet) : Prop :=
  (∀ p k, p ∈ ps_log st → Props.inside (Props.placed_rect p) k →
          get_cell (ps_ws st) k
          = pattern_cell (block_title type_name date_str (pl_pattern p))
              (p_struct (pl_pattern p)) (pl_row p) (pl_col p) k) ∧
  (∀ k, (∀ p, p ∈ ps_log st → ¬ Props.inside (Props.placed_rect p) k) →
        get_cell (ps_ws st) k = if is_gap (ps_log st) k then gap_cell else blank) ∧
  (∀ k, ps_row st ≤ fst k → get_cell (ps_ws st) k = blank).

End Look.

(** ** PathConfig: the name of the output file *)

Module Path.

(** The class attributes of [PathConfig]. *)
Record PathConfig := mkPathConfig {
  INPUT_FILE : string;
  OUTPUT_DIR : string;
  OUTPUT_PREFIX : string;
  USE_TIMESTAMP : bool
}.

Definition config : PathConfig :=
  mkPathConfig "D:\桌面\表格生成\备货单.xlsx" "D:\桌面\表格生成" "简洁备货单" true.

(** What [datetime.now()] returns. *)
Record DateTime := mkDateTime {
  dt_year : Z; dt_month : Z; dt_day : Z; dt_hour : Z; dt_minute : Z; dt_second : Z
}.

(** The fields are in the ranges of a clock. *)
Definition valid (t : DateTime) : Prop :=
  1 ≤ dt_month t ≤ 12 ∧ 1 ≤ dt_day t ≤ 31 ∧ 0 ≤ dt_hour t ≤ 23 ∧ 0 ≤ dt_minute t ≤ 59.

(** The directives %m, %d, %H and %M of [strftime]: two digits, with a
    leading zero below 10. *)
Definition two (n : Z) : string := if n <? 10 then "0" +:+ pretty n else pretty n.

(** [now.strftime("%m%d%H%M")] *)
Definition strftime_mdHM (now : DateTime) : string :=
  two (dt_month now) +:+ two (dt_day now) +:+ two (dt_hour now) +:+ two (dt_minute now).

Definition filename (cfg : PathConfig) (now : DateTime) : string :=
  let timestamp := if USE_TIMESTAMP cfg then strftime_mdHM now else "" in
  if bool_decide (timestamp ≠ "") then OUTPUT_PREFIX cfg +:+ timestamp +:+ ".xlsx"
  else OUTPUT_PREFIX cfg +:+ ".xlsx".

Section GetOutputPath.

(** [os.path.join], whose separator depends on the platform. *)
Variable join : string → string → string.

(** [get_output_path]: the directories that exist afterwards and the
    path; [dirs] answers [os.path.exists] and [os.makedirs] creates the
    output directory when it is missing. *)
Definition get_output_path (cfg : PathConfig) (dirs : string → bool) (now : DateTime)
  : (string → bool) * string :=
  let dirs :=
    if negb (dirs (OUTPUT_DIR cfg))
    then λ d, bool_decide (d = OUTPUT_DIR cfg) || dirs d
    else dirs in
  (dirs, join (OUTPUT_DIR cfg) (filename cfg now)).

End GetOutputPath.

End Path.

(** * Properties *)

Section Frames.

Import Sheet Props.

Implicit Types (ws : Worksheet) (k : Z * Z) (f : Worksheet → Worksheet).

Lemma get_upd_eq k g ws : get_cell (upd_cell k g ws) k = g (get_cell ws k).
Proof. unfold get_cell, upd_cell; simpl. by rewrite lookup_insert_eq. Qed.

Lemma get_upd_ne k k' g ws : k ≠ k' → get_cell (upd_cell k g ws) k' = get_cell ws k'.
Proof. intros H. unfold get_cell, upd_cell; simpl. by rewrite lookup_insert_ne. Qed.

Lemma for_each_nil {A S} (body : A → S → S) s : for_each [] body s = s.
Proof. reflexivity. Qed.

Lemma for_each_cons {A S} a (l : list A) (body : A → S → S) s :
  for_each (a :: l) body s = for_each l body (body a s).
Proof. reflexivity. Qed.

Lemma for_each_app {A S} (l1 l2 : list A) (body : A → S → S) s :
  for_each (l1 ++ l2) body s = for_each l2 body (for_each l1 body s).
Proof. unfold for_each. by rewrite foldl_app. Qed.

(** A general invariant rule for loops. *)
Lemma for_each_ind {A S} (P : S → Prop) (l : list A) (body : A → S → S) s :
  P s → (∀ a s, a ∈ l → P s → P (body a s)) → P (for_each l body s).
Proof.
  revert s. induction l as [|a l IH]; intros s Hs H; [done|].
  rewrite for_each_cons. apply IH; [apply H; [left|done] |].
  intros; apply H; [by right|done].
Qed.

Lemma for_each_untouched {A} (l : list A) body ws k :
  (∀ a w, a ∈ l → get_cell (body a w) k = get_cell w k) →
  get_cell (for_each l body ws) k = get_cell ws k.
Proof.
  intros H. apply (for_each_ind (λ w, get_cell w k = get_cell ws k)); [done|].
  intros a w Ha Hw. by rewrite H.
Qed.

Lemma keeps_upd Q k g : (∀ c, Q k c → Q k (g c)) → keeps Q (upd_cell k g).
Proof.
  intros H ws k' Hk'. destruct (decide (k = k')) as [<-|Hne].
  - rewrite get_upd_eq. by apply H.
  - by rewrite get_upd_ne.
Qed.

Lemma keeps_for_each {A} Q (l : list A) body :
  (∀ a, a ∈ l → keeps Q (body a)) → keeps Q (for_each l body).
Proof.
  intros H ws k Hk.
  apply (for_each_ind (λ w, Q k (get_cell w k))); [done|].
  intros a w Ha Hw. by apply (H a Ha).
Qed.

(** A loop establishes [Q] at [k] when one of its rounds does and no
    round breaks it. *)
Lemma for_each_sets {A} Q k (l : list A) body ws :
  (∀ a, a ∈ l → keeps Q (body a)) →
  (∃ a, a ∈ l ∧ ∀ w, Q k (get_cell (body a w) k)) →
  Q k (get_cell (for_each l body ws) k).
Proof.
  intros Hkeep (a & Ha & Hset).
  apply list_elem_of_split in Ha as (l1 & l2 & ->).
  rewrite for_each_app, for_each_cons.
  apply keeps_for_each; [|apply Hset].
  intros b Hb. apply Hkeep. rewrite elem_of_app. right. by right.
Qed.

Lemma same_merged_upd k g : same_merged (upd_cell k g).
Proof. by intros ws. Qed.

Lemma same_merged_for_each {A} (l : list A) body :
  (∀ a, a ∈ l → same_merged (body a)) → same_merged (for_each l body).
Proof.
  intros H ws.
  apply (for_each_ind (λ w, ws_merged w = ws_merged ws)); [done|].
  intros a w Ha Hw. by rewrite (H a Ha w).
Qed.

Lemma elem_of_range a b x : x ∈ range a b ↔ a ≤ x < b.
Proof. unfold range. rewrite elem_of_seqZ. lia. Qed.

Lemma elem_of_enumerate {A} (l : list A) i x :
  (i, x) ∈ enumerate l ↔ 0 ≤ i ∧ l !! Z.to_nat i = Some x.
Proof.
  unfold enumerate, len. rewrite list_elem_of_lookup. split.
  - intros (j & Hj). apply lookup_zip_with_Some in Hj as (i' & x' & Heq & Hi & Hx).
    simplify_eq. apply lookup_seqZ in Hi as [-> ?].
    split; [lia|]. by rewrite Z.add_0_l, Nat2Z.id.
  - intros [Hi Hx]. exists (Z.to_nat i). apply lookup_zip_with_Some.
    exists i, x. split_and!; [done| |done].
    apply lookup_seqZ. apply lookup_lt_Some in Hx. lia.
Qed.

End Frames.

(** ** [sorted] *)

Section Sorting.

Context {A : Type}.

Implicit Types (lt : A → A → bool) (l : list A).

Lemma insert_sorted_perm lt x l : Py.insert_sorted lt x l ≡ₚ x :: l.
Proof.
  induction l as [|y l IH]; simpl; [done|].
  case_match; [|done]. rewrite IH. apply Permutation_swap.
Qed.

(** [sorted] returns a rearrangement of its argument. *)
Lemma sorted_by_perm lt l : Py.sorted_by lt l ≡ₚ l.
Proof.
  induction l as [|x l IH]; simpl; [done|].
  by rewrite insert_sorted_perm, IH.
Qed.

Lemma length_sorted_by lt l : length (Py.sorted_by lt l) = length l.
Proof. by rewrite sorted_by_perm. Qed.

(** The result is in order, for an order [R] that [lt] decides. *)
Lemma sorted_by_sorted lt (R : A → A → Prop) l :
  Transitive R →
  (∀ x y, if lt y x then R y x else R x y) →
  StronglySorted R (Py.sorted_by lt l).
Proof.
  intros HT Hlt. induction l as [|x l IH]; simpl; [constructor|].
  revert IH. generalize (Py.sorted_by lt l) as s. clear l.
  induction s as [|y s IHs]; intros Hs; simpl.
  - repeat constructor.
  - apply StronglySorted_cons in Hs as [Hy Hs].
    pose proof (Hlt x y) as Hxy. destruct (lt y x).
    + apply StronglySorted_cons. split; [|by apply IHs].
      rewrite insert_sorted_perm. by constructor.
    + apply StronglySorted_cons. split.
      * constructor; [done|]. eapply Forall_impl; [done|]. intros z Hz. by etrans.
      * apply StronglySorted_cons. done.
Qed.

Lemma sorted_key_perm (key : A → Z) rev l : Py.sorted_key key rev l ≡ₚ l.
Proof. unfold Py.sorted_key. destruct rev; apply sorted_by_perm. Qed.

Lemma sorted_key_asc (key : A → Z) l :
  StronglySorted (λ a b, key a ≤ key b) (Py.sorted_key key false l).
Proof.
  apply sorted_by_sorted.
  - intros a b c. lia.
  - intros x y. destruct (key y <? key x) eqn:E;
      [apply Z.ltb_lt in E|apply Z.ltb_ge in E]; lia.
Qed.

Lemma sorted_key_desc (key : A → Z) l :
  StronglySorted (λ a b, key b ≤ key a) (Py.sorted_key key true l).
Proof.
  apply sorted_by_sorted.
  - intros a b c. lia.
  - intros x y. destruct (key x <? key y) eqn:E;
      [apply Z.ltb_lt in E|apply Z.ltb_ge in E]; lia.
Qed.


End Sorting.

(** Sizes that all parse as numbers are ordered by value, others as
    text. *)
Example sort_specs_numbers :
  Gen._sort_specs ["10"; "9"; "8.5"; " 7 "] = [" 7 "; "8.5"; "9"; "10"].
Proof. reflexivity. Qed.

Example sort_specs_text : Gen._sort_specs ["S"; "M"; "10"; "9"] = ["10"; "9"; "M"; "S"].
Proof. reflexivity. Qed.

Example float_of_texts :
  map Py.float_of ["12"; "-1.5e1"; "1_0"; "inf"; "XL"; "1e"; "."]
  = [Some (Py.FNum 12); Some (Py.FNum (-15)); Some (Py.FNum 10); Some Py.FPosInf;
     None; None; None].
Proof. reflexivity. Qed.

Example unique_keeps_first : Py.unique ["b"; "a"; "b"; "c"; "a"] = ["b"; "a"; "c"].
Proof. reflexivity. Qed.

(** ** The blocks of the detail sheets *)

Section PatternBlock.

Import Sheet Props Gen.

Implicit Types (ws : Worksheet) (k : Z * Z) (S : Struct).

Lemma thin_styled k v font fill c : thin k (styled v font fill c).
Proof. reflexivity. Qed.

Lemma thin_padded k c : thin k (padded c).
Proof. reflexivity. Qed.

Lemma for_break_split {A St} (l1 l2 : list A) (body : A → St → option St) g s :
  (∀ a s, a ∈ l1 → body a s = Some (g a s)) →
  match l2 with [] => True | a :: _ => ∀ s, body a s = None end →
  for_break (l1 ++ l2) body s = for_each l1 g s.
Proof.
  revert s. induction l1 as [|a l1 IH]; intros s H1 H2.
  - destruct l2 as [|a l2]; [done|]. simpl. by rewrite H2.
  - rewrite <- app_comm_cons. cbn [for_break].
    rewrite H1 by left. rewrite for_each_cons. apply IH; [|done].
    intros; apply H1. by right.
Qed.

(** The loop over the size columns stops at the last column of the
    block: it runs over the first [min n m] offsets. *)
Lemma for_break_until {St} (n m : Z) (stop : Z → bool) (g : Z → St → St) s :
  (∀ o, 0 ≤ o → stop o = true ↔ m ≤ o) →
  for_break (range 0 n) (λ o s, if stop o then None else Some (g o s)) s
  = for_each (range 0 (Z.min n m)) g s.
Proof.
  intros Hstop. unfold range. rewrite !Z.sub_0_r.
  destruct (decide (0 ≤ Z.min n m)) as [Hpos|Hneg].
  - replace n with (Z.min n m + (n - Z.min n m)) at 1 by lia.
    rewrite seqZ_app by lia. apply for_break_split.
    + intros a s' Ha. apply elem_of_seqZ in Ha.
      destruct (stop a) eqn:E; [|done]. apply Hstop in E; lia.
    + rewrite Z.add_0_l. destruct (decide (0 < n - Z.min n m)) as [Hlt|Hge].
      * rewrite seqZ_cons by lia. intros s'.
        assert (stop (Z.min n m) = true) as -> by (apply Hstop; lia). done.
      * by rewrite seqZ_nil by lia.
  - destruct (decide (n ≤ 0)) as [Hn|Hn].
    + by rewrite !seqZ_nil by lia.
    + rewrite (seqZ_nil _ (Z.min n m)) by lia. rewrite seqZ_cons by lia. simpl.
      assert (stop 0 = true) as -> by (apply Hstop; lia). done.
Qed.


End PatternBlock.

Section PatternBlockFacts.

Import Sheet Props Gen.

Implicit Types (ws : Worksheet) (k : Z * Z) (S : Struct).

(** *** Title *)

Lemma pattern_title_only title S r c ws k :
  k ≠ (r, c) → get_cell (pattern_title title S r c ws) k = get_cell ws k.
Proof. intros H. unfold pattern_title. by rewrite get_upd_ne. Qed.

Lemma pattern_title_merged title S r c ws :
  ws_merged (pattern_title title S r c ws)
  = ws_merged ws ++ [mkRange r c r (c + st_total_cols S - 1)].
Proof. reflexivity. Qed.

Lemma pattern_title_sets title S r c ws :
  get_cell (pattern_title title S r c ws) (r, c)
  = styled (VStr title) bold_font title_total_fill (get_cell ws (r, c)).
Proof. unfold pattern_title. by rewrite get_upd_eq. Qed.

(** *** Header *)

Lemma pattern_header_only S hr c ws k :
  ¬ (fst k = hr ∧ c ≤ snd k < c + st_total_cols S) →
  get_cell (pattern_header S hr c ws) k = get_cell ws k.
Proof.
  intros H. unfold pattern_header. apply for_each_untouched.
  intros o w Ho%elem_of_range.
  apply get_upd_ne. intros <-. simpl in H. lia.
Qed.

Lemma pattern_header_merged S hr c ws :
  ws_merged (pattern_header S hr c ws) = ws_merged ws.
Proof.
  unfold pattern_header. apply same_merged_for_each.
  intros; apply same_merged_upd.
Qed.

Lemma pattern_header_thin S hr c ws k :
  fst k = hr → c ≤ snd k < c + st_total_cols S →
  thin k (get_cell (pattern_header S hr c ws) k).
Proof.
  intros Hr Hc. unfold pattern_header. apply for_each_sets.
  - intros o _. apply keeps_upd. intros; apply thin_styled.
  - exists (snd k - c). split; [apply elem_of_range; lia|].
    intros w. replace (hr, c + (snd k - c)) with k.
    + rewrite get_upd_eq. apply thin_styled.
    + destruct k; simpl in *; f_equal; lia.
Qed.

(** *** Data rows *)

Lemma pattern_data_only S ds c ws k :
  ¬ (ds ≤ fst k < ds + len (st_data S) ∧ c ≤ snd k < c + st_total_cols S) →
  get_cell (pattern_data_rows S ds c ws) k = get_cell ws k.
Proof.
  intros H. unfold pattern_data_rows. apply for_each_untouched.
  intros [i row] w Hi.
  apply elem_of_enumerate in Hi as [Hi Hrow]. apply lookup_lt_Some in Hrow.
  apply for_each_untouched. intros o w' Ho%elem_of_range.
  apply get_upd_ne. intros <-. simpl in *. unfold len in H. lia.
Qed.

Lemma pattern_data_merged S ds c ws :
  ws_merged (pattern_data_rows S ds c ws) = ws_merged ws.
Proof.
  unfold pattern_data_rows.
  apply same_merged_for_each. intros rd _. apply same_merged_for_each.
  intros; apply same_merged_upd.
Qed.

Lemma pattern_data_thin S ds c ws k :
  ds ≤ fst k < ds + len (st_data S) → c ≤ snd k < c + st_total_cols S →
  thin k (get_cell (pattern_data_rows S ds c ws) k).
Proof.
  intros Hr Hc.
  destruct (st_data S !! Z.to_nat (fst k - ds)) as [row|] eqn:Hrow.
  2: { apply lookup_ge_None in Hrow. unfold len in Hr. lia. }
  unfold pattern_data_rows. apply for_each_sets.
  - intros rd _. apply keeps_for_each. intros o _. apply keeps_upd.
    intros; apply thin_styled.
  - exists (fst k - ds, row). split; [apply elem_of_enumerate; split; [lia|done]|].
    intros w. apply for_each_sets.
    + intros o _. apply keeps_upd. intros; apply thin_styled.
    + exists (snd k - c). split; [apply elem_of_range; lia|].
      intros w'. cbn [fst snd].
      replace (ds + (fst k - ds), c + (snd k - c)) with k.
      * rewrite get_upd_eq. apply thin_styled.
      * destruct k; simpl in *; f_equal; lia.
Qed.

End PatternBlockFacts.

Section PatternTotalRow.

Import Sheet Props Gen.

Implicit Types (ws : Worksheet) (k : Z * Z) (S : Struct).


Lemma pattern_total_row_eq S ds de tr c ws :
  pattern_total_row S ds de tr c ws = total_cells S ds de tr c ws.
Proof.
  unfold pattern_total_row, total_cells. cbv zeta.
  pose proof (for_break_until (st_spec_count S) (st_total_cols S - 1)
           (λ o, c + st_total_cols S - 1 <? c + 1 + o)
           (λ o w, upd_cell (tr, c + 1 + o)
                     (styled (VSum (c + 1 + o) ds de) bold_font title_total_fill) w))
    as Heq.
  cbv beta in Heq. rewrite Heq; [done|].
  intros o Ho. rewrite Z.ltb_lt. lia.
Qed.

Lemma keeps_thin_padding S tr c o :
  keeps thin (λ ws,
    if (o =? 0) || ((1 <=? o) && (o <=? st_spec_count S))
       || (o + 1 =? st_total_col_idx S)
    then ws else upd_cell (tr, c + o) padded ws).
Proof.
  intros ws k H. case_match; [done|].
  revert H. apply keeps_upd. intros; apply thin_padded.
Qed.

Lemma pattern_total_only S ds de tr c ws k :
  1 ≤ st_total_cols S → 1 ≤ st_total_col_idx S →
  ¬ (fst k = tr ∧ c ≤ snd k < c + st_total_cols S) →
  get_cell (pattern_total_row S ds de tr c ws) k = get_cell ws k.
Proof.
  intros Htc Hidx H. rewrite pattern_total_row_eq. unfold total_cells. cbv zeta.
  rewrite for_each_untouched.
  2: { intros o w Ho%elem_of_range. case_match; [done|].
       apply get_upd_ne. intros <-. simpl in H. lia. }
  assert (∀ w, get_cell
    (if c + st_total_col_idx S - 1 <=? c + st_total_cols S - 1
     then upd_cell (tr, c + st_total_col_idx S - 1)
            (styled (VSum (c + st_total_col_idx S - 1) ds de) bold_font
               title_total_fill) w
     else w) k = get_cell w k) as ->.
  { intros w. case_match eqn:E; [|done]. apply Z.leb_le in E.
    apply get_upd_ne. intros <-. simpl in H. lia. }
  rewrite for_each_untouched.
  2: { intros o w Ho%elem_of_range. apply get_upd_ne. intros <-. simpl in H. lia. }
  apply get_upd_ne. intros <-. simpl in H. lia.
Qed.

Lemma pattern_total_merged S ds de tr c ws :
  ws_merged (pattern_total_row S ds de tr c ws) = ws_merged ws.
Proof.
  rewrite pattern_total_row_eq. unfold total_cells. cbv zeta.
  rewrite same_merged_for_each.
  2: { intros o _ w. by case_match. }
  case_match; [rewrite same_merged_upd|];
    (rewrite same_merged_for_each; [done|]; intros; apply same_merged_upd).
Qed.

Lemma pattern_total_thin S ds de tr c ws k :
  fst k = tr → c ≤ snd k < c + st_total_cols S →
  thin k (get_cell (pattern_total_row S ds de tr c ws) k).
Proof.
  intros Hr Hc. rewrite pattern_total_row_eq. unfold total_cells. cbv zeta.
  assert (k = (tr, c + (snd k - c))) as Hk.
  { destruct k; simpl in *; f_equal; lia. }
  set (o := snd k - c) in *.
  assert (0 ≤ o < st_total_cols S) as Ho by lia.
  set (w1 := upd_cell (tr, c) _ ws).
  set (w2 := for_each (range 0 (Z.min _ _)) _ w1).
  set (w3 := if _ <=? _ then _ else w2).
  assert (thin k (get_cell w2 k) → thin k (get_cell w3 k)) as H23.
  { subst w3. case_match; [|done]. apply keeps_upd. intros; apply thin_styled. }
  assert (thin k (get_cell w1 k) → thin k (get_cell w2 k)) as H12.
  { subst w2. apply keeps_for_each. intros a _. apply keeps_upd.
    intros; apply thin_styled. }
  destruct ((o =? 0) || ((1 <=? o) && (o <=? st_spec_count S))
            || (o + 1 =? st_total_col_idx S)) eqn:E.
  - apply keeps_for_each; [intros; apply keeps_thin_padding|].
    apply orb_true_iff in E as [E|E]; [apply orb_true_iff in E as [E|E]|].
    + apply H23, H12. subst w1. apply Z.eqb_eq in E.
      rewrite Hk, E, Z.add_0_r, get_upd_eq. apply thin_styled.
    + apply H23. subst w2. apply andb_true_iff in E as [E1 E2].
      apply Z.leb_le in E1, E2. apply for_each_sets.
      * intros a _. apply keeps_upd. intros; apply thin_styled.
      * exists (o - 1). split; [apply elem_of_range; lia|].
        intros w. replace (tr, c + 1 + (o - 1)) with k.
        -- rewrite get_upd_eq. apply thin_styled.
        -- rewrite Hk at 1. f_equal. lia.
    + apply Z.eqb_eq in E. subst w3.
      destruct (c + st_total_col_idx S - 1 <=? c + st_total_cols S - 1) eqn:E';
        [|apply Z.leb_gt in E'; lia].
      replace (tr, c + st_total_col_idx S - 1) with k.
      * rewrite get_upd_eq. apply thin_styled.
      * rewrite Hk at 1. f_equal. lia.
  - apply for_each_sets; [intros; apply keeps_thin_padding|].
    exists o. split; [apply elem_of_range; lia|].
    intros w. rewrite E. rewrite <- Hk, get_upd_eq. apply thin_padded.
Qed.

End PatternTotalRow.

Section PatternBlockWhole.

Import Sheet Props Gen.

Implicit Types (ws : Worksheet) (k : Z * Z) (S : Struct).


Lemma pattern_block_unfold ws title S r c :
  _generate_single_pattern_block ws title S r c =
  (pattern_total_row S (r + 1 + 1) (r + 1 + 1 + st_row_count S - 1)
     (r + 1 + 1 + st_row_count S - 1 + 1) c
     (pattern_data_rows S (r + 1 + 1) c
        (pattern_header S (r + 1) c (pattern_title title S r c ws))),
   r + 1 + 1 + st_row_count S - 1 + 1).
Proof. reflexivity. Qed.

Lemma pattern_block_end ws title S r c :
  snd (_generate_single_pattern_block ws title S r c) = r + st_row_count S + 2.
Proof. rewrite pattern_block_unfold. simpl. lia. Qed.

Lemma pattern_block_only ws title S r c k :
  wf_struct S → ¬ inside (pattern_rect S r c) k →
  get_cell (fst (_generate_single_pattern_block ws title S r c)) k = get_cell ws k.
Proof.
  intros (Htc & Hlen & Hsc & Hidx) H. rewrite pattern_block_unfold. cbn [fst].
  assert (0 ≤ st_row_count S) by (rewrite <- Hlen; unfold len; lia).
  unfold inside, pattern_rect, block_rect in H. simpl in H.
  rewrite pattern_total_only; [|lia|lia|lia].
  rewrite pattern_data_only by (rewrite Hlen; lia).
  rewrite pattern_header_only by lia.
  apply pattern_title_only. intros ->. simpl in H. lia.
Qed.

Lemma pattern_block_merged ws title S r c :
  ws_merged (fst (_generate_single_pattern_block ws title S r c))
  = ws_merged ws ++ [band (pattern_rect S r c)].
Proof.
  rewrite pattern_block_unfold. cbn [fst].
  by rewrite pattern_total_merged, pattern_data_merged, pattern_header_merged,
    pattern_title_merged.
Qed.

(** Every cell of the block, the merged-away cells of the title band
    apart, gets the full border. *)
Lemma pattern_block_thin ws title S r c k :
  wf_struct S → inside (pattern_rect S r c) k → fst k ≠ r ∨ snd k = c →
  thin k (get_cell (fst (_generate_single_pattern_block ws title S r c)) k).
Proof.
  intros (Htc & Hlen & Hsc & Hidx) Hin Hk. rewrite pattern_block_unfold. cbn [fst].
  assert (0 ≤ st_row_count S) by (rewrite <- Hlen; unfold len; lia).
  unfold inside, pattern_rect, block_rect in Hin. simpl in Hin.
  destruct (decide (fst k = r + st_row_count S + 2)) as [Ht|Ht].
  { apply pattern_total_thin; lia. }
  rewrite pattern_total_only; [|lia|lia|lia].
  destruct (decide (r + 2 ≤ fst k)) as [Hd|Hd].
  { apply pattern_data_thin; [rewrite Hlen|]; lia. }
  rewrite pattern_data_only by lia.
  destruct (decide (fst k = r + 1)) as [Hh|Hh].
  { apply pattern_header_thin; lia. }
  rewrite pattern_header_only by lia.
  assert (k = (r, c)) as ->.
  { destruct k as [kr kc]; simpl in *. f_equal; lia. }
  rewrite pattern_title_sets. apply thin_styled.
Qed.

End PatternBlockWhole.

(** ** The blocks of the summary sheet *)

Section TypeBlockFacts.

Import Sheet Props Gen.

Implicit Types (ws : Worksheet) (k : Z * Z) (td : TypeData).


Lemma len_nonneg {A} (l : list A) : 0 ≤ len l.
Proof. unfold len. lia. Qed.

Lemma type_title_only td r ws k :
  k ≠ (r, 1) → get_cell (type_title td r ws) k = get_cell ws k.
Proof. intros H. unfold type_title. by rewrite get_upd_ne. Qed.

Lemma type_title_merged td r ws :
  ws_merged (type_title td r ws) = ws_merged ws ++ [mkRange r 1 r (td_total_cols td)].
Proof. reflexivity. Qed.

Lemma type_title_sets td r ws :
  get_cell (type_title td r ws) (r, 1)
  = styled (VStr (td_title td)) bold_font title_total_fill (get_cell ws (r, 1)).
Proof. unfold type_title. by rewrite get_upd_eq. Qed.

Lemma type_header_only td hr ws k :
  ¬ (fst k = hr ∧ 1 ≤ snd k ≤ td_total_cols td) →
  get_cell (type_header td hr ws) k = get_cell ws k.
Proof.
  intros H. unfold type_header. apply for_each_untouched.
  intros o w Ho%elem_of_range. apply get_upd_ne. intros <-. simpl in H. lia.
Qed.

Lemma type_header_merged td hr ws :
  ws_merged (type_header td hr ws) = ws_merged ws.
Proof.
  unfold type_header. apply same_merged_for_each. intros; apply same_merged_upd.
Qed.

Lemma type_header_thin td hr ws k :
  fst k = hr → 1 ≤ snd k ≤ td_total_cols td →
  thin k (get_cell (type_header td hr ws) k).
Proof.
  intros Hr Hc. unfold type_header. apply for_each_sets.
  - intros o _. apply keeps_upd. intros; apply thin_styled.
  - exists (snd k). split; [apply elem_of_range; lia|].
    intros w. replace (hr, snd k) with k by (destruct k; simpl in *; by subst).
    rewrite get_upd_eq. apply thin_styled.
Qed.

Lemma type_data_only td ds ws k :
  ¬ (ds ≤ fst k < ds + len (td_data td) ∧ 1 ≤ snd k ≤ td_total_cols td) →
  get_cell (type_data_rows td ds ws) k = get_cell ws k.
Proof.
  intros H. unfold type_data_rows. apply for_each_untouched.
  intros [i row] w Hi.
  apply elem_of_enumerate in Hi as [Hi Hrow]. apply lookup_lt_Some in Hrow.
  apply for_each_untouched. intros o w' Ho%elem_of_range.
  apply get_upd_ne. intros <-. simpl in *. unfold len in H. lia.
Qed.

Lemma type_data_merged td ds ws :
  ws_merged (type_data_rows td ds ws) = ws_merged ws.
Proof.
  unfold type_data_rows.
  apply same_merged_for_each. intros rd _. apply same_merged_for_each.
  intros; apply same_merged_upd.
Qed.

Lemma type_data_thin td ds ws k :
  ds ≤ fst k < ds + len (td_data td) → 1 ≤ snd k ≤ td_total_cols td →
  thin k (get_cell (type_data_rows td ds ws) k).
Proof.
  intros Hr Hc.
  destruct (td_data td !! Z.to_nat (fst k - ds)) as [row|] eqn:Hrow.
  2: { apply lookup_ge_None in Hrow. unfold len in Hr. lia. }
  unfold type_data_rows. apply for_each_sets.
  - intros rd _. apply keeps_for_each. intros o _. apply keeps_upd.
    intros; apply thin_styled.
  - exists (fst k - ds, row). split; [apply elem_of_enumerate; split; [lia|done]|].
    intros w. apply for_each_sets.
    + intros o _. apply keeps_upd. intros; apply thin_styled.
    + exists (snd k). split; [apply elem_of_range; lia|].
      intros w'. cbn [fst snd].
      replace (ds + (fst k - ds), snd k) with k.
      * rewrite get_upd_eq. apply thin_styled.
      * destruct k; simpl in *; f_equal; lia.
Qed.

Lemma keeps_thin_type_padding td tr col :
  keeps thin (λ ws,
    if (col =? 1) || ((2 <=? col) && (col <=? 1 + len (td_specs td)))
       || (col =? td_total_col_idx td)
    then ws else upd_cell (tr, col) padded ws).
Proof.
  intros ws k H. case_match; [done|].
  revert H. apply keeps_upd. intros; apply thin_padded.
Qed.

Lemma type_total_only td ds de tr ws k :
  wf_type td → ¬ (fst k = tr ∧ 1 ≤ snd k ≤ td_total_cols td) →
  get_cell (type_total_row td ds de tr ws) k = get_cell ws k.
Proof.
  intros (Htc & Hlen & Hidx) H. pose proof (len_nonneg (td_specs td)).
  unfold type_total_row. cbv zeta.
  rewrite for_each_untouched.
  2: { intros o w Ho%elem_of_range. case_match; [done|].
       apply get_upd_ne. intros <-. simpl in H. lia. }
  rewrite get_upd_ne by (intros <-; simpl in H; lia).
  rewrite for_each_untouched.
  2: { intros o w Ho%elem_of_range. apply get_upd_ne. intros <-. simpl in H. lia. }
  apply get_upd_ne. intros <-. simpl in H. lia.
Qed.

Lemma type_total_merged td ds de tr ws :
  ws_merged (type_total_row td ds de tr ws) = ws_merged ws.
Proof.
  unfold type_total_row. cbv zeta.
  rewrite same_merged_for_each.
  2: { intros o _ w. by case_match. }
  rewrite same_merged_upd.
  rewrite same_merged_for_each; [done|]. intros; apply same_merged_upd.
Qed.

Lemma type_total_thin td ds de tr ws k :
  fst k = tr → 1 ≤ snd k ≤ td_total_cols td →
  thin k (get_cell (type_total_row td ds de tr ws) k).
Proof.
  intros Hr Hc. unfold type_total_row. cbv zeta.
  assert (k = (tr, snd k)) as Hk by (destruct k; simpl in *; by subst).
  set (col := snd k) in *.
  set (w1 := upd_cell (tr, 1) _ ws).
  set (w2 := for_each (range 0 _) _ w1).
  set (w3 := upd_cell (tr, td_total_col_idx td) _ w2).
  assert (thin k (get_cell w2 k) → thin k (get_cell w3 k)) as H23.
  { subst w3. apply keeps_upd. intros; apply thin_styled. }
  assert (thin k (get_cell w1 k) → thin k (get_cell w2 k)) as H12.
  { subst w2. apply keeps_for_each. intros a _. apply keeps_upd.
    intros; apply thin_styled. }
  destruct ((col =? 1) || ((2 <=? col) && (col <=? 1 + len (td_specs td)))
            || (col =? td_total_col_idx td)) eqn:E.
  - apply keeps_for_each; [intros; apply keeps_thin_type_padding|].
    apply orb_true_iff in E as [E|E]; [apply orb_true_iff in E as [E|E]|].
    + apply H23, H12. subst w1. apply Z.eqb_eq in E.
      rewrite Hk, E, get_upd_eq. apply thin_styled.
    + apply H23. subst w2. apply andb_true_iff in E as [E1 E2].
      apply Z.leb_le in E1, E2. apply for_each_sets.
      * intros a _. apply keeps_upd. intros; apply thin_styled.
      * exists (col - 2). split; [apply elem_of_range; lia|].
        intros w. replace (tr, 2 + (col - 2)) with k.
        -- rewrite get_upd_eq. apply thin_styled.
        -- rewrite Hk at 1. f_equal. lia.
    + apply Z.eqb_eq in E. subst w3. rewrite <- E, <- Hk, get_upd_eq.
      apply thin_styled.
  - apply for_each_sets; [intros; apply keeps_thin_type_padding|].
    exists col. split; [apply elem_of_range; lia|].
    intros w. rewrite E. rewrite <- Hk, get_upd_eq. apply thin_padded.
Qed.


Lemma type_cells_only td r ws k :
  wf_type td → ¬ inside (type_rect td r) k →
  get_cell (type_cells td r ws) k = get_cell ws k.
Proof.
  intros Hwf H. pose proof Hwf as (Htc & Hlen & Hidx).
  pose proof (len_nonneg (td_specs td)). pose proof (len_nonneg (td_data td)).
  unfold inside, type_rect, block_rect in H. simpl in H. unfold type_cells.
  rewrite type_total_only; [|done|lia].
  rewrite type_data_only by lia.
  rewrite type_header_only by lia.
  apply type_title_only. intros ->. simpl in H. lia.
Qed.

Lemma type_cells_merged td r ws :
  ws_merged (type_cells td r ws) = ws_merged ws ++ [band (type_rect td r)].
Proof.
  unfold type_cells.
  rewrite type_total_merged, type_data_merged, type_header_merged, type_title_merged.
  unfold band, type_rect, block_rect. simpl. do 3 f_equal. lia.
Qed.

Lemma type_cells_thin td r ws k :
  wf_type td → inside (type_rect td r) k → fst k ≠ r ∨ snd k = 1 →
  thin k (get_cell (type_cells td r ws) k).
Proof.
  intros Hwf Hin Hk. pose proof Hwf as (Htc & Hlen & Hidx).
  pose proof (len_nonneg (td_specs td)). pose proof (len_nonneg (td_data td)).
  unfold inside, type_rect, block_rect in Hin. simpl in Hin. unfold type_cells.
  destruct (decide (fst k = r + td_data_rows td + 2)) as [Ht|Ht].
  { apply type_total_thin; lia. }
  rewrite type_total_only; [|done|lia].
  destruct (decide (r + 2 ≤ fst k)) as [Hd|Hd].
  { apply type_data_thin; lia. }
  rewrite type_data_only by lia.
  destruct (decide (fst k = r + 1)) as [Hh|Hh].
  { apply type_header_thin; lia. }
  rewrite type_header_only by lia.
  assert (k = (r, 1)) as ->.
  { destruct k as [kr kc]; simpl in *. f_equal; lia. }
  rewrite type_title_sets. apply thin_styled.
Qed.

(** The spacer row below a block. *)
Lemma type_spacer_only td tr ws k :
  ¬ (fst k = tr + 1 ∧ 1 ≤ snd k ≤ td_total_cols td) →
  get_cell (type_spacer td tr ws) k = get_cell ws k.
Proof.
  intros H. unfold type_spacer, block_spacing. apply for_each_untouched.
  intros row w Hrow%elem_of_range. apply for_each_untouched.
  intros col w' Hcol%elem_of_range. apply get_upd_ne. intros <-. simpl in H. lia.
Qed.

Lemma type_spacer_merged td tr ws :
  ws_merged (type_spacer td tr ws) = ws_merged ws.
Proof.
  unfold type_spacer. apply same_merged_for_each. intros row _.
  apply same_merged_for_each. intros; apply same_merged_upd.
Qed.

Lemma type_spacer_bare td tr : keeps bare (type_spacer td tr).
Proof.
  unfold type_spacer. apply keeps_for_each. intros row _.
  apply keeps_for_each. intros col _. apply keeps_upd. done.
Qed.

End TypeBlockFacts.

(** ** The shape of the tables *)

Section Lengths.

Import Gen.

Lemma len_app {A} (l1 l2 : list A) : len (l1 ++ l2) = len l1 + len l2.
Proof. unfold len. rewrite length_app. lia. Qed.

Lemma len_cons {A} (x : A) (l : list A) : len (x :: l) = 1 + len l.
Proof. unfold len. simpl. lia. Qed.

Lemma len_nil {A} : len (@nil A) = 0.
Proof. reflexivity. Qed.

Lemma len_times {A} (x : A) n : len (times x n) = Z.max 0 n.
Proof. unfold len, times. rewrite length_replicate. lia. Qed.

Lemma len_map {A B} (f : A → B) (l : list A) : len (map f l) = len l.
Proof. unfold len. by rewrite length_map. Qed.

Lemma len_take {A} (n : Z) (l : list A) :
  len (take (Z.to_nat n) l) = Z.min (Z.max 0 n) (len l).
Proof. unfold len. rewrite length_take. lia. Qed.

Lemma len_qty_cells group specs color : len (qty_cells group specs color) = len specs.
Proof. unfold qty_cells. apply len_map. Qed.

Lemma len_insert {A} (l : list A) i x : len (<[i := x]> l) = len l.
Proof. unfold len. by rewrite length_insert. Qed.

End Lengths.

Ltac len_norm :=
  repeat rewrite ?len_app, ?len_times, ?len_cons, ?len_map, ?len_take,
    ?len_qty_cells, ?len_insert, ?(@len_nil string), ?(@len_nil Value) in *.

Section Tables.

Import Sheet Props Gen.

(** The summary table of a type: its column count is the larger of 6 and
    the number of sizes plus 2, with no upper bound. *)
Lemma type_total_cols date_str name group :
  td_total_cols (type_data_of date_str name group)
  = Z.max min_columns (len (td_specs (type_data_of date_str name group)) + 2).
Proof.
  unfold type_data_of; cbn [td_total_cols td_specs]. unfold min_columns.
  set (specs := _sort_specs _).
  pose proof (len_nonneg specs).
  case_match eqn:E.
  - apply Z.ltb_lt in E. len_norm. lia.
  - apply Z.ltb_ge in E. len_norm. lia.
Qed.

Lemma type_headers_len date_str name group :
  len (td_headers (type_data_of date_str name group))
  = td_total_cols (type_data_of date_str name group).
Proof. reflexivity. Qed.

Lemma type_rows_len date_str name group row :
  row ∈ td_data (type_data_of date_str name group) →
  len row = td_total_cols (type_data_of date_str name group).
Proof.
  rewrite type_total_cols.
  unfold type_data_of; cbn [td_total_cols td_specs td_data]. unfold min_columns.
  set (specs := _sort_specs _).
  pose proof (len_nonneg specs).
  intros (color & -> & _)%list_elem_of_fmap.
  case_match eqn:E.
  - apply Z.ltb_lt in E. len_norm. lia.
  - apply Z.ltb_ge in E. len_norm. lia.
Qed.

Lemma no_none_Forall data :
  Forall (Forall (λ v, v ≠ VNone)) data → no_none data.
Proof.
  intros H row v Hrow Hv. rewrite Forall_forall in H.
  specialize (H row Hrow). rewrite Forall_forall in H. by apply H.
Qed.

Lemma qty_cells_some group specs color :
  Forall (λ v, v ≠ VNone) (qty_cells group specs color).
Proof. unfold qty_cells. apply Forall_fmap, Forall_true. done. Qed.

Lemma times_some n : Forall (λ v, v ≠ VNone) (times (VStr "") n).
Proof. unfold times. by apply Forall_replicate. Qed.

Lemma type_data_wf date_str name group : wf_type (type_data_of date_str name group).
Proof.
  split_and!.
  - rewrite type_total_cols. lia.
  - unfold type_data_of; cbn. by rewrite len_map.
  - reflexivity.
  - apply no_none_Forall. unfold type_data_of; cbn [td_data].
    apply Forall_fmap, Forall_true. intros color. cbn.
    constructor; [done|]. rewrite <- !app_assoc.
    repeat apply Forall_app_2; auto using qty_cells_some, times_some.
Qed.

End Tables.

Section PatternTables.

Import Sheet Props Gen.

(** The shape of a detail table, by the number of its sizes. *)
Lemma pattern_struct_shape df :
  let S := _get_pattern_table_structure df in
  let n := len (Py.sorted (Py.unique (map r_spec df))) in
  st_total_cols S = Z.min max_columns (Z.max min_columns (n + 2)) ∧
  len (st_headers S) = st_total_cols S ∧
  (∀ row, row ∈ st_data S → len row = st_total_cols S) ∧
  len (st_data S) = st_row_count S ∧
  st_row_count S = len (Py.sorted (Py.unique (map r_color df))) ∧
  st_spec_count S = n ∧
  st_total_col_idx S = Z.min (n + 2) (st_total_cols S).
Proof.
  unfold _get_pattern_table_structure, min_columns, max_columns.
  set (specs := Py.sorted (Py.unique (map r_spec df))).
  set (colors := Py.sorted _).
  pose proof (len_nonneg specs) as Hn.
  assert (len (["颜色"] ++ specs ++ ["行合计"]) = len specs + 2) as Hb
    by (len_norm; lia).
  rewrite !Hb.
  destruct (len specs + 2 <? 6) eqn:E1; [apply Z.ltb_lt in E1|apply Z.ltb_ge in E1].
  - cbn. split_and!; try done; try lia.
    + len_norm. lia.
    + intros row (color & -> & _)%list_elem_of_fmap. len_norm. lia.
    + by rewrite len_map.
    + case_match eqn:E; [apply Z.ltb_lt in E|apply Z.ltb_ge in E]; lia.
  - destruct (10 <? len specs + 2) eqn:E2;
      [apply Z.ltb_lt in E2|apply Z.ltb_ge in E2].
    + cbn. split_and!; try done; try lia.
      * len_norm. lia.
      * intros row (color & -> & _)%list_elem_of_fmap. len_norm. lia.
      * by rewrite len_map.
      * case_match eqn:E; [apply Z.ltb_lt in E|apply Z.ltb_ge in E]; lia.
    + cbn. split_and!; try done; try lia.
      * intros row (color & -> & _)%list_elem_of_fmap. len_norm. lia.
      * by rewrite len_map.
      * case_match eqn:E; [apply Z.ltb_lt in E|apply Z.ltb_ge in E]; lia.
Qed.

Lemma pattern_struct_cols df :
  6 ≤ st_total_cols (_get_pattern_table_structure df) ≤ 10.
Proof.
  destruct (pattern_struct_shape df) as (H & _). rewrite H.
  unfold min_columns, max_columns. lia.
Qed.

Lemma pattern_struct_wf df : wf_struct (_get_pattern_table_structure df).
Proof.
  destruct (pattern_struct_shape df) as (H1 & H2 & H3 & H4 & H5 & H6 & H7).
  pose proof (pattern_struct_cols df).
  pose proof (len_nonneg (Py.sorted (Py.unique (map r_spec df)))).
  unfold wf_struct. rewrite H6, H7. split_and!; try done; try lia.
  apply no_none_Forall. unfold _get_pattern_table_structure.
  destruct (if _ <? _ then _ else _) as [total_cols headers]. cbn [st_data].
  apply Forall_fmap, Forall_true. intros color.
  apply Forall_app_2; [|apply times_some].
  apply Forall_take. cbn. constructor; [done|].
  apply Forall_app_2; [apply qty_cells_some|by constructor].
Qed.

End PatternTables.

(** ** The values written by a detail block *)

Section PatternValues.

Import Sheet Props Gen.

Implicit Types (ws : Worksheet) (k : Z * Z) (S : Struct).


Lemma value_styled v font fill c : v ≠ VNone → c_value (styled v font fill c) = v.
Proof. by destruct v. Qed.

Lemma value_padded c : c_value (padded c) = c_value c.
Proof. reflexivity. Qed.

Lemma item_lookup {A} (d : A) (l : list A) (i : Z) x :
  0 ≤ i → l !! Z.to_nat i = Some x → item d l i = x.
Proof. intros _ H. unfold item. by rewrite H. Qed.

Lemma pattern_header_value S hr c ws k :
  fst k = hr → c ≤ snd k < c + st_total_cols S →
  c_value (get_cell (pattern_header S hr c ws) k)
  = VStr (item "" (st_headers S) (snd k - c)).
Proof.
  intros Hr Hc. unfold pattern_header.
  apply (for_each_sets
           (λ k cell, c_value cell = VStr (item "" (st_headers S) (snd k - c)))).
  - intros o _. apply keeps_upd. intros cell _. cbn [snd].
    rewrite value_styled by done. do 2 f_equal. lia.
  - exists (snd k - c). split; [apply elem_of_range; lia|].
    intros w. replace (hr, c + (snd k - c)) with k.
    + rewrite get_upd_eq. by rewrite value_styled.
    + destruct k; simpl in *; f_equal; lia.
Qed.

Lemma pattern_data_value S ds c ws k :
  no_none (st_data S) →
  ds ≤ fst k < ds + len (st_data S) → c ≤ snd k < c + st_total_cols S →
  c_value (get_cell (pattern_data_rows S ds c ws) k)
  = item (VStr "") (item [] (st_data S) (fst k - ds)) (snd k - c).
Proof.
  intros Hnn Hr Hc. unfold pattern_data_rows.
  set (Q := λ (k : Z * Z) cell,
         ds ≤ fst k < ds + len (st_data S) → c ≤ snd k < c + st_total_cols S →
         c_value cell = item (VStr "") (item [] (st_data S) (fst k - ds)) (snd k - c)).
  assert (∀ i row o w, (i, row) ∈ enumerate (st_data S) → o ∈ range 0 (st_total_cols S) →
            Q (ds + i, c + o)
              (get_cell (upd_cell (ds + i, c + o)
                 (styled (item (VStr "") row o)
                    (if (o =? 0) || (o + 1 =? st_total_col_idx S)
                     then bold_font else normal_font)
                    (if i mod 2 =? 1 then header_fill else white_fill)) w)
                 (ds + i, c + o))) as Hset.
  { intros i row o w [Hi Hrow]%elem_of_enumerate Ho%elem_of_range _ _.
    rewrite get_upd_eq. cbn [fst snd].
    replace (ds + i - ds) with i by lia. replace (c + o - c) with o by lia.
    rewrite (item_lookup [] _ i row) by done.
    assert (row ∈ st_data S) as Hrin by (by eapply list_elem_of_lookup_2).
    apply value_styled. unfold item.
    destruct (row !! Z.to_nat o) as [v|] eqn:Hv; simpl; [|done].
    eapply Hnn; [done|]. by eapply list_elem_of_lookup_2. }
  destruct (st_data S !! Z.to_nat (fst k - ds)) as [row|] eqn:Hrow.
  2: { apply lookup_ge_None in Hrow. unfold len in Hr. lia. }
  assert (Q k (get_cell
    (for_each (enumerate (st_data S)) (λ rd ws0,
       for_each (range 0 (st_total_cols S)) (λ col_offset,
         upd_cell (ds + rd.1, c + col_offset)
           (styled (item (VStr "") rd.2 col_offset)
              (if (col_offset =? 0) || (col_offset + 1 =? st_total_col_idx S)
               then bold_font else normal_font)
              (if rd.1 mod 2 =? 1 then header_fill else white_fill))) ws0) ws) k)) as HQ;
    [|by apply HQ].
  apply for_each_sets.
  - intros [i row'] Hi. apply keeps_for_each. intros o Ho w k' Hk'.
    destruct (decide ((ds + i, c + o) = k')) as [<-|Hne].
    + by apply Hset.
    + cbn [fst snd]. by rewrite get_upd_ne.
  - exists (fst k - ds, row). split; [apply elem_of_enumerate; split; [lia|done]|].
    intros w. apply for_each_sets.
    + intros o Ho w' k' Hk'.
      destruct (decide ((ds + (fst k - ds, row).1, c + o) = k')) as [<-|Hne].
      * apply Hset; [|done]. apply elem_of_enumerate. split; [simpl; lia|done].
      * by rewrite get_upd_ne.
    + exists (snd k - c). split; [apply elem_of_range; lia|].
      intros w'.
      pose proof (Hset (fst k - ds) row (snd k - c) w') as Hs.
      cbn [fst snd] in *.
      replace (ds + (fst k - ds), c + (snd k - c)) with k in *
        by (destruct k; simpl in *; f_equal; lia).
      apply Hs; [apply elem_of_enumerate; split; [lia|done]|apply elem_of_range; lia].
Qed.

End PatternValues.

Section PatternTotalValues.

Import Sheet Props Gen.

Implicit Types (ws : Worksheet) (k : Z * Z) (S : Struct).

Lemma pattern_total_label S ds de tr c ws :
  2 ≤ st_total_col_idx S →
  c_value (get_cell (pattern_total_row S ds de tr c ws) (tr, c)) = VStr "合计".
Proof.
  intros Hidx. rewrite pattern_total_row_eq. unfold total_cells. cbv zeta.
  rewrite for_each_untouched.
  2: { intros o w Ho%elem_of_range. case_match eqn:E; [done|].
       apply get_upd_ne. intros [= Heq]. assert (o = 0) as -> by lia. done. }
  assert (∀ w, get_cell
    (if c + st_total_col_idx S - 1 <=? c + st_total_cols S - 1
     then upd_cell (tr, c + st_total_col_idx S - 1)
            (styled (VSum (c + st_total_col_idx S - 1) ds de) bold_font
               title_total_fill) w
     else w) (tr, c) = get_cell w (tr, c)) as ->.
  { intros w. case_match; [|done]. apply get_upd_ne. intros [= Heq]. lia. }
  rewrite for_each_untouched.
  2: { intros o w Ho%elem_of_range. apply get_upd_ne. intros [= Heq]. lia. }
  by rewrite get_upd_eq.
Qed.

Lemma pattern_total_sum S ds de tr c ws k :
  fst k = tr → 1 ≤ snd k - c < st_total_cols S →
  snd k - c ≤ st_spec_count S ∨ snd k - c + 1 = st_total_col_idx S →
  c_value (get_cell (pattern_total_row S ds de tr c ws) k) = VSum (snd k) ds de.
Proof.
  intros Hr Hc Hcase. rewrite pattern_total_row_eq. unfold total_cells. cbv zeta.
  set (Q := λ (k : Z * Z) cell, c_value cell = VSum (snd k) ds de).
  assert (k = (tr, c + (snd k - c))) as Hk.
  { destruct k; simpl in *; f_equal; lia. }
  set (o := snd k - c) in *.
  set (w1 := upd_cell (tr, c) _ ws).
  set (w2 := for_each (range 0 (Z.min _ _)) _ w1).
  set (w3 := if _ <=? _ then _ else w2).
  assert (Q k (get_cell w2 k) → Q k (get_cell w3 k)) as H23.
  { subst w3. case_match; [|done]. apply keeps_upd. intros; reflexivity. }
  change (Q k (get_cell (for_each (range 0 (st_total_cols S)) (λ o ws,
            if (o =? 0) || ((1 <=? o) && (o <=? st_spec_count S))
               || (o + 1 =? st_total_col_idx S)
            then ws else upd_cell (tr, c + o) padded ws) w3) k)).
  apply keeps_for_each.
  { intros a _ w k' Hk'. case_match; [done|]. revert Hk'. apply keeps_upd.
    intros cell Hc'. unfold Q in *. by rewrite value_padded. }
  destruct (decide (o ≤ st_spec_count S)) as [Hsc|Hsc].
  - apply H23. subst w2. apply for_each_sets.
    + intros a _. apply keeps_upd. intros; reflexivity.
    + exists (o - 1). split; [apply elem_of_range; lia|].
      intros w. replace (tr, c + 1 + (o - 1)) with k.
      * rewrite get_upd_eq. unfold Q. cbn. f_equal. rewrite Hk. simpl. lia.
      * rewrite Hk at 1. f_equal. lia.
  - destruct Hcase as [?|Hidx]; [lia|]. subst w3.
    destruct (c + st_total_col_idx S - 1 <=? c + st_total_cols S - 1) eqn:E';
      [|apply Z.leb_gt in E'; lia].
    replace (tr, c + st_total_col_idx S - 1) with k.
    + rewrite get_upd_eq. unfold Q. cbn. f_equal. rewrite Hk. simpl. lia.
    + rewrite Hk at 1. f_equal. lia.
Qed.

(** Every value of the specification is in the sheet after the block is
    drawn. *)
Lemma pattern_block_value ws title S r c k v :
  wf_struct S → 2 ≤ st_total_col_idx S → no_none (st_data S) →
  inside (pattern_rect S r c) k → pattern_value title S r c k = Some v →
  c_value (get_cell (fst (_generate_single_pattern_block ws title S r c)) k) = v.
Proof.
  intros (Htc & Hlen & Hsc & Hidx) Hidx2 Hnn Hin Hv.
  rewrite pattern_block_unfold. cbn [fst].
  assert (0 ≤ st_row_count S) by (rewrite <- Hlen; unfold len; lia).
  unfold inside, pattern_rect, block_rect in Hin. simpl in Hin.
  unfold pattern_value in Hv. cbv zeta in Hv.
  destruct (fst k - r =? 0) eqn:E0; [apply Z.eqb_eq in E0|apply Z.eqb_neq in E0].
  { destruct (snd k - c =? 0) eqn:Ec; [apply Z.eqb_eq in Ec|done].
    injection Hv as <-.
    assert (k = (r, c)) as -> by (destruct k; simpl in *; f_equal; lia).
    rewrite pattern_total_only; [|lia|lia|simpl; lia].
    rewrite pattern_data_only by (simpl; lia).
    rewrite pattern_header_only by (simpl; lia).
    by rewrite pattern_title_sets. }
  destruct (fst k - r =? 1) eqn:E1; [apply Z.eqb_eq in E1|apply Z.eqb_neq in E1].
  { injection Hv as <-.
    rewrite pattern_total_only; [|lia|lia|lia].
    rewrite pattern_data_only by lia.
    apply pattern_header_value; lia. }
  destruct (fst k - r <=? st_row_count S + 1) eqn:E2;
    [apply Z.leb_le in E2|apply Z.leb_gt in E2].
  { injection Hv as <-.
    rewrite pattern_total_only; [|lia|lia|lia].
    replace (fst k - r - 2) with (fst k - (r + 1 + 1)) by lia.
    apply pattern_data_value; [done|rewrite Hlen; lia|lia]. }
  destruct (snd k - c =? 0) eqn:Ec; [apply Z.eqb_eq in Ec|apply Z.eqb_neq in Ec].
  { injection Hv as <-.
    assert (k = (r + 1 + 1 + st_row_count S - 1 + 1, c)) as ->
      by (destruct k; simpl in *; f_equal; lia).
    by apply pattern_total_label. }
  destruct ((snd k - c <=? st_spec_count S) || (snd k - c + 1 =? st_total_col_idx S))
    eqn:E3; [|done].
  injection Hv as <-.
  replace (r + 2) with (r + 1 + 1) by lia.
  replace (r + st_row_count S + 1) with (r + 1 + 1 + st_row_count S - 1) by lia.
  apply pattern_total_sum; [lia|lia|].
  apply orb_true_iff in E3 as [E3|E3]; [left; by apply Z.leb_le|right; by apply Z.eqb_eq].
Qed.

End PatternTotalValues.

(** ** The values written by a summary block *)

Section TypeValues.

Import Sheet Props Gen.

Implicit Types (ws : Worksheet) (k : Z * Z) (td : TypeData).


Lemma type_header_value td hr ws k :
  fst k = hr → 1 ≤ snd k ≤ td_total_cols td →
  c_value (get_cell (type_header td hr ws) k)
  = VStr (item "" (td_headers td) (snd k - 1)).
Proof.
  intros Hr Hc. unfold type_header.
  apply (for_each_sets
           (λ k cell, c_value cell = VStr (item "" (td_headers td) (snd k - 1)))).
  - intros o _. apply keeps_upd. intros cell _. by rewrite value_styled.
  - exists (snd k). split; [apply elem_of_range; lia|].
    intros w. replace (hr, snd k) with k by (destruct k; simpl in *; by subst).
    rewrite get_upd_eq. by rewrite value_styled.
Qed.

Lemma type_data_value td ds ws k :
  no_none (td_data td) →
  ds ≤ fst k < ds + len (td_data td) → 1 ≤ snd k ≤ td_total_cols td →
  c_value (get_cell (type_data_rows td ds ws) k)
  = item (VStr "") (item [] (td_data td) (fst k - ds)) (snd k - 1).
Proof.
  intros Hnn Hr Hc. unfold type_data_rows.
  set (Q := λ (k : Z * Z) cell,
         ds ≤ fst k < ds + len (td_data td) → 1 ≤ snd k ≤ td_total_cols td →
         c_value cell = item (VStr "") (item [] (td_data td) (fst k - ds)) (snd k - 1)).
  assert (∀ i row col w, (i, row) ∈ enumerate (td_data td) →
            Q (ds + i, col)
              (get_cell (upd_cell (ds + i, col)
                 (styled (item (VStr "") row (col - 1))
                    (if (col =? 1) || (col =? td_total_col_idx td)
                     then bold_font else normal_font)
                    (if i mod 2 =? 1 then header_fill else white_fill)) w)
                 (ds + i, col))) as Hset.
  { intros i row col w [Hi Hrow]%elem_of_enumerate _ _.
    rewrite get_upd_eq. cbn [fst snd].
    replace (ds + i - ds) with i by lia.
    rewrite (item_lookup [] _ i row) by done.
    assert (row ∈ td_data td) as Hrin by (by eapply list_elem_of_lookup_2).
    apply value_styled. unfold item.
    destruct (row !! Z.to_nat (col - 1)) as [v|] eqn:Hv; simpl; [|done].
    eapply Hnn; [done|]. by eapply list_elem_of_lookup_2. }
  destruct (td_data td !! Z.to_nat (fst k - ds)) as [row|] eqn:Hrow.
  2: { apply lookup_ge_None in Hrow. unfold len in Hr. lia. }
  assert (Q k (get_cell
    (for_each (enumerate (td_data td)) (λ rd ws0,
       for_each (range 1 (td_total_cols td + 1)) (λ col,
         upd_cell (ds + rd.1, col)
           (styled (item (VStr "") rd.2 (col - 1))
              (if (col =? 1) || (col =? td_total_col_idx td)
               then bold_font else normal_font)
              (if rd.1 mod 2 =? 1 then header_fill else white_fill))) ws0) ws) k)) as HQ;
    [|by apply HQ].
  apply for_each_sets.
  - intros [i row'] Hi. apply keeps_for_each. intros o Ho w k' Hk'.
    destruct (decide ((ds + i, o) = k')) as [<-|Hne].
    + by apply Hset.
    + cbn [fst snd]. by rewrite get_upd_ne.
  - exists (fst k - ds, row). split; [apply elem_of_enumerate; split; [lia|done]|].
    intros w. apply for_each_sets.
    + intros o Ho w' k' Hk'.
      destruct (decide ((ds + (fst k - ds, row).1, o) = k')) as [<-|Hne].
      * apply Hset. apply elem_of_enumerate. split; [simpl; lia|done].
      * by rewrite get_upd_ne.
    + exists (snd k). split; [apply elem_of_range; lia|].
      intros w'.
      pose proof (Hset (fst k - ds) row (snd k) w') as Hs.
      cbn [fst snd] in *.
      replace (ds + (fst k - ds), snd k) with k in *
        by (destruct k; simpl in *; f_equal; lia).
      apply Hs. apply elem_of_enumerate; split; [lia|done].
Qed.

Lemma type_total_label td ds de tr ws :
  wf_type td →
  c_value (get_cell (type_total_row td ds de tr ws) (tr, 1)) = VStr "合计".
Proof.
  intros (Htc & Hlen & Hidx). pose proof (len_nonneg (td_specs td)).
  unfold type_total_row. cbv zeta.
  rewrite for_each_untouched.
  2: { intros o w Ho%elem_of_range. case_match eqn:E; [done|].
       apply get_upd_ne. intros [= Heq]. by subst o. }
  rewrite get_upd_ne by (intros [= Heq]; lia).
  rewrite for_each_untouched.
  2: { intros o w Ho%elem_of_range. apply get_upd_ne. intros [= Heq]. lia. }
  by rewrite get_upd_eq.
Qed.

Lemma type_total_sum td ds de tr ws k :
  fst k = tr → 2 ≤ snd k ≤ td_total_cols td →
  snd k ≤ 1 + len (td_specs td) ∨ snd k = td_total_col_idx td →
  c_value (get_cell (type_total_row td ds de tr ws) k) = VSum (snd k) ds de.
Proof.
  intros Hr Hc Hcase. unfold type_total_row. cbv zeta.
  set (Q := λ (k : Z * Z) cell, c_value cell = VSum (snd k) ds de).
  assert (k = (tr, snd k)) as Hk by (destruct k; simpl in *; by subst).
  set (col := snd k) in *.
  set (w1 := upd_cell (tr, 1) _ ws).
  set (w2 := for_each (range 0 _) _ w1).
  set (w3 := upd_cell (tr, td_total_col_idx td) _ w2).
  assert (Q k (get_cell w2 k) → Q k (get_cell w3 k)) as H23.
  { subst w3. apply keeps_upd. intros; reflexivity. }
  change (Q k (get_cell (for_each (range 1 (td_total_cols td + 1)) (λ col_idx ws,
            if (col_idx =? 1) || ((2 <=? col_idx) && (col_idx <=? 1 + len (td_specs td)))
               || (col_idx =? td_total_col_idx td)
            then ws else upd_cell (tr, col_idx) padded ws) w3) k)).
  apply keeps_for_each.
  { intros a _ w k' Hk'. case_match; [done|]. revert Hk'. apply keeps_upd.
    intros cell Hc'. unfold Q in *. by rewrite value_padded. }
  destruct (decide (col ≤ 1 + len (td_specs td))) as [Hsc|Hsc].
  - apply H23. subst w2. apply for_each_sets.
    + intros a _. apply keeps_upd. intros; reflexivity.
    + exists (col - 2). split; [apply elem_of_range; lia|].
      intros w. replace (tr, 2 + (col - 2)) with k.
      * rewrite get_upd_eq. unfold Q. cbn. f_equal. rewrite Hk. simpl. lia.
      * rewrite Hk at 1. f_equal. lia.
  - destruct Hcase as [?|Hidx]; [lia|]. subst w3.
    rewrite <- Hidx, <- Hk, get_upd_eq. unfold Q. cbn.
    first [done | f_equal; by rewrite Hk].
Qed.

Lemma type_cells_value td r ws k v :
  wf_type td → no_none (td_data td) →
  inside (type_rect td r) k → type_value td r k = Some v →
  c_value (get_cell (type_cells td r ws) k) = v.
Proof.
  intros Hwf Hnn Hin Hv. pose proof Hwf as (Htc & Hlen & Hidx).
  pose proof (len_nonneg (td_specs td)). pose proof (len_nonneg (td_data td)).
  unfold inside, type_rect, block_rect in Hin. simpl in Hin. unfold type_cells.
  unfold type_value in Hv. cbv zeta in Hv.
  destruct (fst k - r =? 0) eqn:E0; [apply Z.eqb_eq in E0|apply Z.eqb_neq in E0].
  { destruct (snd k =? 1) eqn:Ec; [apply Z.eqb_eq in Ec|done].
    injection Hv as <-.
    assert (k = (r, 1)) as -> by (destruct k; simpl in *; f_equal; lia).
    rewrite type_total_only; [|done|simpl; lia].
    rewrite type_data_only by (simpl; lia).
    rewrite type_header_only by (simpl; lia).
    by rewrite type_title_sets. }
  destruct (fst k - r =? 1) eqn:E1; [apply Z.eqb_eq in E1|apply Z.eqb_neq in E1].
  { injection Hv as <-.
    rewrite type_total_only; [|done|lia].
    rewrite type_data_only by lia.
    apply type_header_value; lia. }
  destruct (fst k - r <=? td_data_rows td + 1) eqn:E2;
    [apply Z.leb_le in E2|apply Z.leb_gt in E2].
  { injection Hv as <-.
    rewrite type_total_only; [|done|lia].
    replace (fst k - r - 2) with (fst k - (r + 1 + 1)) by lia.
    apply type_data_value; [done|lia|lia]. }
  destruct (snd k =? 1) eqn:Ec; [apply Z.eqb_eq in Ec|apply Z.eqb_neq in Ec].
  { injection Hv as <-.
    assert (k = (r + 1 + 1 + td_data_rows td - 1 + 1, 1)) as ->
      by (destruct k; simpl in *; f_equal; lia).
    by apply type_total_label. }
  destruct ((snd k <=? 1 + len (td_specs td)) || (snd k =? td_total_col_idx td))
    eqn:E3; [|done].
  injection Hv as <-.
  replace (r + 2) with (r + 1 + 1) by lia.
  replace (r + td_data_rows td + 1) with (r + 1 + 1 + td_data_rows td - 1) by lia.
  apply type_total_sum; [lia|lia|].
  apply orb_true_iff in E3 as [E3|E3]; [left; by apply Z.leb_le|right; by apply Z.eqb_eq].
Qed.

End TypeValues.

(** ** Sheets as lists of blocks *)

Section Shows.

Import Sheet Props Gen.

Context {Blk : Type} (rect : Blk → Range) (good : Blk → Z * Z → Cell → Prop).

Implicit Types (ws : Worksheet) (k : Z * Z) (b : Blk) (bs : list Blk).

Local Abbreviation shows := (Props.shows rect good).
Local Abbreviation draws := (Props.draws rect good).


Lemma in_range_inside R k : in_range R k = true ↔ inside R k.
Proof.
  unfold in_range, inside. rewrite !andb_true_iff, !Z.leb_le. tauto.
Qed.

Lemma inside_band R k : inside (band R) k → mr_row R ≤ mr_end_row R → inside R k.
Proof. unfold inside, band. simpl. lia. Qed.

Lemma apart_elem bs b1 b2 k :
  apart (map rect bs) → b1 ∈ bs → b2 ∈ bs →
  inside (rect b1) k → inside (rect b2) k → b1 = b2.
Proof.
  intros Hap (i & Hi)%list_elem_of_lookup (j & Hj)%list_elem_of_lookup H1 H2.
  destruct (decide (i = j)) as [->|Hne]; [congruence|].
  destruct (Hap i j (rect b1) (rect b2)) with k; try done.
  - by rewrite list_lookup_fmap, Hi.
  - by rewrite list_lookup_fmap, Hj.
Qed.

Lemma shows_empty title : shows (set_title title empty_sheet) [].
Proof.
  split; [done| | | |].
  - intros b k Hb. by apply elem_of_nil in Hb.
  - intros k _. reflexivity.
  - intros i j R1 R2 Hi. simpl in Hi. by rewrite lookup_nil in Hi.
  - intros b Hb. by apply elem_of_nil in Hb.
Qed.

Lemma apart_snoc rs R :
  apart rs → (∀ R', R' ∈ rs → disjoint R' R) → apart (rs ++ [R]).
Proof.
  intros Hap Hd i j R1 R2 Hi Hj Hne.
  apply lookup_snoc_Some in Hi as [[Hi1 Hi2]|[Hi1 Hi2]];
    apply lookup_snoc_Some in Hj as [[Hj1 Hj2]|[Hj1 Hj2]].
  - by apply (Hap i j).
  - subst R2. apply Hd. by eapply list_elem_of_lookup_2.
  - subst R1. intros k H1 H2. eapply Hd; [by eapply list_elem_of_lookup_2| |]; done.
  - lia.
Qed.

(** Drawing one more block, apart from the ones on the sheet. *)
Lemma shows_add ws bs b B :
  shows ws bs → draws b B → mr_row (rect b) ≤ mr_end_row (rect b) →
  (∀ b', b' ∈ bs → disjoint (rect b') (rect b)) →
  shows (B ws) (bs ++ [b]).
Proof.
  intros [Hm Hg Hb Hap Hrows] (Bonly & Bmerged & Bgood) HR Hd. split.
  - by rewrite Bmerged, Hm, map_app.
  - intros b' k [Hb'|Hb']%elem_of_app Hin.
    + rewrite Bonly by (by apply (Hd b')). by apply Hg.
    + apply list_elem_of_singleton in Hb' as ->. by apply Bgood.
  - intros k Hout. rewrite Bonly.
    + apply Hb. intros b' Hb'. apply Hout. apply elem_of_app. by left.
    + apply Hout. apply elem_of_app. right. by apply list_elem_of_singleton.
  - rewrite map_app. apply apart_snoc; [done|].
    intros R' (b' & -> & Hb')%list_elem_of_fmap. by apply Hd.
  - intros b' [Hb'|Hb']%elem_of_app; [by apply Hrows|].
    by apply list_elem_of_singleton in Hb' as ->.
Qed.

(** Clearing borders in a region that meets no block. *)
Lemma shows_clear ws bs (Sp : Z * Z → Prop) (f : Worksheet → Worksheet) :
  shows ws bs →
  (∀ w k, ¬ Sp k → get_cell (f w) k = get_cell w k) →
  (∀ w, ws_merged (f w) = ws_merged w) →
  keeps bare f →
  (∀ b k, b ∈ bs → Sp k → ¬ inside (rect b) k) →
  shows (f ws) bs.
Proof.
  intros [Hm Hg Hb Hap Hrows] Fonly Fmerged Fbare Hout. split.
  - by rewrite Fmerged.
  - intros b k Hbin Hin. rewrite Fonly; [by apply Hg|].
    intros HS. by apply (Hout b k).
  - intros k Hk. apply Fbare. by apply Hb.
  - done.
  - done.
Qed.

Lemma shows_merged ws bs : shows ws bs → ws_merged ws = map band (map rect bs).
Proof. intros [Hm _ _ _ _]. by rewrite map_map. Qed.

End Shows.

(** ** The summary sheet *)

Section TypeSheetFacts.

Import Sheet Props Gen.

Implicit Types (ws : Worksheet) (k : Z * Z) (td : TypeData) (st : TypeSheet).

Lemma type_block_ws item st :
  ts_ws (type_block item st)
  = type_spacer (snd item) (ts_row st + 1 + 1 + td_data_rows (snd item) - 1 + 1)
      (type_cells (snd item) (ts_row st) (ts_ws st)).
Proof. reflexivity. Qed.

Lemma type_block_row item st :
  ts_row (type_block item st)
  = ts_row st + td_data_rows (snd item) + 2 + block_spacing.
Proof. unfold type_block. simpl. lia. Qed.

Lemma type_block_log item st :
  ts_log (type_block item st)
  = ts_log st ++ [mkTypeBlock (fst item) (snd item) (ts_row st)].
Proof. reflexivity. Qed.

Lemma type_cells_draws name td r :
  wf_type td →
  draws type_block_rect type_block_good (mkTypeBlock name td r) (type_cells td r).
Proof.
  intros Hwf. pose proof Hwf as (_ & _ & _ & Hnn). split_and!.
  - intros ws k Hk. by apply type_cells_only.
  - intros ws. apply type_cells_merged.
  - intros ws k Hin. split.
    + intros Hk. by apply type_cells_thin.
    + intros v Hv. by eapply type_cells_value.
Qed.

Lemma type_block_ok item st :
  wf_type (snd item) → type_sheet_ok st → type_sheet_ok (type_block item st).
Proof.
  intros Hwf [Hshow Hend]. pose proof Hwf as (Htc & Hlen & Hidx & Hnn).
  pose proof (len_nonneg (td_data (snd item))) as Hrows. rewrite Hlen in Hrows.
  pose proof (len_nonneg (td_specs (snd item))) as Hspecs.
  set (b := mkTypeBlock (fst item) (snd item) (ts_row st)).
  split.
  - rewrite type_block_ws, type_block_log. fold b.
    eapply (shows_clear _ _ _ _
              (λ k, fst k = ts_row st + td_data_rows (snd item) + 3 ∧
                    1 ≤ snd k ≤ td_total_cols (snd item))).
    + apply shows_add; [done|by apply type_cells_draws| |].
      * unfold type_block_rect, type_rect, block_rect; simpl. lia.
      * intros b' Hb' k H1 H2. specialize (Hend b' Hb').
        unfold type_block_end, block_spacing in Hend.
        unfold inside, type_block_rect, type_rect, block_rect in *. simpl in *. lia.
    + intros w k Hk. apply type_spacer_only. intros [? ?]. apply Hk. lia.
    + intros w. apply type_spacer_merged.
    + apply type_spacer_bare.
    + intros b' k [Hb'|Hb']%elem_of_app [Hr Hc] Hin.
      * specialize (Hend b' Hb').
        unfold type_block_end, block_spacing in Hend.
        unfold inside, type_block_rect, type_rect, block_rect in *. simpl in *. lia.
      * apply list_elem_of_singleton in Hb' as ->.
        unfold inside, type_block_rect, type_rect, block_rect in *. simpl in *. lia.
  - rewrite type_block_row, type_block_log.
    intros b' [Hb'|Hb']%elem_of_app.
    + specialize (Hend b' Hb'). unfold block_spacing in *. lia.
    + apply list_elem_of_singleton in Hb' as ->. unfold type_block_end. simpl. lia.
Qed.

Lemma type_sheet_start title : type_sheet_ok (mkTypeSheet (set_title title empty_sheet) 1 []).
Proof.
  split; [apply shows_empty|]. intros b Hb. by apply elem_of_nil in Hb.
Qed.

Lemma type_loop_ok items st :
  (∀ it, it ∈ items → wf_type (snd it)) → type_sheet_ok st →
  type_sheet_ok (for_each items type_block st).
Proof.
  intros Hwf Hst. apply for_each_ind; [done|].
  intros it st' Hit Hst'. apply type_block_ok; auto.
Qed.

Lemma type_loop_log items st :
  ts_log (for_each items type_block st) = ts_log st ++ stacked items (ts_row st).
Proof.
  revert st. induction items as [|it items IH]; intros st.
  - by rewrite for_each_nil, app_nil_r.
  - rewrite for_each_cons, IH, type_block_log, type_block_row.
    by rewrite <- app_assoc.
Qed.

(** Every table of the aggregation is one the renderer can draw. *)
Lemma aggregation_wf date_str df it :
  it ∈ _calculate_type_aggregation date_str df → wf_type (snd it).
Proof.
  unfold _calculate_type_aggregation.
  intros (g & -> & _)%list_elem_of_fmap. apply type_data_wf.
Qed.

Lemma type_sheet_final date_str df :
  let st := _generate_original_type_sheet empty_sheet
              (_calculate_type_aggregation date_str df) in
  type_sheet_ok st ∧
  ts_log st
  = stacked (Py.sorted_key (λ x, td_total_cols (snd x)) true
               (_calculate_type_aggregation date_str df)) 1.
Proof.
  unfold _generate_original_type_sheet. cbv zeta. split.
  - apply type_loop_ok; [|apply type_sheet_start].
    intros it Hit. rewrite sorted_key_perm in Hit. by eapply aggregation_wf.
  - by rewrite type_loop_log.
Qed.

End TypeSheetFacts.

(** ** The detail sheets *)

Section PatternSheetFacts.

Import Sheet Props Gen.

Context (type_name date_str : string).

Implicit Types (ws : Worksheet) (k : Z * Z) (p q : Pattern) (st : PatternSheet).

Local Abbreviation ok := (pattern_sheet_ok type_name date_str).
Local Abbreviation title := (block_title type_name date_str).
Local Abbreviation draw ws p r c :=
  (_generate_single_pattern_block ws (title p) (p_struct p) r c).

Lemma pair_step_none group i st :
  group !! i = None → pair_step type_name date_str group i st = st.
Proof. intros H. unfold pair_step. by rewrite H. Qed.

Lemma pair_step_one group i st p :
  group !! i = Some p → group !! (i + 1)%nat = None →
  pair_step type_name date_str group i st
  = mkPatternSheet
      (pair_spacer (st_total_cols (p_struct p)) (block_end p (ps_row st))
         (fst (draw (ps_ws st) p (ps_row st) left_start_col)))
      (block_end p (ps_row st) + block_spacing)
      (ps_log st ++ [mkPlaced p (ps_row st) left_start_col (block_end p (ps_row st))]).
Proof.
  intros H1 H2. unfold pair_step. rewrite H1, H2.
  rewrite pattern_block_unfold. cbv zeta. unfold pair_spacer, block_end.
  replace (ps_row st + 1 + 1 + st_row_count (p_struct p) - 1 + 1)
    with (ps_row st + st_row_count (p_struct p) + 2) by lia.
  by rewrite Z.max_id.
Qed.

Lemma pair_step_two group i st p q :
  group !! i = Some p → group !! (i + 1)%nat = Some q →
  pair_step type_name date_str group i st
  = let m := Z.max (block_end p (ps_row st)) (block_end q (ps_row st)) in
    mkPatternSheet
      (pair_spacer (st_total_cols (p_struct p)) m
         (fst (draw (fst (draw (ps_ws st) p (ps_row st) left_start_col))
                 q (ps_row st) right_start_col)))
      (m + block_spacing)
      ((ps_log st ++ [mkPlaced p (ps_row st) left_start_col (block_end p (ps_row st))])
         ++ [mkPlaced q (ps_row st) right_start_col (block_end q (ps_row st))]).
Proof.
  intros H1 H2. unfold pair_step. rewrite H1, H2.
  rewrite !pattern_block_unfold. cbv zeta. unfold pair_spacer, block_end.
  replace (ps_row st + 1 + 1 + st_row_count (p_struct p) - 1 + 1)
    with (ps_row st + st_row_count (p_struct p) + 2) by lia.
  replace (ps_row st + 1 + 1 + st_row_count (p_struct q) - 1 + 1)
    with (ps_row st + st_row_count (p_struct q) + 2) by lia.
  done.
Qed.

Lemma pair_spacer_only tc1 m ws k :
  tc1 ≤ 10 →
  ¬ (m ≤ fst k ≤ m + 1 ∧ tc1 + 1 ≤ snd k ≤ 11) →
  get_cell (pair_spacer tc1 m ws) k = get_cell ws k.
Proof.
  intros Htc H. unfold pair_spacer, _format_blank_column, block_spacing,
    left_start_col, right_start_col. cbv zeta.
  rewrite for_each_untouched.
  - apply for_each_untouched. intros row w Hrow%elem_of_range.
    apply get_upd_ne. intros <-. simpl in H. lia.
  - intros row w Hrow%elem_of_range. apply for_each_untouched.
    intros col w' Hcol%elem_of_range. apply get_upd_ne. intros <-. simpl in H. lia.
Qed.

Lemma pair_spacer_merged tc1 m ws :
  ws_merged (pair_spacer tc1 m ws) = ws_merged ws.
Proof.
  unfold pair_spacer, _format_blank_column. cbv zeta.
  rewrite same_merged_for_each.
  - apply same_merged_for_each. intros; apply same_merged_upd.
  - intros row _. apply same_merged_for_each. intros; apply same_merged_upd.
Qed.

Lemma pair_spacer_bare tc1 m : keeps bare (pair_spacer tc1 m).
Proof.
  unfold pair_spacer, _format_blank_column. cbv zeta.
  intros ws k Hk. apply keeps_for_each.
  - intros row _. apply keeps_for_each. intros col _. by apply keeps_upd.
  - revert Hk. apply keeps_for_each. intros row _. by apply keeps_upd.
Qed.

Lemma pattern_block_draws p r c e :
  wf_struct (p_struct p) →
  draws placed_rect (placed_good type_name date_str) (mkPlaced p r c e)
    (λ ws, fst (draw ws p r c)).
Proof.
  intros Hwf. pose proof Hwf as (_ & _ & _ & [Hidx _] & Hnn). split_and!.
  - intros ws k Hk. by apply pattern_block_only.
  - intros ws. apply pattern_block_merged.
  - intros ws k Hin. split.
    + intros Hk. by apply pattern_block_thin.
    + intros v Hv. by eapply pattern_block_value.
Qed.

Lemma wf_rows p : wf_pattern p → 0 ≤ st_row_count (p_struct p).
Proof. intros [(_ & <- & _) _]. apply len_nonneg. Qed.

Lemma pair_step_ok group i st :
  (∀ p, p ∈ group → wf_pattern p) → ok st →
  ok (pair_step type_name date_str group i st).
Proof.
  intros Hwf [Hshow Hend].
  destruct (group !! i) as [p|] eqn:H1; [|by rewrite pair_step_none].
  assert (wf_pattern p) as Hp by (by eapply Hwf, list_elem_of_lookup_2).
  pose proof (wf_rows p Hp) as Hprows. destruct Hp as [Hpwf Hpcols].
  pose proof Hpwf as (Hptc & _).
  set (b1 := mkPlaced p (ps_row st) left_start_col (block_end p (ps_row st))).
  assert (shows placed_rect (placed_good type_name date_str)
            (fst (draw (ps_ws st) p (ps_row st) left_start_col))
            (ps_log st ++ [b1])) as Hshow1.
  { apply (shows_add _ _ _ _ _ (λ ws, fst (draw ws p (ps_row st) left_start_col)));
      [done|by apply pattern_block_draws| |].
    - unfold placed_rect, pattern_rect, block_rect; simpl. lia.
    - intros b' Hb' k Hk1 Hk2. specialize (Hend b' Hb'). unfold block_spacing in Hend.
      unfold inside, placed_rect, pattern_rect, block_rect in Hk2. simpl in Hk2.
      unfold inside in Hk1. lia. }
  destruct (group !! (i + 1)%nat) as [q|] eqn:H2.
  - assert (wf_pattern q) as Hq by (by eapply Hwf, list_elem_of_lookup_2).
    pose proof (wf_rows q Hq) as Hqrows. destruct Hq as [Hqwf Hqcols].
    rewrite (pair_step_two group i st p q) by done. cbv zeta.
    set (b2 := mkPlaced q (ps_row st) right_start_col (block_end q (ps_row st))).
    set (m := Z.max _ _).
    assert (block_end p (ps_row st) ≤ m ∧ block_end q (ps_row st) ≤ m) as [Hm1 Hm2]
      by (subst m; lia).
    unfold block_end in Hm1, Hm2.
    split; cbn [ps_ws ps_row ps_log].
    + eapply (shows_clear _ _ _ _
                (λ k, m ≤ fst k ≤ m + 1 ∧ st_total_cols (p_struct p) + 1 ≤ snd k ≤ 11)).
      * apply (shows_add _ _ _ _ _ (λ ws, fst (draw ws q (ps_row st) right_start_col)));
          [done|by apply pattern_block_draws| |].
        -- unfold placed_rect, pattern_rect, block_rect; simpl. lia.
        -- intros b' [Hb'|Hb']%elem_of_app k Hk1 Hk2.
           ++ specialize (Hend b' Hb'). unfold block_spacing in Hend.
              unfold inside, placed_rect, pattern_rect, block_rect in Hk2.
              simpl in Hk2. unfold inside in Hk1. lia.
           ++ apply list_elem_of_singleton in Hb' as ->.
              unfold inside, placed_rect, pattern_rect, block_rect,
                left_start_col, right_start_col in *. simpl in *. lia.
      * intros w k Hk. by apply pair_spacer_only.
      * intros w. apply pair_spacer_merged.
      * apply pair_spacer_bare.
      * intros b' k Hb' [Hr Hc] Hin.
        apply elem_of_app in Hb' as [Hb'|Hb'];
          [apply elem_of_app in Hb' as [Hb'|Hb']|].
        -- specialize (Hend b' Hb'). unfold block_spacing in Hend.
           unfold inside in Hin. lia.
        -- apply list_elem_of_singleton in Hb' as ->.
           unfold inside, placed_rect, pattern_rect, block_rect,
             left_start_col in *. simpl in *. lia.
        -- apply list_elem_of_singleton in Hb' as ->.
           unfold inside, placed_rect, pattern_rect, block_rect,
             right_start_col in *. simpl in *. lia.
    + intros b' Hb'.
      apply elem_of_app in Hb' as [Hb'|Hb'];
        [apply elem_of_app in Hb' as [Hb'|Hb']|].
      * specialize (Hend b' Hb'). unfold block_spacing in *. lia.
      * apply list_elem_of_singleton in Hb' as ->.
        unfold placed_rect, pattern_rect, block_rect; simpl. lia.
      * apply list_elem_of_singleton in Hb' as ->.
        unfold placed_rect, pattern_rect, block_rect; simpl. lia.
  - rewrite (pair_step_one group i st p) by done.
    split; cbn [ps_ws ps_row ps_log].
    + eapply (shows_clear _ _ _ _
                (λ k, block_end p (ps_row st) ≤ fst k ≤ block_end p (ps_row st) + 1 ∧
                      st_total_cols (p_struct p) + 1 ≤ snd k ≤ 11)).
      * done.
      * intros w k Hk. by apply pair_spacer_only.
      * intros w. apply pair_spacer_merged.
      * apply pair_spacer_bare.
      * intros b' k [Hb'|Hb']%elem_of_app [Hr Hc] Hin; unfold block_end in *.
        -- specialize (Hend b' Hb'). unfold block_spacing in Hend.
           unfold inside in Hin. lia.
        -- apply list_elem_of_singleton in Hb' as ->.
           unfold inside, placed_rect, pattern_rect, block_rect,
             left_start_col in *. simpl in *. lia.
    + intros b' [Hb'|Hb']%elem_of_app; unfold block_end.
      * specialize (Hend b' Hb'). unfold block_spacing in *. lia.
      * apply list_elem_of_singleton in Hb' as ->.
        unfold placed_rect, pattern_rect, block_rect; simpl. lia.
Qed.

End PatternSheetFacts.

(** ** Packing the bands *)

Section Packing.

Import Sheet Props Gen.

Context (type_name date_str : string).

Implicit Types (p q : Pattern) (st : PatternSheet) (group : list Pattern).

Lemma pair_ind {A} (P : list A → Prop) :
  P [] → (∀ x, P [x]) → (∀ x y l, P l → P (x :: y :: l)) → ∀ l, P l.
Proof.
  intros H0 H1 H2 l. enough (P l ∧ ∀ x, P (x :: l)) as [? _]; [done|].
  induction l as [|y l [IH1 IH2]]; [by split|]. split; [apply IH2|].
  intros x. by apply H2.
Qed.

(** The loop over [range(0, len(group), 2)] places the band in pairs. *)
Lemma band_loop_packed group rest : ∀ pre st,
  group = pre ++ rest →
  ∃ log,
    ps_log (for_each (Py.range2 (length pre) (length rest))
              (pair_step type_name date_str group) st) = ps_log st ++ log ∧
    packed rest (ps_row st) log
      (ps_row (for_each (Py.range2 (length pre) (length rest))
                 (pair_step type_name date_str group) st)).
Proof.
  induction rest as [|p|p q rest IH] using pair_ind; intros pre st Hg.
  - exists []. simpl. rewrite app_nil_r. split; [done|constructor].
  - cbn [length Py.range2]. rewrite for_each_cons, for_each_nil.
    rewrite (pair_step_one _ _ group _ st p).
    + eexists. split; [done|]. cbn [ps_row]. constructor.
    + subst group. by rewrite lookup_app_r, Nat.sub_diag by lia.
    + subst group. apply lookup_ge_None. rewrite length_app. simpl. lia.
  - cbn [length Py.range2]. rewrite for_each_cons.
    rewrite (pair_step_two _ _ group _ st p q).
    + cbv zeta.
      set (st1 := mkPatternSheet _ _ _).
      destruct (IH (pre ++ [p; q]) st1) as (log & Hlog & Hpacked).
      { subst group. by rewrite <- app_assoc. }
      rewrite length_app in Hlog, Hpacked. cbn [length] in Hlog, Hpacked.
      rewrite Hlog. eexists. split.
      * subst st1. cbn [ps_log]. rewrite <- !app_assoc. reflexivity.
      * simpl. constructor. apply Hpacked.
    + subst group. by rewrite lookup_app_r, Nat.sub_diag by lia.
    + subst group. rewrite lookup_app_r by lia.
      by replace (length pre + 1 - length pre)%nat with 1%nat by lia.
Qed.

Lemma bands_loop_packed groups : ∀ st,
  ∃ log,
    ps_log (for_each groups (λ group st,
              for_each (Py.range2 0 (length group))
                (pair_step type_name date_str group) st) st) = ps_log st ++ log ∧
    packed_bands groups (ps_row st) log
      (ps_row (for_each groups (λ group st,
                 for_each (Py.range2 0 (length group))
                   (pair_step type_name date_str group) st) st)).
Proof.
  induction groups as [|g groups IH]; intros st.
  - exists []. rewrite for_each_nil, app_nil_r. split; [done|constructor].
  - rewrite for_each_cons.
    destruct (band_loop_packed g g [] st eq_refl) as (log1 & Hlog1 & Hp1).
    cbn [length] in Hlog1, Hp1.
    set (st1 := for_each (Py.range2 0 (length g)) _ st) in *.
    destruct (IH st1) as (log2 & Hlog2 & Hp2).
    exists (log1 ++ log2). split.
    + by rewrite Hlog2, Hlog1, <- app_assoc.
    + econstructor; done.
Qed.

Lemma bands_loop_ok groups st :
  (∀ g p, g ∈ groups → p ∈ g → wf_pattern p) →
  pattern_sheet_ok type_name date_str st →
  pattern_sheet_ok type_name date_str
    (for_each groups (λ group st,
       for_each (Py.range2 0 (length group))
         (pair_step type_name date_str group) st) st).
Proof.
  intros Hwf Hst. apply for_each_ind; [done|].
  intros g st' Hg Hst'. apply for_each_ind; [done|].
  intros i st'' _ Hst''. apply pair_step_ok; [|done]. intros p. by apply Hwf.
Qed.

End Packing.

Section PackedFacts.

Import Sheet Props Gen.

(** A packed band lists its tables in order, each one once. *)
Lemma packed_patterns g row log row' :
  packed g row log row' → map pl_pattern log = g.
Proof. induction 1; simpl; congruence. Qed.

Lemma packed_bands_patterns gs row log row' :
  packed_bands gs row log row' → map pl_pattern log = concat gs.
Proof.
  induction 1 as [|g gs row log1 row1 log2 row2 H1 _ IH]; [done|].
  simpl. by rewrite map_app, (packed_patterns _ _ _ _ H1), IH.
Qed.

(** The logged end row of a block is its total row, and the anchor
    column is one of the two fixed columns. *)
Lemma packed_ends g row log row' :
  packed g row log row' →
  Forall (λ pl, pl_end pl = block_end (pl_pattern pl) (pl_row pl) ∧
                (pl_col pl = left_start_col ∨ pl_col pl = right_start_col)) log.
Proof.
  induction 1 as [| |p q rest row log row' _ IH]; [constructor|..].
  - constructor; [|constructor]. split; [done|by left].
  - constructor; [split; [done|by left]|].
    constructor; [split; [done|by right]|done].
Qed.

Lemma packed_bands_ends gs row log row' :
  packed_bands gs row log row' →
  Forall (λ pl, pl_end pl = block_end (pl_pattern pl) (pl_row pl) ∧
                (pl_col pl = left_start_col ∨ pl_col pl = right_start_col)) log.
Proof.
  induction 1 as [|g gs row log1 row1 log2 row2 H1 _ IH]; [constructor|].
  apply Forall_app_2; [by eapply packed_ends|done].
Qed.

End PackedFacts.

Section Bands.

Import Sheet Props Gen.

Implicit Types (p q : Pattern) (group : list Pattern).

Lemma sorted_patterns_elem patterns desc p :
  p ∈ _sort_patterns_by_columns patterns desc →
  p_struct p = _get_pattern_table_structure (p_data p) ∧
  p_col_count p = st_total_cols (p_struct p) ∧
  (p_name p, p_data p) ∈ patterns.
Proof.
  unfold _sort_patterns_by_columns. rewrite sorted_key_perm.
  intros ([name data] & -> & Hin)%list_elem_of_fmap. done.
Qed.

Lemma sorted_patterns_wf patterns desc p :
  p ∈ _sort_patterns_by_columns patterns desc → wf_pattern p.
Proof.
  intros (Hs & _)%sorted_patterns_elem. unfold wf_pattern. rewrite Hs.
  split; [apply pattern_struct_wf|apply pattern_struct_cols].
Qed.

(** A band holds the tables of its width range, in the order of the
    sorted list. *)
Lemma band_elem sorted_patterns g :
  g ∈ _group_by_column_range sorted_patterns →
  g ≠ [] ∧
  (g = filter (λ p, 6 ≤ p_col_count p ≤ 7) sorted_patterns ∨
   g = filter (λ p, ¬ 6 ≤ p_col_count p ≤ 7) sorted_patterns).
Proof.
  unfold _group_by_column_range. cbv zeta.
  intros [Hne Hg]%list_elem_of_filter. split; [done|].
  apply elem_of_cons in Hg as [->|Hg]; [left|right].
  - apply list_filter_iff. intros p.
    rewrite andb_true_iff, !Z.leb_le. tauto.
  - apply list_elem_of_singleton in Hg as ->.
    apply list_filter_iff. intros p.
    rewrite andb_true_iff, !Z.leb_le. tauto.
Qed.

Lemma band_subset sorted_patterns g p :
  g ∈ _group_by_column_range sorted_patterns → p ∈ g → p ∈ sorted_patterns.
Proof.
  intros [_ [->| ->]]%band_elem Hp; by apply list_elem_of_filter in Hp as [_ ?].
Qed.


End Bands.

Section PatternSheetFinal.

Import Sheet Props Gen.

Lemma pattern_sheet_final date_str type_name df :
  let st := _generate_type_pattern_sheet date_str empty_sheet type_name df in
  let bands :=
    _group_by_column_range (_sort_patterns_by_columns (groupby r_pattern df) false) in
  pattern_sheet_ok type_name date_str st ∧
  packed_bands bands 1 (ps_log st) (ps_row st).
Proof.
  unfold _generate_type_pattern_sheet. cbv zeta. split.
  - apply bands_loop_ok.
    + intros g p Hg Hp. eapply sorted_patterns_wf, band_subset; done.
    + split; [apply shows_empty|]. intros p Hp. by apply elem_of_nil in Hp.
  - set (st0 := mkPatternSheet _ 1 []).
    destruct (bands_loop_packed type_name date_str
                (_group_by_column_range
                   (_sort_patterns_by_columns (groupby r_pattern df) false)) st0)
      as (log & Hlog & Hp).
    rewrite Hlog. done.
Qed.

End PatternSheetFinal.

(** ** The contents of the tables *)

Section TableContents.

Import Sheet Props Gen.

Lemma item_app_l {A} (d : A) l1 l2 i :
  0 ≤ i < len l1 → item d (l1 ++ l2) i = item d l1 i.
Proof. intros H. unfold item, len in *. by rewrite lookup_app_l by lia. Qed.

Lemma item_take {A} (d : A) l n i :
  0 ≤ i < n → item d (take (Z.to_nat n) l) i = item d l i.
Proof. intros H. unfold item. by rewrite lookup_take_lt by lia. Qed.

Lemma item_snoc {A} (d x : A) l i : i = len l → item d (l ++ [x]) i = x.
Proof.
  intros ->. unfold item, len. rewrite Nat2Z.id.
  by rewrite lookup_app_r, Nat.sub_diag.
Qed.

Lemma item_qty_cells group specs color i :
  0 ≤ i < len specs → ∃ z, item (VStr "") (qty_cells group specs color) i = VInt z.
Proof.
  intros H. unfold item, qty_cells. rewrite list_lookup_fmap.
  destruct (specs !! Z.to_nat i) eqn:E; simpl; [by eexists|].
  apply lookup_ge_None in E. unfold len in H. lia.
Qed.

Lemma item_qty_cells_eq group specs color i s :
  specs !! Z.to_nat i = Some s →
  item (VStr "") (qty_cells group specs color) i
  = VInt (sum64 (where_eq r_spec s (where_eq r_color color group))).
Proof. intros H. unfold item, qty_cells. by rewrite list_lookup_fmap, H. Qed.

Lemma item_cons {A} (d x : A) l i : 1 ≤ i → item d (x :: l) i = item d l (i - 1).
Proof.
  intros H. unfold item.
  replace (Z.to_nat i) with (S (Z.to_nat (i - 1))) by lia. done.
Qed.

(** The first header of every table is the colour label. *)
Lemma type_headers_first date_str name group :
  item "" (td_headers (type_data_of date_str name group)) 0 = "颜色".
Proof. unfold type_data_of; cbn [td_headers]. by case_match. Qed.

Lemma pattern_headers_first df :
  item "" (st_headers (_get_pattern_table_structure df)) 0 = "颜色".
Proof.
  unfold _get_pattern_table_structure, min_columns, max_columns.
  set (specs := Py.sorted (Py.unique (map r_spec df))).
  assert (len (["颜色"] ++ specs ++ ["行合计"]) = len specs + 2) as Hb
    by (len_norm; lia).
  rewrite !Hb.
  destruct (len specs + 2 <? 6) eqn:E1; [done|].
  destruct (10 <? len specs + 2) eqn:E2; [|done]. apply Z.ltb_lt in E2.
  cbn [st_headers]. unfold item. rewrite list_lookup_insert_ne; [done|].
  rewrite length_take. change (Z.to_nat 10) with 10%nat.
  rewrite !length_app. cbn [length]. unfold len in E2. lia.
Qed.

(** The first cell of the data rows: the colours, in sorted order. *)
Lemma type_rows_first date_str name group :
  map (λ row, item (VStr "") row 0) (td_data (type_data_of date_str name group))
  = map VStr (Py.sorted (Py.unique (map r_color group))).
Proof.
  unfold type_data_of; cbn [td_data]. rewrite map_map. apply map_ext.
  intros color. reflexivity.
Qed.

Lemma pattern_rows_first df :
  map (λ row, item (VStr "") row 0) (st_data (_get_pattern_table_structure df))
  = map VStr (Py.sorted (Py.unique (map r_color df))).
Proof.
  pose proof (pattern_struct_cols df) as Hc.
  unfold _get_pattern_table_structure in *.
  destruct (if _ <? _ then _ else _) as [total_cols headers]. cbn [st_data st_total_cols] in *.
  rewrite map_map. apply map_ext. intros color.
  rewrite item_app_l.
  - rewrite item_take by lia. reflexivity.
  - len_norm. pose proof (len_nonneg (Py.sorted (Py.unique (map r_spec df)))). lia.
Qed.

(** The cell of a data row in the row-total column is an integer. *)
Lemma type_rows_total date_str name group :
  let td := type_data_of date_str name group in
  Forall (λ row, ∃ z, item (VStr "") row (td_total_col_idx td - 1) = VInt z) (td_data td).
Proof.
  unfold type_data_of; cbn [td_data td_total_col_idx].
  set (specs := _sort_specs _).
  apply Forall_fmap, Forall_true. intros color. cbn.
  eexists. rewrite app_comm_cons. rewrite item_app_l.
  - apply (item_snoc _ _ (VStr color :: qty_cells group specs color)).
    len_norm. lia.
  - pose proof (len_nonneg specs). len_norm. lia.
Qed.

Lemma pattern_rows_total df :
  let S := _get_pattern_table_structure df in
  Forall (λ row, ∃ z, item (VStr "") row (st_total_col_idx S - 1) = VInt z) (st_data S).
Proof.
  cbv zeta.
  destruct (pattern_struct_shape df) as (H1 & _ & _ & _ & _ & _ & H7).
  pose proof (pattern_struct_cols df) as Hc.
  rewrite H7. clear H7.
  unfold _get_pattern_table_structure in *.
  set (specs := Py.sorted (Py.unique (map r_spec df))) in *.
  pose proof (len_nonneg specs) as Hn.
  destruct (if _ <? _ then _ else _) as [total_cols headers].
  cbn [st_data st_total_cols] in *.
  apply Forall_fmap, Forall_true. intros color. cbn.
  rewrite item_app_l by (len_norm; lia).
  rewrite item_take by lia.
  destruct (decide (len specs + 2 ≤ total_cols)) as [Hle|Hgt].
  - rewrite Z.min_l by lia. eexists. rewrite app_comm_cons.
    apply (item_snoc _ _ (VStr color :: qty_cells df specs color)).
    len_norm. lia.
  - rewrite Z.min_r by lia.
    rewrite app_comm_cons, item_app_l by (len_norm; lia).
    destruct (item_qty_cells df specs color (total_cols - 2)) as [z Hz]; [lia|].
    exists z. rewrite <- Hz. unfold item.
    replace (Z.to_nat (total_cols - 1)) with (S (Z.to_nat (total_cols - 2))) by lia.
    reflexivity.
Qed.

End TableContents.

(** ** Reading the values of a block *)

Section ValueFacts.

Import Sheet Props Gen.

Implicit Types (S : Struct) (td : TypeData).

Lemma pattern_value_title t S r c : pattern_value t S r c (r, c) = Some (VStr t).
Proof. unfold pattern_value. cbn [fst snd]. by rewrite !Z.sub_diag. Qed.

Lemma pattern_value_header t S r c o :
  pattern_value t S r c (r + 1, c + o) = Some (VStr (item "" (st_headers S) o)).
Proof.
  unfold pattern_value. cbn [fst snd].
  replace (r + 1 - r) with 1 by lia. replace (c + o - c) with o by lia. done.
Qed.

Lemma pattern_value_data t S r c i o :
  0 ≤ i < st_row_count S →
  pattern_value t S r c (r + 2 + i, c + o)
  = Some (item (VStr "") (item [] (st_data S) i) o).
Proof.
  intros Hi. unfold pattern_value. cbn [fst snd].
  replace (r + 2 + i - r) with (i + 2) by lia. replace (c + o - c) with o by lia.
  destruct (i + 2 =? 0) eqn:E0; [apply Z.eqb_eq in E0; lia|].
  destruct (i + 2 =? 1) eqn:E1; [apply Z.eqb_eq in E1; lia|].
  destruct (i + 2 <=? st_row_count S + 1) eqn:E2; [|apply Z.leb_gt in E2; lia].
  by replace (i + 2 - 2) with i by lia.
Qed.

Lemma pattern_value_label t S r c :
  0 ≤ st_row_count S →
  pattern_value t S r c (r + st_row_count S + 2, c) = Some (VStr "合计").
Proof.
  intros Hn. unfold pattern_value. cbn [fst snd]. rewrite Z.sub_diag.
  replace (r + st_row_count S + 2 - r) with (st_row_count S + 2) by lia.
  destruct (_ + 2 =? 0) eqn:E0; [apply Z.eqb_eq in E0; lia|].
  destruct (_ + 2 =? 1) eqn:E1; [apply Z.eqb_eq in E1; lia|].
  destruct (_ + 2 <=? _ + 1) eqn:E2; [apply Z.leb_le in E2; lia|]. done.
Qed.

Lemma pattern_value_sum t S r c o :
  0 ≤ st_row_count S → 1 ≤ o →
  o ≤ st_spec_count S ∨ o + 1 = st_total_col_idx S →
  pattern_value t S r c (r + st_row_count S + 2, c + o)
  = Some (VSum (c + o) (r + 2) (r + st_row_count S + 1)).
Proof.
  intros Hn Ho Hcase. unfold pattern_value. cbn [fst snd].
  replace (r + st_row_count S + 2 - r) with (st_row_count S + 2) by lia.
  replace (c + o - c) with o by lia.
  destruct (_ + 2 =? 0) eqn:E0; [apply Z.eqb_eq in E0; lia|].
  destruct (_ + 2 =? 1) eqn:E1; [apply Z.eqb_eq in E1; lia|].
  destruct (_ + 2 <=? _ + 1) eqn:E2; [apply Z.leb_le in E2; lia|].
  destruct (o =? 0) eqn:E3; [apply Z.eqb_eq in E3; lia|].
  destruct ((o <=? st_spec_count S) || (o + 1 =? st_total_col_idx S)) eqn:E4; [done|].
  apply orb_false_iff in E4 as [E4 E5].
  apply Z.leb_gt in E4. apply Z.eqb_neq in E5. lia.
Qed.

Lemma type_value_title td r : type_value td r (r, 1) = Some (VStr (td_title td)).
Proof. unfold type_value. cbn [fst snd]. by rewrite !Z.sub_diag. Qed.

Lemma type_value_header td r col :
  type_value td r (r + 1, col) = Some (VStr (item "" (td_headers td) (col - 1))).
Proof.
  unfold type_value. cbn [fst snd]. by replace (r + 1 - r) with 1 by lia.
Qed.

Lemma type_value_data td r i col :
  0 ≤ i < td_data_rows td →
  type_value td r (r + 2 + i, col)
  = Some (item (VStr "") (item [] (td_data td) i) (col - 1)).
Proof.
  intros Hi. unfold type_value. cbn [fst snd].
  replace (r + 2 + i - r) with (i + 2) by lia.
  destruct (i + 2 =? 0) eqn:E0; [apply Z.eqb_eq in E0; lia|].
  destruct (i + 2 =? 1) eqn:E1; [apply Z.eqb_eq in E1; lia|].
  destruct (i + 2 <=? td_data_rows td + 1) eqn:E2; [|apply Z.leb_gt in E2; lia].
  by replace (i + 2 - 2) with i by lia.
Qed.

Lemma type_value_label td r :
  0 ≤ td_data_rows td →
  type_value td r (r + td_data_rows td + 2, 1) = Some (VStr "合计").
Proof.
  intros Hn. unfold type_value. cbn [fst snd].
  replace (r + td_data_rows td + 2 - r) with (td_data_rows td + 2) by lia.
  destruct (_ + 2 =? 0) eqn:E0; [apply Z.eqb_eq in E0; lia|].
  destruct (_ + 2 =? 1) eqn:E1; [apply Z.eqb_eq in E1; lia|].
  destruct (_ + 2 <=? _ + 1) eqn:E2; [apply Z.leb_le in E2; lia|]. done.
Qed.

Lemma type_value_sum td r col :
  0 ≤ td_data_rows td → 2 ≤ col →
  col ≤ 1 + len (td_specs td) ∨ col = td_total_col_idx td →
  type_value td r (r + td_data_rows td + 2, col)
  = Some (VSum col (r + 2) (r + td_data_rows td + 1)).
Proof.
  intros Hn Ho Hcase. unfold type_value. cbn [fst snd].
  replace (r + td_data_rows td + 2 - r) with (td_data_rows td + 2) by lia.
  destruct (_ + 2 =? 0) eqn:E0; [apply Z.eqb_eq in E0; lia|].
  destruct (_ + 2 =? 1) eqn:E1; [apply Z.eqb_eq in E1; lia|].
  destruct (_ + 2 <=? _ + 1) eqn:E2; [apply Z.leb_le in E2; lia|].
  destruct (col =? 1) eqn:E3; [apply Z.eqb_eq in E3; lia|].
  destruct ((col <=? 1 + len (td_specs td)) || (col =? td_total_col_idx td)) eqn:E4;
    [done|].
  apply orb_false_iff in E4 as [E4 E5].
  apply Z.leb_gt in E4. apply Z.eqb_neq in E5. lia.
Qed.

(** Reading a column of a table through its indices. *)
Lemma map_seqZ_item {A B} (d : A) (g : A → B) (l : list A) :
  map (λ i, g (item d l i)) (seqZ 0 (len l)) = map g l.
Proof.
  apply list_eq. intros j. rewrite !list_lookup_fmap.
  destruct (l !! j) as [x|] eqn:E; simpl.
  - pose proof (lookup_lt_Some _ _ _ E).
    rewrite (lookup_seqZ_lt _ _ j) by (unfold len; lia). simpl.
    unfold item. by rewrite Z.add_0_l, Nat2Z.id, E.
  - apply lookup_ge_None in E.
    rewrite lookup_seqZ_ge; [done|]. unfold len. lia.
Qed.

End ValueFacts.

(** ** The logged blocks *)

Section Logs.

Import Sheet Props Gen.

Lemma stacked_elem items row b :
  b ∈ stacked items row → (tb_name b, tb_data b) ∈ items.
Proof.
  revert row. induction items as [|[name td] items IH]; intros row Hb; simpl in Hb.
  - by apply elem_of_nil in Hb.
  - apply elem_of_cons in Hb as [->|Hb]; [left|right; by eapply IH].
Qed.

Lemma stacked_names items row :
  map (λ b, (tb_name b, tb_data b)) (stacked items row) = items.
Proof.
  revert row. induction items as [|[name td] items IH]; intros row; simpl; [done|].
  by rewrite IH.
Qed.

Lemma aggregation_elem date_str df name td :
  (name, td) ∈ _calculate_type_aggregation date_str df →
  td = type_data_of date_str name (where_eq r_type name df).
Proof.
  unfold _calculate_type_aggregation, groupby. rewrite map_map.
  intros (key & [= -> ->] & _)%list_elem_of_fmap. done.
Qed.

(** Every block of the summary sheet is the table of its type. *)
Lemma type_log_elem date_str df b :
  b ∈ ts_log (_generate_original_type_sheet empty_sheet
                (_calculate_type_aggregation date_str df)) →
  tb_data b = type_data_of date_str (tb_name b) (where_eq r_type (tb_name b) df).
Proof.
  destruct (type_sheet_final date_str df) as [_ ->].
  intros Hb%stacked_elem. rewrite sorted_key_perm in Hb.
  by apply aggregation_elem.
Qed.

(** The rows of stacked blocks: each block ends two rows above the next
    anchor, so that one row lies between two blocks. *)
Lemma stacked_rows items row b :
  (∀ it, it ∈ items → 0 ≤ td_data_rows (snd it)) →
  b ∈ stacked items row → row ≤ tb_row b.
Proof.
  revert row. induction items as [|it items IH]; intros row Hn Hb; simpl in Hb.
  - by apply elem_of_nil in Hb.
  - apply elem_of_cons in Hb as [->|Hb]; [simpl; lia|].
    apply IH in Hb; [|intros; apply Hn; by right].
    specialize (Hn it (list_elem_of_here _ _)). unfold block_spacing in Hb. lia.
Qed.

Lemma stacked_gap items row b b' :
  (∀ it, it ∈ items → 0 ≤ td_data_rows (snd it)) →
  b ∈ stacked items row → b' ∈ stacked items row →
  ¬ (tb_row b' ≤ type_block_end b + 1 ≤ type_block_end b').
Proof.
  revert row. induction items as [|it items IH]; intros row Hn Hb Hb'; simpl in *.
  - by apply elem_of_nil in Hb.
  - pose proof (Hn it (list_elem_of_here _ _)) as Hit.
    assert (∀ it', it' ∈ items → 0 ≤ td_data_rows (snd it')) as Hn'
      by (intros; apply Hn; by right).
    apply elem_of_cons in Hb as [->|Hb]; apply elem_of_cons in Hb' as [->|Hb'].
    + unfold type_block_end; simpl. lia.
    + apply stacked_rows in Hb'; [|done].
      unfold type_block_end, block_spacing in *; simpl. lia.
    + pose proof (Hn' _ (stacked_elem _ _ _ Hb)) as Hrows. simpl in Hrows.
      apply stacked_rows in Hb; [|done].
      unfold type_block_end, block_spacing in *; simpl. lia.
    + by eapply IH.
Qed.

(** Every block of a detail sheet is the table of its pattern, and its
    logged end row is its total row. *)
Lemma pattern_log_elem date_str type_name type_data pl :
  pl ∈ ps_log (_generate_type_pattern_sheet date_str empty_sheet type_name type_data) →
  p_struct (pl_pattern pl) = _get_pattern_table_structure (p_data (pl_pattern pl)) ∧
  pl_end pl = block_end (pl_pattern pl) (pl_row pl) ∧
  (pl_col pl = left_start_col ∨ pl_col pl = right_start_col).
Proof.
  destruct (pattern_sheet_final date_str type_name type_data) as [_ Hp].
  intros Hpl. split.
  - assert (pl_pattern pl ∈ concat
      (_group_by_column_range
         (_sort_patterns_by_columns (groupby r_pattern type_data) false))) as Hin.
    { rewrite <- (packed_bands_patterns _ _ _ _ Hp). apply list_elem_of_fmap. eauto. }
    apply list_elem_of_In, in_concat in Hin as (g & Hg & Hin).
    apply list_elem_of_In in Hg, Hin.
    eapply sorted_patterns_elem, band_subset; done.
  - apply packed_bands_ends in Hp. rewrite Forall_forall in Hp. by apply Hp.
Qed.

(** The values of the blocks in the finished sheets. *)
Lemma type_final_value date_str df b k v :
  let st := _generate_original_type_sheet empty_sheet
              (_calculate_type_aggregation date_str df) in
  b ∈ ts_log st → inside (type_block_rect b) k →
  type_value (tb_data b) (tb_row b) k = Some v →
  c_value (get_cell (ts_ws st) k) = v.
Proof.
  cbv zeta. intros Hb Hin Hv.
  destruct (type_sheet_final date_str df) as [[Hs _] _].
  destruct Hs as [_ Hg _ _ _]. by apply (Hg b k Hb Hin).
Qed.

Lemma pattern_final_value date_str type_name type_data pl k v :
  let st := _generate_type_pattern_sheet date_str empty_sheet type_name type_data in
  pl ∈ ps_log st → inside (placed_rect pl) k →
  pattern_value (block_title type_name date_str (pl_pattern pl))
    (p_struct (pl_pattern pl)) (pl_row pl) (pl_col pl) k = Some v →
  c_value (get_cell (ps_ws st) k) = v.
Proof.
  cbv zeta. intros Hb Hin Hv.
  destruct (pattern_sheet_final date_str type_name type_data) as [[Hs _] _].
  destruct Hs as [_ Hg _ _ _]. by apply (Hg pl k Hb Hin).
Qed.

Lemma item_elem {A} (d : A) (l : list A) i :
  0 ≤ i < len l → item d l i ∈ l.
Proof.
  intros H. unfold item. destruct (l !! Z.to_nat i) eqn:E; simpl.
  - by eapply list_elem_of_lookup_2.
  - apply lookup_ge_None in E. unfold len in H. lia.
Qed.

End Logs.

(** ** The standardizer *)

Section StdFacts.

Import Std.

Lemma match_alias_none columns aliases :
  Forall (λ alias, lower alias ∉ map lower columns) aliases →
  match_alias columns aliases = None.
Proof.
  intros H. unfold match_alias.
  assert (List.find (λ alias, bool_decide (lower alias ∈ map lower columns)) aliases
          = None) as ->; [|done].
  induction H as [|alias aliases Ha _ IH]; [done|]. simpl.
  by rewrite bool_decide_false.
Qed.

(** The loop over the fields stops with a ValueError as soon as one
    field has no column. *)
Lemma match_fields_missing columns mapping standard_col aliases : ∀ cols,
  (standard_col, aliases) ∈ mapping →
  match_alias columns aliases = None →
  ∃ missing, missing ∈ map fst mapping ∧
             match_fields columns mapping cols = inl (ValueError missing).
Proof.
  induction mapping as [|[sc al] mapping IH]; intros cols Hin Hnone.
  - by apply elem_of_nil in Hin.
  - cbn [match_fields].
    destruct (match_alias columns al) as [matched|] eqn:E.
    + case_bool_decide.
      * exists sc. split; [left|done].
      * apply elem_of_cons in Hin as [[= -> ->]|Hin]; [congruence|].
        destruct (IH (<[matched := sc]> cols) Hin Hnone) as (missing & Hm & ->).
        exists missing. split; [by right|done].
    + exists sc. split; [left|done].
Qed.

(** The workbook [generate] saves: the summary sheet, then the detail
    sheet of every type. *)
Lemma generate_saved date_str file wb :
  generate date_str file = Saved wb →
  ∃ df,
    standardize file = inr df ∧
    wb = Gen.ts_ws (Gen._generate_original_type_sheet Sheet.empty_sheet
                      (Gen._calculate_type_aggregation date_str df))
         :: map (λ g, Gen.ps_ws (Gen._generate_type_pattern_sheet date_str
                                   Sheet.empty_sheet (fst g) (snd g)))
              (groupby r_type df).
Proof.
  unfold generate. destruct (standardize file) as [e|df]; [done|].
  intros [= <-]. by exists df.
Qed.

End StdFacts.

(** ** Row totals *)

Section RowTotals.

Import Sheet Props Gen Read.

(** Within the bound of [exact] the 64-bit sums are the sums. *)
Lemma int64_small z : Z.abs z < 2 ^ 63 → Py.int64 z = z.
Proof. intros H. unfold Py.int64. rewrite Z.mod_small; lia. Qed.

Lemma magnitude_nonneg (df : Frame) : 0 ≤ magnitude df.
Proof. induction df as [|r df IH]; simpl; lia. Qed.

Lemma magnitude_where (col : Row → string) v (df : Frame) :
  magnitude (where_eq col v df) ≤ magnitude df.
Proof.
  unfold where_eq. induction df as [|r df IH]; [done|].
  rewrite filter_cons. destruct (decide (col r = v)); simpl; lia.
Qed.

Lemma qty_sum_magnitude (df : Frame) : Z.abs (qty_sum df) ≤ magnitude df.
Proof. induction df as [|r df IH]; simpl; lia. Qed.

Lemma exact_where (col : Row → string) v (df : Frame) :
  exact df → exact (where_eq col v df).
Proof. unfold exact. pose proof (magnitude_where col v df). lia. Qed.

Lemma sum64_exact (df : Frame) : exact df → sum64 df = qty_sum df.
Proof.
  unfold exact, sum64. intros H. apply int64_small.
  pose proof (qty_sum_magnitude df).
  assert (2 ^ 53 < 2 ^ 63) by (apply Z.pow_lt_mono_r; lia). lia.
Qed.

Lemma qty_cells_exact (group : Frame) specs color :
  exact group →
  qty_cells group specs color = map (λ spec, VInt (qty group color spec)) specs.
Proof.
  intros H. unfold qty_cells, qty. apply map_ext. intros spec.
  by rewrite sum64_exact by by do 2 apply exact_where.
Qed.

Lemma unique_elem l x : x ∈ Py.unique l ↔ x ∈ l.
Proof.
  induction l as [|y l IH]; simpl; [done|].
  rewrite !elem_of_cons, list_elem_of_filter, IH.
  destruct (decide (x = y)) as [->|]; tauto.
Qed.

Lemma unique_NoDup l : NoDup (Py.unique l).
Proof.
  induction l as [|y l IH]; simpl; constructor.
  - rewrite list_elem_of_filter. by intros [? _].
  - by apply NoDup_filter.
Qed.

Lemma sort_specs_perm specs : _sort_specs specs ≡ₚ specs.
Proof.
  unfold _sort_specs. destruct (mapM Py.float_of specs) as [keys|] eqn:E.
  - rewrite sorted_by_perm. apply length_mapM in E.
    change (map snd (zip keys specs)) with ((zip keys specs).*2).
    rewrite snd_zip; [done|lia].
  - apply sorted_by_perm.
Qed.

Lemma py_sum_qty_cells group specs color :
  exact group →
  py_sum (qty_cells group specs color)
  = foldr (λ spec acc,
      qty_sum (where_eq r_spec spec (where_eq r_color color group)) + acc) 0 specs.
Proof.
  intros H. rewrite qty_cells_exact by done. unfold qty.
  induction specs as [|s specs IH]; simpl; [done|]. by rewrite IH.
Qed.

Lemma slice_qty_cells (v : Value) group specs color :
  slice 1 (length specs + 1) ([v] ++ qty_cells group specs color)
  = qty_cells group specs color.
Proof.
  unfold slice. simpl. rewrite drop_0.
  replace (length specs + 1 - 1)%nat with (length (qty_cells group specs color)).
  - apply firstn_all.
  - unfold qty_cells. rewrite length_map. lia.
Qed.

Lemma indicator_sum (s : string) (q : Z) specs :
  NoDup specs → s ∈ specs →
  foldr (λ spec acc, (if decide (s = spec) then q else 0) + acc) 0 specs = q.
Proof.
  induction 1 as [|x specs Hx Hnd IH]; intros Hs; [by apply elem_of_nil in Hs|].
  simpl. apply elem_of_cons in Hs as [->|Hs].
  - rewrite decide_True by done.
    assert (foldr (λ spec acc, (if decide (x = spec) then q else 0) + acc) 0 specs = 0)
      as ->; [|lia].
    clear IH Hnd. induction specs as [|y specs IH]; simpl; [done|].
    rewrite not_elem_of_cons in Hx. destruct Hx as [Hxy Hx].
    rewrite decide_False by done. by rewrite IH.
  - rewrite decide_False by (intros ->; done). rewrite IH by done. lia.
Qed.

Lemma qty_sum_where_cons s r (df : Frame) :
  qty_sum (where_eq r_spec s (r :: df))
  = (if decide (r_spec r = s) then r_qty r else 0) + qty_sum (where_eq r_spec s df).
Proof.
  unfold where_eq. rewrite filter_cons. destruct (decide (r_spec r = s)); simpl; lia.
Qed.

(** Summing per size over a list that holds every size once gives the
    sum of all quantities. *)
Lemma qty_sum_by_spec specs (df : Frame) :
  NoDup specs → (∀ r, r ∈ df → r_spec r ∈ specs) →
  foldr (λ spec acc, qty_sum (where_eq r_spec spec df) + acc) 0 specs = qty_sum df.
Proof.
  intros Hnd. induction df as [|r df IH]; intros Hin.
  - simpl. clear. induction specs as [|s specs IH]; simpl; [done|]. by rewrite IH.
  - assert (∀ l,
      foldr (λ spec acc, qty_sum (where_eq r_spec spec (r :: df)) + acc) 0 l
      = foldr (λ spec acc, (if decide (r_spec r = spec) then r_qty r else 0) + acc) 0 l
        + foldr (λ spec acc, qty_sum (where_eq r_spec spec df) + acc) 0 l) as Hsplit.
    { induction l as [|s l IHl]; [done|]. cbn [foldr].
      rewrite IHl, qty_sum_where_cons. lia. }
    rewrite Hsplit, indicator_sum by (done || apply Hin; left).
    rewrite IH by (intros; apply Hin; by right). done.
Qed.

(** On the summary sheet the row total of a colour is the sum of the
    quantities of all records of that colour in the type. *)
Theorem summary_row_total date_str name group :
  let td := type_data_of date_str name group in
  exact group →
  map (λ row, item (VStr "") row (td_total_col_idx td - 1)) (td_data td)
  = map (λ color, VInt (qty_sum (where_eq r_color color group)))
      (Py.sorted (Py.unique (map r_color group))).
Proof.
  cbv zeta. intros Hexact.
  unfold type_data_of; cbn [td_data td_total_col_idx].
  set (specs := _sort_specs _).
  rewrite map_map. apply map_ext. intros color. cbn beta zeta.
  pose proof (len_nonneg specs).
  rewrite item_app_l by (len_norm; lia).
  rewrite (item_snoc _ _ ([VStr color] ++ qty_cells group specs color))
    by (len_norm; lia).
  f_equal. rewrite slice_qty_cells, py_sum_qty_cells by done.
  apply qty_sum_by_spec.
  - subst specs. rewrite sort_specs_perm. unfold Py.sorted.
    rewrite sorted_by_perm. apply unique_NoDup.
  - intros r [_ Hr]%list_elem_of_filter. subst specs.
    rewrite sort_specs_perm. unfold Py.sorted. rewrite sorted_by_perm.
    apply unique_elem, list_elem_of_fmap. eauto.
Qed.

(** On a detail sheet the same holds as long as the table is not
    truncated, that is up to eight sizes. *)
Theorem detail_row_total df :
  let S := _get_pattern_table_structure df in
  exact df →
  len (Py.unique (map r_spec df)) ≤ 8 →
  map (λ row, item (VStr "") row (st_total_col_idx S - 1)) (st_data S)
  = map (λ color, VInt (qty_sum (where_eq r_color color df)))
      (Py.sorted (Py.unique (map r_color df))).
Proof.
  cbv zeta. intros Hexact Hn.
  destruct (pattern_struct_shape df) as (H1 & _ & _ & _ & _ & _ & H7).
  pose proof (pattern_struct_cols df) as Hc.
  rewrite H7. clear H7.
  assert (len (Py.sorted (Py.unique (map r_spec df))) ≤ 8) as Hn'.
  { unfold len, Py.sorted in *. by rewrite length_sorted_by. }
  clear Hn. unfold min_columns, max_columns in H1.
  unfold _get_pattern_table_structure in *.
  set (specs := Py.sorted (Py.unique (map r_spec df))) in *.
  pose proof (len_nonneg specs) as Hpos.
  destruct (if _ <? _ then _ else _) as [total_cols headers].
  cbn [st_data st_total_cols] in *.
  rewrite map_map. apply map_ext. intros color. cbn beta zeta.
  rewrite Z.min_l by lia.
  rewrite item_app_l by (len_norm; lia).
  rewrite item_take by lia.
  rewrite (item_snoc _ _ ([VStr color] ++ qty_cells df specs color))
    by (len_norm; lia).
  f_equal. rewrite slice_qty_cells, py_sum_qty_cells by done.
  apply qty_sum_by_spec.
  - subst specs. unfold Py.sorted. rewrite sorted_by_perm. apply unique_NoDup.
  - intros r [_ Hr]%list_elem_of_filter. subst specs.
    unfold Py.sorted. rewrite sorted_by_perm.
    apply unique_elem, list_elem_of_fmap. eauto.
Qed.

(** With nine sizes or more the table is truncated, and the cell under
    the row-total header is the tenth cell of the row: the quantity of
    the ninth size. *)
Theorem truncated_row_total df :
  let S := _get_pattern_table_structure df in
  let specs := Py.sorted (Py.unique (map r_spec df)) in
  9 ≤ len (Py.unique (map r_spec df)) →
  st_total_col_idx S = 10 ∧
  item "" (st_headers S) 9 = "行合计" ∧
  map (λ row, item (VStr "") row 9) (st_data S)
  = map (λ color,
      VInt (sum64 (where_eq r_spec (item "" specs 8) (where_eq r_color color df))))
      (Py.sorted (Py.unique (map r_color df))).
Proof.
  cbv zeta. intros Hn.
  assert (9 ≤ len (Py.sorted (Py.unique (map r_spec df)))) as Hn'.
  { unfold len, Py.sorted in *. by rewrite length_sorted_by. }
  clear Hn.
  destruct (pattern_struct_shape df) as (H1 & _ & _ & _ & _ & _ & H7).
  unfold min_columns, max_columns in H1.
  rewrite H7, H1. clear H1 H7.
  unfold _get_pattern_table_structure, min_columns, max_columns.
  set (specs := Py.sorted (Py.unique (map r_spec df))) in *.
  assert (len (["颜色"] ++ specs ++ ["行合计"]) = len specs + 2) as Hb
    by (len_norm; lia).
  rewrite !Hb.
  destruct (len specs + 2 <? 6) eqn:E1; [apply Z.ltb_lt in E1; lia|].
  destruct (10 <? len specs + 2) eqn:E2; [|apply Z.ltb_ge in E2; lia].
  cbn [st_headers st_data]. split; [lia|]. split.
  - unfold item. change (Z.to_nat 9) with 9%nat.
    assert (length (take (Z.to_nat 10) (["颜色"] ++ specs ++ ["行合计"])) = 10%nat) as Hl.
    { rewrite length_take. change (Z.to_nat 10) with 10%nat.
      rewrite !length_app. cbn [length]. unfold len in Hn'. lia. }
    rewrite Hl. change (10 - 1)%nat with 9%nat.
    by rewrite list_lookup_insert_eq by lia.
  - rewrite map_map. apply map_ext. intros color. cbn beta zeta.
    rewrite item_app_l by (len_norm; lia).
    rewrite item_take by lia.
    rewrite item_app_l by (len_norm; lia).
    cbn [app]. rewrite item_cons by lia. change (9 - 1) with 8.
    destruct (specs !! Z.to_nat 8) as [s|] eqn:E.
    + rewrite (item_qty_cells_eq _ _ _ _ s E). unfold item. by rewrite E.
    + apply lookup_ge_None in E. unfold len in Hn'. lia.
Qed.

End RowTotals.
(** ** The blocks of the finished sheets *)

Section PlanFacts.

Import Sheet Props Gen Plan.

(** The summary sheet holds the blocks of [summary_blocks]. *)
Lemma summary_log date_str df :
  ts_log (_generate_original_type_sheet empty_sheet
            (_calculate_type_aggregation date_str df))
  = summary_blocks date_str df.
Proof. by destruct (type_sheet_final date_str df) as [_ ->]. Qed.

Lemma pairs_packed g row log row' : packed g row log row' → pairs g row = (log, row').
Proof. induction 1; simpl; [done..|]. by rewrite IHpacked. Qed.

Lemma bands_packed gs row log row' : packed_bands gs row log row' → bands gs row = log.
Proof.
  induction 1 as [|g gs row log1 row1 log2 row2 Hg Hgs IH]; simpl; [done|].
  by rewrite (pairs_packed _ _ _ _ Hg), IH.
Qed.

(** A detail sheet holds the blocks of [detail_blocks]. *)
Lemma detail_log date_str type_name type_data :
  ps_log (_generate_type_pattern_sheet date_str empty_sheet type_name type_data)
  = detail_blocks type_data.
Proof.
  destruct (pattern_sheet_final date_str type_name type_data) as [_ Hp].
  symmetry. by eapply bands_packed.
Qed.

End PlanFacts.

(** ** The order of texts *)

Section TextOrder.

Import Order.

Lemma ascii_compare_refl (a : ascii) : Ascii.compare a a = Eq.
Proof. unfold Ascii.compare. apply N.compare_refl. Qed.

Lemma ascii_compare_lt_trans (a b c : ascii) :
  Ascii.compare a b = Lt → Ascii.compare b c = Lt → Ascii.compare a c = Lt.
Proof. unfold Ascii.compare. rewrite !N.compare_lt_iff. lia. Qed.

Lemma string_compare_refl (s : string) : String.compare s s = Eq.
Proof. induction s as [|c s IH]; simpl; [done|]. by rewrite ascii_compare_refl. Qed.

Lemma string_compare_lt_trans (a b c : string) :
  String.compare a b = Lt → String.compare b c = Lt → String.compare a c = Lt.
Proof.
  revert b c. induction a as [|x a IH]; intros [|y b] [|z c]; simpl; try done.
  destruct (Ascii.compare x y) eqn:Exy; try done;
    destruct (Ascii.compare y z) eqn:Eyz; try done.
  - apply Ascii.compare_eq_iff in Exy, Eyz. subst. rewrite ascii_compare_refl. apply IH.
  - apply Ascii.compare_eq_iff in Exy. subst. by rewrite Eyz.
  - apply Ascii.compare_eq_iff in Eyz. subst. by rewrite Exy.
  - by rewrite (ascii_compare_lt_trans x y z).
Qed.

Lemma text_lt_compare a b : text_lt a b ↔ String.compare a b = Lt.
Proof. unfold text_lt, String.ltb. destruct (String.compare a b); by split. Qed.

Lemma text_le_compare a b : text_le a b ↔ String.compare a b ≠ Gt.
Proof.
  unfold text_le, String.ltb. rewrite String.compare_antisym.
  destruct (String.compare a b); simpl; by split.
Qed.

Lemma text_le_lt_eq a b : text_le a b ↔ text_lt a b ∨ a = b.
Proof.
  rewrite text_le_compare, text_lt_compare. split.
  - destruct (String.compare a b) eqn:E; [|by left|done].
    right. by apply String.compare_eq_iff.
  - intros [->| ->]; [done|]. by rewrite string_compare_refl.
Qed.

Lemma text_lt_irrefl a : ¬ text_lt a a.
Proof. rewrite text_lt_compare, string_compare_refl. done. Qed.

Lemma text_lt_trans a b c : text_lt a b → text_lt b c → text_lt a c.
Proof. rewrite !text_lt_compare. apply string_compare_lt_trans. Qed.

Lemma text_le_trans a b c : text_le a b → text_le b c → text_le a c.
Proof.
  rewrite !text_le_lt_eq. intros [H1| ->] [H2| ->]; auto.
  left. by eapply text_lt_trans.
Qed.

Lemma text_le_antisym a b : text_le a b → text_le b a → a = b.
Proof.
  rewrite !text_le_lt_eq. intros [H1| ->] [H2|H2]; auto.
  destruct (text_lt_irrefl a). by eapply text_lt_trans.
Qed.

Lemma text_lt_le a b : text_lt a b → text_le a b.
Proof. rewrite text_le_lt_eq. by left. Qed.

(** [sorted] puts texts in ascending order. *)
Lemma sorted_text_le l : StronglySorted text_le (Py.sorted l).
Proof.
  apply sorted_by_sorted.
  - intros a b c. apply text_le_trans.
  - intros x y. destruct (String.ltb y x) eqn:E; [|done].
    by apply text_lt_le.
Qed.



End TextOrder.

(** ** Stability of [sorted] *)

Section Stable.

Context {A : Type}.

Implicit Types (lt : A → A → bool) (l : list A).

(** The elements of a class inside which [lt] never holds keep their
    order. *)
Lemma insert_sorted_filter lt (P : A → Prop) `{∀ x, Decision (P x)} x l :
  (∀ a b, P a → P b → lt a b = false) →
  filter P (Py.insert_sorted lt x l) = filter P (x :: l).
Proof.
  intros Hlt. induction l as [|y l IH]; simpl; [done|].
  destruct (lt y x) eqn:E; [|done].
  rewrite filter_cons, IH, !filter_cons.
  destruct (decide (P y)) as [Hy|Hy]; [|done].
  destruct (decide (P x)) as [Hx|Hx]; [|done].
  rewrite Hlt in E by done. done.
Qed.

Lemma sorted_by_filter lt (P : A → Prop) `{∀ x, Decision (P x)} l :
  (∀ a b, P a → P b → lt a b = false) →
  filter P (Py.sorted_by lt l) = filter P l.
Proof.
  intros Hlt. induction l as [|x l IH]; simpl; [done|].
  rewrite insert_sorted_filter by done. by rewrite !filter_cons, IH.
Qed.

(** [sorted(l, key=k)] is stable in both directions: the elements of
    one key keep their order. *)
Lemma sorted_key_stable (key : A → Z) rev w l :
  filter (λ a, key a = w) (Py.sorted_key key rev l) = filter (λ a, key a = w) l.
Proof.
  unfold Py.sorted_key. destruct rev; apply sorted_by_filter;
    intros a b -> <-; apply Z.ltb_irrefl.
Qed.

(** Sortedness on a part [D] of the elements on which [lt] decides the
    order [R]. *)
Lemma sorted_by_sorted_on lt (R : A → A → Prop) (D : A → Prop) l :
  (∀ x y z, D x → D y → D z → R x y → R y z → R x z) →
  (∀ x y, D x → D y → if lt y x then R y x else R x y) →
  Forall D l →
  StronglySorted R (Py.sorted_by lt l).
Proof.
  intros HT Hlt HD. induction HD as [|x l Hx HD IH]; simpl; [constructor|].
  assert (Forall D (Py.sorted_by lt l)) as HDs by (by rewrite sorted_by_perm).
  revert IH HDs. generalize (Py.sorted_by lt l) as s. clear l HD.
  induction s as [|y s IHs]; intros Hs HDs; simpl.
  - repeat constructor.
  - apply StronglySorted_cons in Hs as [Hy Hs].
    apply Forall_cons in HDs as [Dy HDs].
    pose proof (Hlt x y Hx Dy) as Hxy. destruct (lt y x).
    + apply StronglySorted_cons. split; [|by apply IHs].
      rewrite insert_sorted_perm. by constructor.
    + apply StronglySorted_cons. split.
      * constructor; [done|]. rewrite Forall_forall in Hy, HDs |- *.
        intros z Hz. apply (HT x y z); auto.
      * by apply StronglySorted_cons.
Qed.

End Stable.

(** ** [_sort_specs] *)

Section SortSpecs.

Import Gen Order.

Lemma float_lt_num (x y : Q) : Py.float_lt (Py.FNum x) (Py.FNum y) = true ↔ (x < y)%Q.
Proof. unfold Py.float_lt, Qlt. apply Z.ltb_lt. Qed.

(** With a size that is no number the sizes come out as [sorted] leaves
    them. *)
Lemma sort_specs_fallback specs s :
  s ∈ specs → Py.float_of s = None → _sort_specs specs = Py.sorted specs.
Proof.
  intros Hs Hnone. unfold _sort_specs.
  assert (mapM Py.float_of specs = None) as ->; [|done].
  apply mapM_None, Exists_exists. eauto.
Qed.

(** Whole numbers come out in the order of their values. *)
Lemma sort_specs_whole specs :
  Forall (λ s, ∃ n, whole s n) specs →
  StronglySorted (λ s t, ∀ m n, whole s m → whole t n → m ≤ n) (_sort_specs specs).
Proof.
  intros Hall. unfold _sort_specs.
  destruct (mapM Py.float_of specs) as [keys|] eqn:E.
  2: { apply mapM_None, Exists_exists in E as (s & Hs & Hnone).
       rewrite Forall_forall in Hall.
       destruct (Hall s Hs) as (n & q & Hq & _). congruence. }
  apply mapM_Some_1 in E.
  set (D := λ p : Py.pyfloat * string,
              Py.float_of (snd p) = Some (fst p) ∧ ∃ q, fst p = Py.FNum q).
  set (R := λ p1 p2 : Py.pyfloat * string,
              D p1 ∧ D p2 ∧ ∀ q1 q2, fst p1 = Py.FNum q1 → fst p2 = Py.FNum q2 → (q1 <= q2)%Q).
  apply (StronglySorted_fmap snd R).
  - intros p1 p2 ([H1 _] & [H2 _] & Hle) m n (q1 & Hq1 & Hm & _) (q2 & Hq2 & Hn & _).
    rewrite H1 in Hq1. rewrite H2 in Hq2.
    injection Hq1 as Hq1. injection Hq2 as Hq2.
    specialize (Hle q1 q2 Hq1 Hq2). rewrite Hm, Hn in Hle.
    by rewrite Zle_Qle.
  - apply (sorted_by_sorted_on _ R D).
    + intros x y z Dx Dy Dz (_ & _ & Hxy) (_ & _ & Hyz). split_and!; try done.
      intros q1 q3 H1 H3. destruct Dy as [_ [q2 H2]].
      eapply Qle_trans; eauto.
    + intros x y Dx Dy.
      pose proof Dx as [_ [qx Hx]]. pose proof Dy as [_ [qy Hy]].
      rewrite Hx, Hy.
      destruct (Py.float_lt (Py.FNum qy) (Py.FNum qx)) eqn:Elt.
      * apply float_lt_num in Elt. split_and!; try done.
        intros q1 q2 H1 H2. rewrite Hy in H1. rewrite Hx in H2.
        injection H1 as <-. injection H2 as <-. by apply Qlt_le_weak.
      * split_and!; try done.
        intros q1 q2 H1 H2. rewrite Hx in H1. rewrite Hy in H2.
        injection H1 as <-. injection H2 as <-.
        apply Qnot_lt_le. intros Hlt%float_lt_num. congruence.
    + clear R. revert Hall. induction E as [|s k specs keys Hs _ IH]; intros Hall.
      * constructor.
      * apply Forall_cons in Hall as [(n & q & Hq & _) Hall].
        constructor; [|by apply IH]. split; [done|].
        exists q. simpl. congruence.
Qed.

End SortSpecs.

(** ** Sums over groups *)

Section Sums.

Import Sheet Read.

Lemma qty_sum_app (d1 d2 : Frame) : qty_sum (d1 ++ d2) = qty_sum d1 + qty_sum d2.
Proof. induction d1 as [|r d1 IH]; simpl; lia. Qed.

Lemma qty_sum_where_col (col : Row → string) s r (df : Frame) :
  qty_sum (where_eq col s (r :: df))
  = (if decide (col r = s) then r_qty r else 0) + qty_sum (where_eq col s df).
Proof.
  unfold where_eq. rewrite filter_cons. destruct (decide (col r = s)); simpl; lia.
Qed.

(** Summing per key over a list that holds every key once gives the sum
    of all quantities. *)
Lemma qty_sum_by (col : Row → string) keys (df : Frame) :
  NoDup keys → (∀ r, r ∈ df → col r ∈ keys) →
  foldr (λ k acc, qty_sum (where_eq col k df) + acc) 0 keys = qty_sum df.
Proof.
  intros Hnd. induction df as [|r df IH]; intros Hin.
  - simpl. clear. induction keys as [|s keys IH]; simpl; [done|]. by rewrite IH.
  - assert (∀ l,
      foldr (λ k acc, qty_sum (where_eq col k (r :: df)) + acc) 0 l
      = foldr (λ k acc, (if decide (col r = k) then r_qty r else 0) + acc) 0 l
        + foldr (λ k acc, qty_sum (where_eq col k df) + acc) 0 l) as Hsplit.
    { induction l as [|s l IHl]; [done|]. cbn [foldr].
      rewrite IHl, qty_sum_where_col. lia. }
    rewrite Hsplit, indicator_sum by (done || apply Hin; left).
    rewrite IH by (intros; apply Hin; by right). done.
Qed.

Lemma where_eq_comm (c1 c2 : Row → string) a b (df : Frame) :
  where_eq c1 a (where_eq c2 b df) = where_eq c2 b (where_eq c1 a df).
Proof.
  unfold where_eq. rewrite !list_filter_filter. apply list_filter_iff. tauto.
Qed.

Lemma where_eq_elem (col : Row → string) k (df : Frame) r :
  r ∈ where_eq col k df ↔ col r = k ∧ r ∈ df.
Proof. unfold where_eq. by rewrite list_elem_of_filter. Qed.

Lemma sorted_unique_elem l x : x ∈ Py.sorted (Py.unique l) ↔ x ∈ l.
Proof. unfold Py.sorted. by rewrite sorted_by_perm, unique_elem. Qed.

Lemma sorted_unique_NoDup l : NoDup (Py.sorted (Py.unique l)).
Proof. unfold Py.sorted. rewrite sorted_by_perm. apply unique_NoDup. Qed.

(** The quantities of one colour over all sizes. *)
Lemma qty_by_spec (group : Frame) specs color :
  specs ≡ₚ Py.unique (map r_spec group) →
  foldr (λ spec acc, qty group color spec + acc) 0 specs
  = qty_sum (where_eq r_color color group).
Proof.
  intros Hp. unfold qty. apply qty_sum_by.
  - rewrite Hp. apply unique_NoDup.
  - intros r [_ Hr]%where_eq_elem. rewrite Hp.
    apply unique_elem, list_elem_of_fmap. eauto.
Qed.

(** The quantities of one size over all colours. *)
Lemma qty_by_color (group : Frame) spec :
  foldr (λ color acc, qty group color spec + acc) 0 (colors_of group)
  = qty_sum (where_eq r_spec spec group).
Proof.
  unfold qty.
  rewrite <- (qty_sum_by r_color (colors_of group) (where_eq r_spec spec group)).
  - induction (colors_of group) as [|c l IH]; simpl; [done|].
    by rewrite IH, where_eq_comm.
  - apply sorted_unique_NoDup.
  - intros r [_ Hr]%where_eq_elem.
    apply sorted_unique_elem, list_elem_of_fmap. eauto.
Qed.

(** The quantities of all colours. *)
Lemma qty_sum_colors (group : Frame) :
  foldr (λ color acc, qty_sum (where_eq r_color color group) + acc) 0 (colors_of group)
  = qty_sum group.
Proof.
  apply qty_sum_by; [apply sorted_unique_NoDup|].
  intros r Hr. apply sorted_unique_elem, list_elem_of_fmap. eauto.
Qed.

(** A group with a record has a colour and a size. *)
Lemma group_nonempty (group : Frame) r :
  r ∈ group → 1 ≤ len (colors_of group) ∧ 1 ≤ len (specs_of group).
Proof.
  intros Hr.
  assert (r_color r ∈ colors_of group) as Hc
    by (apply sorted_unique_elem, list_elem_of_fmap; eauto).
  assert (r_spec r ∈ specs_of group) as Hs
    by (apply sorted_unique_elem, list_elem_of_fmap; eauto).
  unfold len. destruct (colors_of group); [by apply elem_of_nil in Hc|].
  destruct (specs_of group); [by apply elem_of_nil in Hs|]. simpl. lia.
Qed.

Lemma foldr_add_perm {A} (g : A → Z) (l1 l2 : list A) :
  l1 ≡ₚ l2 → foldr (λ x acc, g x + acc) 0 l1 = foldr (λ x acc, g x + acc) 0 l2.
Proof. induction 1; simpl; lia. Qed.

Lemma foldr_add_ext {A} (f g : A → Z) (l : list A) :
  (∀ x, x ∈ l → f x = g x) →
  foldr (λ x acc, f x + acc) 0 l = foldr (λ x acc, g x + acc) 0 l.
Proof.
  induction l as [|x l IH]; intros H; [done|]. simpl.
  rewrite H by left. rewrite IH; [done|]. intros; apply H. by right.
Qed.

Lemma times_nonpos {A} (x : A) n : n ≤ 0 → times x n = [].
Proof. intros H. unfold times. by replace (Z.to_nat n) with 0%nat by lia. Qed.

Lemma map_seqZ_lookup {A B} (f : Z → B) (g : A → B) (l : list A) :
  (∀ i x, 0 ≤ i → l !! Z.to_nat i = Some x → f i = g x) →
  map f (seqZ 0 (len l)) = map g l.
Proof.
  intros H. apply list_eq. intros j. rewrite !list_lookup_fmap.
  destruct (l !! j) as [x|] eqn:E; simpl.
  - pose proof (lookup_lt_Some _ _ _ E).
    rewrite (lookup_seqZ_lt _ _ j) by (unfold len; lia). simpl.
    f_equal. apply H; [lia|]. by rewrite Z.add_0_l, Nat2Z.id.
  - apply lookup_ge_None in E.
    rewrite lookup_seqZ_ge; [done|]. unfold len. lia.
Qed.

Lemma map_seqZ_items {A} (d : A) (l : list A) n :
  n = len l → map (item d l) (seqZ 0 n) = l.
Proof.
  intros ->. transitivity (map id l); [|apply map_id].
  apply map_seqZ_lookup. intros i x _ Hx. unfold item. by rewrite Hx.
Qed.

End Sums.

(** ** The tables in closed form *)

Section ClosedForms.

Import Sheet Props Gen Read.

Lemma row_total_sum (v : Value) (group : Frame) specs color :
  exact group →
  specs ≡ₚ Py.unique (map r_spec group) →
  py_sum (slice 1 (length specs + 1) ([v] ++ qty_cells group specs color))
  = qty_sum (where_eq r_color color group).
Proof.
  intros Hexact Hp. rewrite slice_qty_cells, py_sum_qty_cells by done.
  by apply (qty_by_spec group specs color).
Qed.

Lemma sort_specs_of group :
  _sort_specs (specs_of group) ≡ₚ Py.unique (map r_spec group).
Proof. rewrite sort_specs_perm. unfold specs_of, Py.sorted. apply sorted_by_perm. Qed.

Lemma specs_of_perm group : specs_of group ≡ₚ Py.unique (map r_spec group).
Proof. unfold specs_of, Py.sorted. apply sorted_by_perm. Qed.

(** The summary table of a group: one column per size, then the row
    total, padded to six columns. *)
Lemma type_data_closed date_str name group :
  let specs := _sort_specs (specs_of group) in
  let td := type_data_of date_str name group in
  td_specs td = specs ∧
  td_headers td = ["颜色"] ++ specs ++ ["行合计"] ++ times "" (4 - len specs) ∧
  (exact group →
   td_data td
   = map (λ color,
       [VStr color] ++ qty_cells group specs color
         ++ [VInt (qty_sum (where_eq r_color color group))]
         ++ times (VStr "") (4 - len specs)) (colors_of group)).
Proof.
  cbv zeta. unfold type_data_of, specs_of, colors_of, min_columns.
  cbn [td_specs td_headers td_data].
  set (specs := _sort_specs _).
  pose proof (len_nonneg specs) as Hn.
  assert (len (["颜色"] ++ specs ++ ["行合计"]) = len specs + 2) as Hb
    by (len_norm; lia).
  split; [done|]. split.
  - rewrite Hb. destruct (len specs + 2 <? 6) eqn:E.
    + rewrite <- !app_assoc. do 4 f_equal. lia.
    + apply Z.ltb_ge in E. rewrite times_nonpos by lia.
      by rewrite app_nil_r.
  - intros Hexact. apply map_ext. intros color.
    rewrite row_total_sum by (done || apply sort_specs_of).
    rewrite <- !app_assoc. do 3 f_equal. rewrite Hb.
    destruct (len specs + 2 <? 6) eqn:E.
    + apply Z.ltb_lt in E. f_equal. len_norm. lia.
    + apply Z.ltb_ge in E. rewrite !times_nonpos; [done|lia|len_norm; lia].
Qed.

(** The detail table of a group: the first eight sizes are headed, the
    row is cut after the ninth cell behind the colour, and short tables
    are padded to six columns. *)
Lemma pattern_struct_closed df :
  let specs := specs_of df in
  let S := _get_pattern_table_structure df in
  st_spec_count S = len specs ∧
  st_row_count S = len (colors_of df) ∧
  st_total_cols S = Z.min 10 (Z.max 6 (len specs + 2)) ∧
  st_total_col_idx S = Z.min 10 (len specs + 2) ∧
  st_headers S = ["颜色"] ++ take 8 specs ++ ["行合计"] ++ times "" (4 - len specs) ∧
  (exact df →
   st_data S
   = map (λ color,
       [VStr color]
         ++ take 9 (qty_cells df specs color ++ [VInt (qty_sum (where_eq r_color color df))])
         ++ times (VStr "") (4 - len specs)) (colors_of df)).
Proof.
  cbv zeta. unfold _get_pattern_table_structure, specs_of, colors_of,
    min_columns, max_columns.
  set (specs := Py.sorted _).
  pose proof (len_nonneg specs) as Hn.
  assert (len (["颜色"] ++ specs ++ ["行合计"]) = len specs + 2) as Hb
    by (len_norm; lia).
  rewrite !Hb.
  assert (∀ color, len (qty_cells df specs color) = len specs) as Hq
    by (intros; apply len_qty_cells).
  destruct (len specs + 2 <? 6) eqn:E1; [apply Z.ltb_lt in E1|apply Z.ltb_ge in E1].
  - cbn [st_spec_count st_row_count st_total_cols st_total_col_idx st_headers st_data].
    destruct (6 <? len specs + 2) eqn:E3; [apply Z.ltb_lt in E3; lia|].
    split_and!; try done; try lia.
    + rewrite take_ge by (unfold len in *; lia).
      rewrite <- !app_assoc. do 4 f_equal. lia.
    + intros Hexact. apply map_ext. intros color.
      rewrite row_total_sum by (done || apply specs_of_perm).
      rewrite !take_ge
        by (rewrite ?length_app; specialize (Hq color); unfold len in *; simpl; lia).
      rewrite <- !app_assoc. do 3 f_equal. len_norm. f_equal. lia.
  - destruct (10 <? len specs + 2) eqn:E2';
      pose proof E2' as E2; [apply Z.ltb_lt in E2|apply Z.ltb_ge in E2].
    + cbn [st_spec_count st_row_count st_total_cols st_total_col_idx st_headers st_data].
      rewrite E2'. rewrite !times_nonpos by (len_norm; lia). rewrite !app_nil_r.
      change (Z.to_nat 10) with 10%nat.
      split_and!; try done; try lia.
      * destruct (lookup_lt_is_Some_2 specs 8) as [x Hx]; [unfold len in *; lia|].
        rewrite <- (take_drop_middle specs 8 x Hx).
        assert (length (take 8 specs) = 8%nat) as H8
          by (rewrite length_take; unfold len in *; lia).
        set (s8 := take 8 specs) in *.
        rewrite (take_app_length' s8) by done.
        cbn [app take]. rewrite <- !app_assoc.
        rewrite (take_app_add' s8 _ 8 1) by done. cbn [firstn app].
        rewrite take_0, length_cons, length_app, H8. cbn [length Nat.add Nat.sub].
        change ("颜色" :: s8 ++ [x]) with (("颜色" :: s8) ++ [x]).
        rewrite insert_app_r_alt by (rewrite length_cons; lia).
        rewrite length_cons, H8. reflexivity.
      * intros Hexact. apply map_ext. intros color.
        rewrite row_total_sum by (done || apply specs_of_perm).
        rewrite <- !app_assoc. rewrite times_nonpos by (len_norm; lia).
        reflexivity.
    + cbn [st_spec_count st_row_count st_total_cols st_total_col_idx st_headers st_data].
      rewrite Z.ltb_irrefl. rewrite !times_nonpos by (len_norm; lia).
      split_and!; try done; try lia.
      * rewrite take_ge by (unfold len in *; lia). by rewrite app_nil_r.
      * intros Hexact. apply map_ext. intros color.
        rewrite row_total_sum by (done || apply specs_of_perm).
        rewrite !take_ge
          by (rewrite ?length_app; specialize (Hq color); unfold len in *; simpl; lia).
        rewrite !app_nil_r, <- !app_assoc.
        rewrite times_nonpos by (len_norm; lia). by rewrite !app_nil_r.
Qed.

End ClosedForms.

(** ** The tables as they stand on the finished sheets *)

Section Rendered.

Import Sheet Props Gen Read.

Lemma row_values_eq {A} ws r c (d : A) (g : A → Value) (l : list A) cols :
  cols = len l →
  (∀ j, 0 ≤ j < cols → c_value (get_cell ws (r, c + j)) = g (item d l j)) →
  row_values ws r c cols = map g l.
Proof.
  intros -> H. unfold row_values. apply map_seqZ_lookup.
  intros j x Hj Hx. rewrite H.
  - unfold item. by rewrite Hx.
  - apply lookup_lt_Some in Hx. unfold len. lia.
Qed.

Lemma values_eq ws r c (data : list (list Value)) rows cols :
  rows = len data →
  (∀ row, row ∈ data → len row = cols) →
  (∀ i j, 0 ≤ i < rows → 0 ≤ j < cols →
     c_value (get_cell ws (r + i, c + j)) = item (VStr "") (item [] data i) j) →
  values ws r c rows cols = data.
Proof.
  intros -> Hlen H. unfold values.
  transitivity (map id data); [|apply map_id].
  apply map_seqZ_lookup. intros i row Hi Hrow.
  pose proof (lookup_lt_Some _ _ _ Hrow) as Hlt.
  assert (item [] data i = row) as Hitem by (unfold item; by rewrite Hrow).
  transitivity (map id row); [|apply map_id].
  apply (row_values_eq _ _ _ (VStr "")).
  - symmetry. apply Hlen. by eapply list_elem_of_lookup_2.
  - intros j Hj. rewrite H, Hitem; [done|unfold len; lia|done].
Qed.

(** A SUM formula over cells that hold integers shows their sum. *)
Lemma eval_sum ws e col r1 rows (f : Z → Z) :
  c_value (get_cell ws (e, col)) = VSum col r1 (r1 + rows - 1) →
  (∀ i, 0 ≤ i < rows → c_value (get_cell ws (r1 + i, col)) = VInt (f i)) →
  eval_cell ws (e, col) = VInt (foldr (λ i acc, f i + acc) 0 (seqZ 0 rows)).
Proof.
  intros Hsum Hcells. unfold eval_cell. rewrite Hsum. f_equal.
  unfold range. replace (r1 + rows - 1 + 1 - r1) with rows by lia.
  destruct (decide (0 ≤ rows)) as [Hr|Hr]; [|by rewrite !seqZ_nil by lia].
  rewrite <- (Z2Nat.id rows) in Hcells |- * by done.
  revert Hcells. generalize (Z.to_nat rows) as n. generalize r1 f. clear.
  intros r1 f n. revert r1 f.
  induction n as [|n IH]; intros r1 f Hcells; [done|].
  rewrite Nat2Z.inj_succ, !(seqZ_cons _ (Z.succ (Z.of_nat n))) by lia. cbn [foldr].
  replace (Z.pred (Z.succ (Z.of_nat n))) with (Z.of_nat n) by lia.
  unfold number_of at 1. rewrite <- (Z.add_0_r r1) at 1.
  rewrite Hcells by lia. f_equal.
  rewrite (IH (Z.succ r1) (λ i, f (Z.succ i))).
  - change (Z.succ 0) with (1 + 0). rewrite <- (fmap_add_seqZ 1 0 (Z.of_nat n)).
    rewrite foldr_fmap. apply foldr_ext; [|done..].
    intros i acc. by replace (1 + i) with (Z.succ i) by lia.
  - intros i Hi. replace (Z.succ r1 + i) with (r1 + Z.succ i) by lia.
    apply Hcells. lia.
Qed.

Lemma foldr_seqZ_items {A} (d : A) (g : A → Z) (l : list A) :
  foldr (λ i acc, g (item d l i) + acc) 0 (seqZ 0 (len l))
  = foldr (λ x acc, g x + acc) 0 l.
Proof.
  rewrite <- (map_seqZ_items d l (len l)) at 2 by done.
  by rewrite foldr_fmap.
Qed.

End Rendered.

(** ** The cells of the finished summary sheet *)

Section SummaryCells.

Import Sheet Props Gen Read.

Context (date_str : string) (df : Frame).

Let st := _generate_original_type_sheet empty_sheet
            (_calculate_type_aggregation date_str df).

Hypothesis Hexact : exact df.

Lemma summary_block_wf b :
  b ∈ ts_log st →
  tb_data b = type_data_of date_str (tb_name b) (where_eq r_type (tb_name b) df) ∧
  wf_type (tb_data b) ∧ 0 ≤ td_data_rows (tb_data b) ∧ 0 ≤ len (td_specs (tb_data b)).
Proof.
  intros Hb. pose proof (type_log_elem date_str df b Hb) as Htd.
  split; [done|].
  assert (wf_type (tb_data b)) as Hwf by (rewrite Htd; apply type_data_wf).
  split; [done|]. destruct Hwf as (_ & <- & _).
  split; apply len_nonneg.
Qed.





(** The names of the blocks are the types of the frame, each once. *)
Lemma summary_names : map tb_name (ts_log st) ≡ₚ Py.sorted (Py.unique (map r_type df)).
Proof.
  subst st. destruct (type_sheet_final date_str df) as [_ ->].
  transitivity (map fst (map (λ b, (tb_name b, tb_data b))
    (stacked (Py.sorted_key (λ x, td_total_cols (snd x)) true
                (_calculate_type_aggregation date_str df)) 1))).
  { by rewrite map_map. }
  rewrite stacked_names, sorted_key_perm.
  unfold _calculate_type_aggregation, groupby. by rewrite !map_map, map_id.
Qed.

Lemma item_map {A B} (d : A) (e : B) (F : A → B) (l : list A) i :
  0 ≤ i < len l → item e (map F l) i = F (item d l i).
Proof.
  intros Hi. unfold item. rewrite list_lookup_fmap.
  destruct (l !! Z.to_nat i) eqn:E; [done|].
  apply lookup_ge_None in E. unfold len in Hi. lia.
Qed.


(** What a block of the summary sheet holds, by the records of its
    type. *)
Lemma summary_block_table b :
  b ∈ ts_log st →
  let group := where_eq r_type (tb_name b) df in
  let specs := td_specs (tb_data b) in
  specs = _sort_specs (specs_of group) ∧
  td_data_rows (tb_data b) = len (colors_of group) ∧
  td_total_cols (tb_data b) = Z.max 6 (len specs + 2) ∧
  td_headers (tb_data b) = ["颜色"] ++ specs ++ ["行合计"] ++ times "" (4 - len specs) ∧
  (exact df →
   td_data (tb_data b)
   = map (λ color,
       [VStr color] ++ map (λ spec, VInt (qty group color spec)) specs
         ++ [VInt (qty_sum (where_eq r_color color group))]
         ++ times (VStr "") (4 - len specs)) (colors_of group)).
Proof.
  intros Hb. cbv zeta. destruct (summary_block_wf b Hb) as (Htd & _).
  destruct (type_data_closed date_str (tb_name b) (where_eq r_type (tb_name b) df))
    as (Hs & Hh & Hd).
  rewrite <- Htd in Hs, Hh, Hd. rewrite Hs at 1. split; [done|].
  split; [by rewrite Htd|].
  split; [rewrite Htd at 1; rewrite type_total_cols, <- Htd; done|].
  rewrite <- Hs in Hh, Hd. split; [done|]. intros Hex.
  pose proof (exact_where r_type (tb_name b) df Hex) as Hg.
  rewrite (Hd Hg). apply map_ext. intros color. by rewrite qty_cells_exact.
Qed.



(** Every block has a data row and a size column. *)
Lemma summary_block_nonempty b :
  b ∈ ts_log st →
  1 ≤ td_data_rows (tb_data b) ∧ 1 ≤ len (td_specs (tb_data b)).
Proof.
  intros Hb. destruct (summary_block_table b Hb) as (Hs & Hrows & _).
  assert (tb_name b ∈ map r_type df) as Hname.
  { apply unique_elem. rewrite <- (sorted_by_perm String.ltb).
    fold (Py.sorted (Py.unique (map r_type df))).
    rewrite <- summary_names. apply list_elem_of_fmap. eauto. }
  apply list_elem_of_fmap in Hname as (r & Hr & Hin).
  assert (r ∈ where_eq r_type (tb_name b) df) as Hrg by (apply where_eq_elem; by split).
  apply group_nonempty in Hrg as [Hc Hn]. rewrite Hrows, Hs. split; [done|].
  unfold len in *. by rewrite sort_specs_perm.
Qed.

End SummaryCells.

(** ** The cells of a finished detail sheet *)

Section DetailCells.

Import Sheet Props Gen Read.

Context (date_str type_name : string) (type_data : Frame).

Let st := _generate_type_pattern_sheet date_str empty_sheet type_name type_data.

Hypothesis Hexact : exact type_data.

Lemma groupby_elem (col : Row → string) (df : Frame) name group :
  (name, group) ∈ groupby col df → group = where_eq col name df ∧ name ∈ map col df.
Proof.
  unfold groupby. intros (k & [= -> ->] & Hk)%list_elem_of_fmap.
  split; [done|]. by apply sorted_unique_elem.
Qed.

(** The patterns placed on the sheet are the sorted patterns, band after
    band. *)
Lemma detail_log_patterns :
  map pl_pattern (ps_log st)
  = concat (_group_by_column_range
              (_sort_patterns_by_columns (groupby r_pattern type_data) false)).
Proof.
  subst st. destruct (pattern_sheet_final date_str type_name type_data) as [_ Hp].
  by eapply packed_bands_patterns.
Qed.

Lemma detail_block_wf pl :
  pl ∈ ps_log st →
  let p := pl_pattern pl in
  let group := where_eq r_pattern (p_name p) type_data in
  p_data p = group ∧
  p_struct p = _get_pattern_table_structure group ∧
  p_col_count p = st_total_cols (p_struct p) ∧
  pl_end pl = pl_row pl + st_row_count (p_struct p) + 2 ∧
  (pl_col pl = 1 ∨ pl_col pl = 12).
Proof.
  intros Hpl. cbv zeta.
  destruct (pattern_log_elem date_str type_name type_data pl Hpl) as (Hs & He & Hc).
  assert (pl_pattern pl ∈ _sort_patterns_by_columns (groupby r_pattern type_data) false)
    as Hin.
  { assert (pl_pattern pl ∈ map pl_pattern (ps_log st)) as Hm
      by (apply list_elem_of_fmap; eauto).
    rewrite detail_log_patterns in Hm.
    apply list_elem_of_In, in_concat in Hm as (g & Hg & Hm).
    apply list_elem_of_In in Hg, Hm. by eapply band_subset. }
  apply sorted_patterns_elem in Hin as (_ & Hcc & Hg).
  apply groupby_elem in Hg as [Hd _].
  split; [done|]. split; [by rewrite Hs, Hd|]. done.
Qed.

Lemma detail_header_cell pl j :
  pl ∈ ps_log st → 0 ≤ j < st_total_cols (p_struct (pl_pattern pl)) →
  c_value (get_cell (ps_ws st) (pl_row pl + 1, pl_col pl + j))
  = VStr (item "" (st_headers (p_struct (pl_pattern pl))) j).
Proof.
  intros Hpl Hj. destruct (detail_block_wf pl Hpl) as (_ & Hs & _).
  pose proof (pattern_struct_wf (where_eq r_pattern (p_name (pl_pattern pl)) type_data))
    as Hwf.
  rewrite <- Hs in Hwf. destruct Hwf as (_ & Hlen & _).
  pose proof (len_nonneg (st_data (p_struct (pl_pattern pl)))) as Hrows.
  apply (pattern_final_value date_str type_name type_data pl);
    [done| |apply pattern_value_header].
  unfold inside, placed_rect, pattern_rect, block_rect. simpl. lia.
Qed.

Lemma detail_data_cell pl i j :
  pl ∈ ps_log st →
  0 ≤ i < st_row_count (p_struct (pl_pattern pl)) →
  0 ≤ j < st_total_cols (p_struct (pl_pattern pl)) →
  c_value (get_cell (ps_ws st) (pl_row pl + 2 + i, pl_col pl + j))
  = item (VStr "") (item [] (st_data (p_struct (pl_pattern pl))) i) j.
Proof.
  intros Hpl Hi Hj.
  apply (pattern_final_value date_str type_name type_data pl);
    [done| |by apply pattern_value_data].
  unfold inside, placed_rect, pattern_rect, block_rect. simpl. lia.
Qed.

Lemma detail_label_cell pl :
  pl ∈ ps_log st →
  c_value (get_cell (ps_ws st) (pl_end pl, pl_col pl)) = VStr "合计".
Proof.
  intros Hpl. destruct (detail_block_wf pl Hpl) as (_ & Hs & _ & -> & _).
  pose proof (pattern_struct_wf (where_eq r_pattern (p_name (pl_pattern pl)) type_data))
    as Hwf.
  rewrite <- Hs in Hwf. destruct Hwf as (Htc & Hlen & _).
  pose proof (len_nonneg (st_data (p_struct (pl_pattern pl)))) as Hrows.
  apply (pattern_final_value date_str type_name type_data pl);
    [done| |apply pattern_value_label; lia].
  unfold inside, placed_rect, pattern_rect, block_rect. simpl. lia.
Qed.

Lemma detail_total_cell pl o :
  pl ∈ ps_log st →
  1 ≤ o < st_total_col_idx (p_struct (pl_pattern pl)) →
  c_value (get_cell (ps_ws st) (pl_end pl, pl_col pl + o))
  = VSum (pl_col pl + o) (pl_row pl + 2)
      (pl_row pl + 2 + st_row_count (p_struct (pl_pattern pl)) - 1).
Proof.
  intros Hpl Ho. destruct (detail_block_wf pl Hpl) as (_ & Hs & _ & -> & _).
  destruct (pattern_struct_closed (where_eq r_pattern (p_name (pl_pattern pl)) type_data))
    as (Hsc & Hrc & Htc & Hidx & _).
  rewrite <- Hs in Hsc, Hrc, Htc, Hidx.
  pose proof (len_nonneg (colors_of (where_eq r_pattern (p_name (pl_pattern pl)) type_data)))
    as Hrows.
  erewrite (pattern_final_value date_str type_name type_data pl);
    [| done | | apply pattern_value_sum].
  - f_equal. lia.
  - unfold inside, placed_rect, pattern_rect, block_rect. simpl. lia.
  - lia.
  - lia.
  - lia.
Qed.

(** The cells of a data row behind the colour: the sizes, then the row
    total, as far as they are kept. *)
Lemma detail_kept_cell pl i j color (x : option string) :
  pl ∈ ps_log st →
  let group := where_eq r_pattern (p_name (pl_pattern pl)) type_data in
  0 ≤ i → colors_of group !! Z.to_nat i = Some color →
  0 ≤ j → take 9 (map Some (specs_of group) ++ [None]) !! Z.to_nat j = Some x →
  c_value (get_cell (ps_ws st) (pl_row pl + 2 + i, pl_col pl + (1 + j)))
  = VInt (match x with
          | Some spec => qty group color spec
          | None => qty_sum (where_eq r_color color group)
          end).
Proof.
  intros Hpl group Hi Hc Hj Hx. subst group.
  destruct (detail_block_wf pl Hpl) as (_ & Hs & _).
  destruct (pattern_struct_closed (where_eq r_pattern (p_name (pl_pattern pl)) type_data))
    as (Hsc & Hrc & Htc & Hidx & _ & Hd).
  specialize (Hd (exact_where _ _ _ Hexact)).
  rewrite <- Hs in Hsc, Hrc, Htc, Hidx, Hd.
  set (group := where_eq r_pattern (p_name (pl_pattern pl)) type_data) in *.
  assert (exact group) as Hg by apply exact_where, Hexact.
  pose proof (lookup_lt_Some _ _ _ Hc) as Hilt.
  pose proof (lookup_lt_Some _ _ _ Hx) as Hjlt.
  rewrite length_take, length_app, length_map in Hjlt. cbn [length] in Hjlt.
  pose proof (len_nonneg (specs_of group)) as Hn.
  rewrite detail_data_cell; [|done|rewrite Hrc; unfold len; lia
                             |rewrite Htc; unfold len in *; lia].
  rewrite Hd. rewrite (item_map "") by (unfold len; lia).
  assert (item "" (colors_of group) i = color) as -> by (unfold item; by rewrite Hc).
  cbn [app]. rewrite item_cons by lia. replace (1 + j - 1) with j by lia.
  assert (take 9 (qty_cells group (specs_of group) color
                    ++ [VInt (qty_sum (where_eq r_color color group))])
          = map (λ x : option string,
                   VInt (match x with
                         | Some spec => qty group color spec
                         | None => qty_sum (where_eq r_color color group)
                         end))
              (take 9 (map Some (specs_of group) ++ [None]))) as ->.
  { rewrite fmap_take. f_equal. rewrite fmap_app. f_equal.
    rewrite qty_cells_exact by done. rewrite <- list_fmap_compose. done. }
  rewrite item_app_l.
  - unfold item. rewrite list_lookup_fmap. by rewrite Hx.
  - rewrite len_map. unfold len. rewrite length_take, length_app, length_map.
    cbn [length]. lia.
Qed.

(** The formulas of the total row, evaluated: the totals of the sizes,
    then the total of the pattern, as far as the columns are kept. *)
Lemma detail_total_shown pl j (x : option string) :
  pl ∈ ps_log st →
  let group := where_eq r_pattern (p_name (pl_pattern pl)) type_data in
  0 ≤ j → take 9 (map Some (specs_of group) ++ [None]) !! Z.to_nat j = Some x →
  eval_cell (ps_ws st) (pl_end pl, pl_col pl + (1 + j))
  = VInt (match x with
          | Some spec => qty_sum (where_eq r_spec spec group)
          | None => qty_sum group
          end).
Proof.
  intros Hpl group Hj Hx. subst group.
  destruct (detail_block_wf pl Hpl) as (Hdata & Hs & _ & He & _).
  set (group := where_eq r_pattern (p_name (pl_pattern pl)) type_data) in *.
  destruct (pattern_struct_closed group) as (Hsc & Hrc & Htc & Hidx & _).
  rewrite <- Hs in Hsc, Hrc, Htc, Hidx.
  pose proof (len_nonneg (specs_of group)) as Hn.
  pose proof (len_nonneg (colors_of group)) as Hr.
  pose proof (lookup_lt_Some _ _ _ Hx) as Hjlt.
  rewrite length_take, length_app, length_map in Hjlt. cbn [length] in Hjlt.
  rewrite (eval_sum _ _ _ (pl_row pl + 2) (st_row_count (p_struct (pl_pattern pl)))
             (λ i, match x with
                   | Some spec => qty group (item "" (colors_of group) i) spec
                   | None => qty_sum (where_eq r_color (item "" (colors_of group) i) group)
                   end)).
  - f_equal. rewrite Hrc. destruct x as [spec|].
    + rewrite (foldr_seqZ_items "" (λ color, qty group color spec)).
      apply qty_by_color.
    + rewrite (foldr_seqZ_items "" (λ color, qty_sum (where_eq r_color color group))).
      apply qty_sum_colors.
  - rewrite He.
    replace (pl_row pl + st_row_count (p_struct (pl_pattern pl)) + 2)
      with (pl_end pl) by lia.
    apply detail_total_cell; [done|]. unfold len in *. lia.
  - intros i Hi.
    rewrite (detail_kept_cell pl i j (item "" (colors_of group) i) x);
      [by destruct x|done|lia| |done|done].
    unfold item. destruct (colors_of group !! Z.to_nat i) eqn:E; [done|].
    apply lookup_ge_None in E. rewrite Hrc in Hi. unfold len in Hi. lia.
Qed.

End DetailCells.

(** ** The order of the tables on the sheets *)

Section TableOrder.

Import Sheet Props Gen Read Order.


Lemma filter_all {A} (P : A → Prop) `{∀ x, Decision (P x)} (l : list A) :
  Forall P l → filter P l = l.
Proof.
  induction 1 as [|x l Hx _ IH]; [done|].
  by rewrite filter_cons, decide_True, IH.
Qed.

Lemma filter_none {A} (P : A → Prop) `{∀ x, Decision (P x)} (l : list A) :
  Forall (λ x, ¬ P x) l → filter P l = [].
Proof.
  induction 1 as [|x l Hx _ IH]; [done|].
  by rewrite filter_cons, decide_False, IH.
Qed.


Lemma concat_filter_nonempty {A} (ls : list (list A)) :
  concat (filter (λ g, g ≠ []) ls) = concat ls.
Proof.
  induction ls as [|g ls IH]; [done|]. rewrite filter_cons.
  destruct (decide (g ≠ [])) as [Hg|Hg]; simpl; [by rewrite IH|].
  destruct g; [by rewrite IH|]. by destruct Hg.
Qed.

(** The bands joined are the sorted list. *)
Lemma bands_concat sorted_patterns :
  concat (_group_by_column_range sorted_patterns)
  = filter (λ p, 6 ≤ p_col_count p ≤ 7) sorted_patterns
      ++ filter (λ p, ¬ 6 ≤ p_col_count p ≤ 7) sorted_patterns.
Proof.
  unfold _group_by_column_range. cbv zeta. rewrite concat_filter_nonempty.
  cbn [concat]. rewrite app_nil_r. f_equal; apply list_filter_iff; intros p;
    rewrite andb_true_iff, !Z.leb_le; tauto.
Qed.

Lemma sorted_patterns_names patterns desc :
  map (λ p, (p_name p, p_data p)) (_sort_patterns_by_columns patterns desc) ≡ₚ patterns.
Proof.
  unfold _sort_patterns_by_columns. rewrite sorted_key_perm, map_map. cbn.
  assert (map (λ x : string * Frame, (x.1, x.2)) patterns = patterns) as ->; [|done].
  transitivity (map id patterns); [|apply map_id]. apply map_ext. by intros [? ?].
Qed.



(** The groups of [groupby] come in the strict text order of their
    keys. *)
Lemma groupby_keys (col : Row → string) (df : Frame) :
  map fst (groupby col df) = Py.sorted (Py.unique (map col df)).
Proof. unfold groupby. rewrite map_map. apply map_id. Qed.





End TableOrder.

(** ** Matching the fields *)

Section Fields.

Import Std Columns.

Lemma lower_empty s : lower s = "" → s = "".
Proof. by destruct s. Qed.

Lemma match_alias_some columns aliases c :
  match_alias columns aliases = Some c →
  c ∈ columns ∧ ∃ alias, alias ∈ aliases ∧ lower c = lower alias.
Proof.
  unfold match_alias.
  destruct (List.find _ aliases) as [alias|] eqn:Ea; [|done].
  intros Hc. apply find_some in Ea as [Ha _]. apply find_some in Hc as [Hc Heq].
  apply bool_decide_eq_true in Heq.
  split; [by apply list_elem_of_In|]. exists alias. split; [by apply list_elem_of_In|done].
Qed.

Lemma match_alias_found columns aliases :
  Exists (present columns) aliases → is_Some (match_alias columns aliases).
Proof.
  intros (alias & Ha & Hp)%Exists_exists. unfold match_alias.
  destruct (List.find _ aliases) as [alias'|] eqn:Ea.
  - apply find_some in Ea as [_ Hp']. apply bool_decide_eq_true in Hp'.
    apply list_elem_of_fmap in Hp' as (col & Hcol & Hin).
    destruct (List.find _ columns) as [c|] eqn:Ec; [done|].
    eapply find_none in Ec; [|by apply list_elem_of_In].
    apply bool_decide_eq_false in Ec. by destruct Ec.
  - eapply find_none in Ea; [|by apply list_elem_of_In].
    apply bool_decide_eq_false in Ea. by destruct Ea.
Qed.

Lemma match_alias_missing columns aliases :
  match_alias columns aliases = None → Forall (λ alias, ¬ present columns alias) aliases.
Proof.
  intros Hnone. apply Forall_forall. intros alias Ha Hp.
  destruct (match_alias_found columns aliases) as [c Hc]; [|congruence].
  apply Exists_exists. eauto.
Qed.

(** The outcome of the loop over the fields: all fields have a column,
    or the error names the first field that has none. *)
Lemma match_fields_outcome columns mapping : ∀ cols,
  Forall (λ fa, Forall (λ alias, alias ≠ "") (snd fa)) mapping →
  match match_fields columns mapping cols with
  | inr _ => Forall (found columns) mapping
  | inl e =>
      ∃ pre field aliases post,
        mapping = pre ++ (field, aliases) :: post ∧ e = ValueError field ∧
        Forall (found columns) pre ∧ Forall (λ alias, ¬ present columns alias) aliases
  end.
Proof.
  induction mapping as [|[field aliases] mapping IH]; intros cols Hne;
    [simpl; constructor|].
  apply Forall_cons in Hne as [Hne1 Hne]. cbn [match_fields].
  destruct (match_alias columns aliases) as [c|] eqn:Ec.
  - pose proof (match_alias_some _ _ _ Ec) as (Hc & alias & Ha & Hl).
    assert (found columns (field, aliases)) as Hfound.
    { apply Exists_exists. exists alias. split; [done|].
      unfold present. rewrite <- Hl. apply list_elem_of_fmap. eauto. }
    rewrite bool_decide_false.
    2: { intros ->. rewrite Forall_forall in Hne1.
         apply (Hne1 alias Ha). apply lower_empty. by rewrite <- Hl. }
    specialize (IH (<[c := field]> cols) Hne).
    destruct (match_fields columns mapping _) as [e|res].
    + destruct IH as (pre & f & al & post & -> & -> & Hpre & Hal).
      exists ((field, aliases) :: pre), f, al, post. split_and!; try done.
      by constructor.
    + by constructor.
  - exists [], field, aliases, mapping. split_and!; try done.
    by apply match_alias_missing.
Qed.

(** A list has one first element without a property. *)
Lemma first_without_unique {A} (Q : A → Prop) pre x post pre' x' post' :
  pre ++ x :: post = pre' ++ x' :: post' →
  Forall Q pre → ¬ Q x → Forall Q pre' → ¬ Q x' → x = x'.
Proof.
  revert pre'. induction pre as [|a pre IH]; intros [|a' pre'] Heq Hp Hx Hp' Hx';
    simpl in Heq.
  - by injection Heq.
  - injection Heq as -> _. apply Forall_cons in Hp' as [Ha _]. by destruct Hx.
  - injection Heq as -> _. apply Forall_cons in Hp as [Ha _]. by destruct Hx'.
  - injection Heq as -> Heq. apply Forall_cons in Hp as [_ Hp].
    apply Forall_cons in Hp' as [_ Hp']. by eapply IH.
Qed.

Lemma not_found columns field aliases :
  Forall (λ alias, ¬ present columns alias) aliases → ¬ found columns (field, aliases).
Proof.
  intros Hall (alias & Ha & Hp)%Exists_exists. rewrite Forall_forall in Hall.
  by apply (Hall alias).
Qed.

Lemma field_aliases_nonempty :
  Forall (λ fa, Forall (λ alias, alias ≠ "") (snd fa)) field_mapping.
Proof. repeat constructor; discriminate. Qed.

End Fields.

(** ** The blocks of a finished detail sheet *)

Section DetailBlocks.

Import Sheet Props Gen Read.

Context (date_str type_name : string) (type_data : Frame).

Let st := _generate_type_pattern_sheet date_str empty_sheet type_name type_data.

(** The names of the blocks are the patterns of the type, each once. *)
Lemma detail_names :
  map (λ pl, p_name (pl_pattern pl)) (ps_log st)
  ≡ₚ Py.sorted (Py.unique (map r_pattern type_data)).
Proof.
  transitivity (map p_name (map pl_pattern (ps_log st))); [by rewrite map_map|].
  unfold st. rewrite (detail_log_patterns date_str type_name type_data), bands_concat, filter_app_complement.
  rewrite <- groupby_keys.
  rewrite <- (sorted_patterns_names (groupby r_pattern type_data) false) at 2.
  by rewrite map_map.
Qed.

(** Every block has a data row and a size column. *)
Lemma detail_block_nonempty pl :
  pl ∈ ps_log st →
  1 ≤ st_row_count (p_struct (pl_pattern pl)) ∧
  1 ≤ st_spec_count (p_struct (pl_pattern pl)).
Proof.
  intros Hpl. destruct (detail_block_wf date_str type_name type_data pl Hpl) as (_ & Hs & _).
  set (group := where_eq r_pattern (p_name (pl_pattern pl)) type_data) in *.
  destruct (pattern_struct_closed group) as (Hsc & Hrc & _).
  rewrite <- Hs in Hsc, Hrc. rewrite Hsc, Hrc.
  assert (p_name (pl_pattern pl) ∈ map r_pattern type_data) as Hname.
  { apply unique_elem. rewrite <- (sorted_by_perm String.ltb).
    fold (Py.sorted (Py.unique (map r_pattern type_data))).
    rewrite <- detail_names. apply list_elem_of_fmap. eauto. }
  apply list_elem_of_fmap in Hname as (r & Hr & Hin).
  assert (r ∈ group) as Hrg by (apply where_eq_elem; by split).
  by apply group_nonempty in Hrg.
Qed.

End DetailBlocks.

(** ** The cells a block leaves *)

Ltac bools :=
  repeat match goal with
  | H : (_ =? _) = true |- _ => apply Z.eqb_eq in H
  | H : (_ =? _) = false |- _ => apply Z.eqb_neq in H
  | H : (_ <=? _) = true |- _ => apply Z.leb_le in H
  | H : (_ <=? _) = false |- _ => apply Z.leb_gt in H
  end.

Section Once.

Import Sheet Props Gen Look.

Implicit Types (ws : Worksheet) (k : Z * Z).

(** A loop of which one round writes the cell [k]. *)
Lemma for_each_once {A} (l : list A) (body : A → Worksheet → Worksheet) ws k a
    (g : Cell → Cell) :
  NoDup l → a ∈ l →
  (∀ w, get_cell (body a w) k = g (get_cell w k)) →
  (∀ b w, b ∈ l → b ≠ a → get_cell (body b w) k = get_cell w k) →
  get_cell (for_each l body ws) k = g (get_cell ws k).
Proof.
  intros Hnd Ha Hhit Hmiss.
  apply list_elem_of_split in Ha as (l1 & l2 & ->).
  apply NoDup_app in Hnd as (_ & H1 & [H2 _]%NoDup_cons).
  rewrite for_each_app, for_each_cons.
  rewrite for_each_untouched.
  - rewrite Hhit. f_equal. apply for_each_untouched.
    intros b w Hb. apply Hmiss.
    + apply elem_of_app. by left.
    + intros ->. by apply (H1 a Hb); left.
  - intros b w Hb. apply Hmiss.
    + apply elem_of_app. right. by right.
    + by intros ->.
Qed.

Lemma NoDup_range a b : NoDup (range a b).
Proof. apply NoDup_seqZ. Qed.

Lemma NoDup_enumerate {A} (l : list A) : NoDup (enumerate l).
Proof. apply NoDup_zip_l, NoDup_seqZ. Qed.

Lemma enumerate_fun {A} (l : list A) i x y :
  (i, x) ∈ enumerate l → (i, y) ∈ enumerate l → x = y.
Proof. intros [_ Hx]%elem_of_enumerate [_ Hy]%elem_of_enumerate. congruence. Qed.

Lemma styled_full v font fill c : v ≠ VNone → styled v font fill c = full v font fill.
Proof. by destruct v. Qed.

Lemma item_some (data : list (list Value)) i o :
  no_none data → 0 ≤ i < len data → item (VStr "") (item [] data i) o ≠ VNone.
Proof.
  intros Hnn Hi. unfold item at 1.
  destruct (item [] data i !! Z.to_nat o) as [v|] eqn:Hv; simpl; [|done].
  eapply Hnn; [by apply item_elem|]. by eapply list_elem_of_lookup_2.
Qed.

End Once.

Section PatternExact.

Import Sheet Props Gen Look.

Implicit Types (ws : Worksheet) (k : Z * Z) (S : Struct).

Lemma pattern_header_get S hr c ws o :
  0 ≤ o < st_total_cols S →
  get_cell (pattern_header S hr c ws) (hr, c + o)
  = full (VStr (item "" (st_headers S) o)) bold_font header_fill.
Proof.
  intros Ho. unfold pattern_header.
  apply (for_each_once _ _ _ _ o (λ _, full _ _ _)).
  - apply NoDup_range.
  - apply elem_of_range. lia.
  - intros w. rewrite get_upd_eq. by apply styled_full.
  - intros b w _ Hb. apply get_upd_ne. intros [= Heq]. lia.
Qed.

Lemma pattern_data_get S ds c ws i o :
  no_none (st_data S) → 0 ≤ i < len (st_data S) → 0 ≤ o < st_total_cols S →
  get_cell (pattern_data_rows S ds c ws) (ds + i, c + o)
  = full (item (VStr "") (item [] (st_data S) i) o)
      (if (o =? 0) || (o + 1 =? st_total_col_idx S) then bold_font else normal_font)
      (stripe i).
Proof.
  intros Hnn Hi Ho. unfold pattern_data_rows.
  destruct (st_data S !! Z.to_nat i) as [row|] eqn:Hrow.
  2: { apply lookup_ge_None in Hrow. unfold len in Hi. lia. }
  assert (item [] (st_data S) i = row) as Hitem by (unfold item; by rewrite Hrow).
  apply (for_each_once _ _ _ _ (i, row) (λ _, full _ _ _)).
  - apply NoDup_enumerate.
  - apply elem_of_enumerate. split; [lia|done].
  - intros w. cbn [fst snd].
    apply (for_each_once _ _ _ _ o (λ _, full _ _ _)).
    + apply NoDup_range.
    + apply elem_of_range. lia.
    + intros w'. rewrite get_upd_eq, Hitem. apply styled_full.
      rewrite <- Hitem. by apply item_some.
    + intros b w' _ Hb. apply get_upd_ne. intros [= Heq]. lia.
  - intros [i' row'] w Hin Hne. cbn [fst snd].
    apply for_each_untouched. intros o' w' _. apply get_upd_ne.
    intros [= Heq _]. assert (i' = i) as -> by lia.
    apply Hne. f_equal. eapply enumerate_fun; [done|].
    apply elem_of_enumerate. split; [lia|done].
Qed.

(** The cells of the total row. *)
Lemma pattern_total_get S ds de tr c ws o :
  0 ≤ st_spec_count S → 2 ≤ st_total_col_idx S ≤ st_total_cols S →
  0 ≤ o < st_total_cols S →
  get_cell (pattern_total_row S ds de tr c ws) (tr, c + o)
  = if o =? 0 then full (VStr "合计") bold_font title_total_fill
    else if (o <=? st_spec_count S) || (o + 1 =? st_total_col_idx S)
    then full (VSum (c + o) ds de) bold_font title_total_fill
    else padded (get_cell ws (tr, c + o)).
Proof.
  intros Hsc Hidx Ho. rewrite pattern_total_row_eq. unfold total_cells. cbv zeta.
  set (w1 := upd_cell (tr, c) _ ws).
  set (w2 := for_each (range 0 (Z.min _ _)) _ w1).
  set (w3 := if _ <=? _ then _ else w2).
  assert (get_cell w1 (tr, c + o)
          = if o =? 0 then full (VStr "合计") bold_font title_total_fill
            else get_cell ws (tr, c + o)) as H1.
  { subst w1. destruct (o =? 0) eqn:E; [apply Z.eqb_eq in E|apply Z.eqb_neq in E].
    - subst o. rewrite Z.add_0_r, get_upd_eq. by apply styled_full.
    - apply get_upd_ne. intros [= Heq]. lia. }
  assert (get_cell w2 (tr, c + o)
          = if (1 <=? o) && (o <=? st_spec_count S)
            then full (VSum (c + o) ds de) bold_font title_total_fill
            else get_cell w1 (tr, c + o)) as H2.
  { subst w2. destruct ((1 <=? o) && (o <=? st_spec_count S)) eqn:E.
    - apply andb_true_iff in E as [E1 E2]. apply Z.leb_le in E1, E2.
      apply (for_each_once _ _ _ _ (o - 1) (λ _, full _ _ _)).
      + apply NoDup_range.
      + apply elem_of_range. lia.
      + intros w. replace (tr, c + 1 + (o - 1)) with (tr, c + o) by (f_equal; lia).
        rewrite get_upd_eq. replace (c + 1 + (o - 1)) with (c + o) by lia.
        by apply styled_full.
      + intros b w _ Hb. apply get_upd_ne. intros [= Heq]. lia.
    - apply for_each_untouched. intros b w Hb%elem_of_range.
      apply get_upd_ne. intros [= Heq].
      apply andb_false_iff in E as [E|E];
        [apply Z.leb_gt in E|apply Z.leb_gt in E]; lia. }
  assert (get_cell w3 (tr, c + o)
          = if o + 1 =? st_total_col_idx S
            then full (VSum (c + o) ds de) bold_font title_total_fill
            else get_cell w2 (tr, c + o)) as H3.
  { subst w3.
    destruct (c + st_total_col_idx S - 1 <=? c + st_total_cols S - 1) eqn:E';
      [|apply Z.leb_gt in E'; lia].
    destruct (o + 1 =? st_total_col_idx S) eqn:E;
      [apply Z.eqb_eq in E|apply Z.eqb_neq in E].
    - replace (c + st_total_col_idx S - 1) with (c + o) by lia.
      rewrite get_upd_eq. by apply styled_full.
    - apply get_upd_ne. intros [= Heq]. lia. }
  destruct ((o =? 0) || ((1 <=? o) && (o <=? st_spec_count S))
            || (o + 1 =? st_total_col_idx S)) eqn:E.
  - rewrite for_each_untouched.
    + rewrite H3, H2, H1.
      destruct (o =? 0) eqn:E0, (1 <=? o) eqn:E1o, (o <=? st_spec_count S) eqn:Esc,
        (o + 1 =? st_total_col_idx S) eqn:Eidx; simpl in E |- *; try done;
        bools; lia.
    + intros b w Hb.
      destruct ((b =? 0) || ((1 <=? b) && (b <=? st_spec_count S))
                || (b + 1 =? st_total_col_idx S)) eqn:Eb; [done|].
      apply get_upd_ne. intros [= Heq]. assert (b = o) as -> by lia. congruence.
  - rewrite (for_each_once _ _ _ _ o padded).
    + rewrite H3, H2, H1.
      destruct (o =? 0) eqn:E0, (1 <=? o) eqn:E1o, (o <=? st_spec_count S) eqn:Esc,
        (o + 1 =? st_total_col_idx S) eqn:Eidx; simpl in E |- *; try done;
        bools; lia.
    + apply NoDup_range.
    + apply elem_of_range. lia.
    + intros w. rewrite E. by rewrite get_upd_eq.
    + intros b w _ Hb.
      destruct ((b =? 0) || ((1 <=? b) && (b <=? st_spec_count S))
                || (b + 1 =? st_total_col_idx S)); [done|].
      apply get_upd_ne. intros [= Heq]. lia.
Qed.

(** The cells of a block drawn on blank cells. *)
Lemma pattern_block_cell ws title S r c k :
  wf_struct S → inside (pattern_rect S r c) k → get_cell ws k = blank →
  get_cell (fst (_generate_single_pattern_block ws title S r c)) k
  = pattern_cell title S r c k.
Proof.
  intros (Htc & Hlen & Hsc & Hidx & Hnn) Hin Hblank.
  rewrite pattern_block_unfold. cbn [fst].
  assert (0 ≤ st_row_count S) by (rewrite <- Hlen; unfold len; lia).
  unfold inside, pattern_rect, block_rect in Hin. simpl in Hin.
  unfold pattern_cell. cbv zeta.
  assert (k = (r + (fst k - r), c + (snd k - c))) as Hk
    by (destruct k; simpl; f_equal; lia).
  set (i := fst k - r) in *. set (o := snd k - c) in *.
  destruct (i =? 0) eqn:E0; [apply Z.eqb_eq in E0|apply Z.eqb_neq in E0].
  { rewrite pattern_total_only; [|lia|lia|lia].
    rewrite pattern_data_only by lia.
    rewrite pattern_header_only by lia.
    destruct (o =? 0) eqn:Ec; [apply Z.eqb_eq in Ec|apply Z.eqb_neq in Ec].
    - rewrite Hk, E0, Ec, !Z.add_0_r. rewrite pattern_title_sets. by apply styled_full.
    - rewrite pattern_title_only; [done|]. rewrite Hk. intros [= Heq]. lia. }
  destruct (i =? 1) eqn:E1; [apply Z.eqb_eq in E1|apply Z.eqb_neq in E1].
  { rewrite pattern_total_only; [|lia|lia|lia].
    rewrite pattern_data_only by lia.
    rewrite Hk, E1. apply pattern_header_get. lia. }
  destruct (i <=? st_row_count S + 1) eqn:E2;
    [apply Z.leb_le in E2|apply Z.leb_gt in E2].
  { rewrite pattern_total_only; [|lia|lia|lia].
    rewrite Hk at 1. replace (r + i) with (r + 1 + 1 + (i - 2)) by lia.
    apply pattern_data_get; [done|rewrite Hlen; lia|lia]. }
  rewrite Hk at 1.
  replace (r + i) with (r + 1 + 1 + st_row_count S - 1 + 1) by lia.
  rewrite pattern_total_get by lia.
  replace (c + o) with (snd k) by lia.
  replace (r + 1 + 1) with (r + 2) by lia.
  replace (r + 2 + st_row_count S - 1) with (r + st_row_count S + 1) by lia.
  destruct (o =? 0); [done|]. destruct (_ || _); [done|].
  rewrite pattern_data_only by (simpl; rewrite ?Hlen; lia).
  rewrite pattern_header_only by (simpl; lia).
  rewrite pattern_title_only by (intros [= Heq]; lia).
  replace (r + st_row_count S + 1 + 1, snd k) with k; [by rewrite Hblank|].
  rewrite Hk at 1. f_equal; lia.
Qed.

End PatternExact.

Section TypeExact.

Import Sheet Props Gen Look.

Implicit Types (ws : Worksheet) (k : Z * Z) (td : TypeData).





End TypeExact.

(** ** The cells of the finished sheets *)

Section TypeSheetExact.

Import Sheet Props Gen Look.




End TypeSheetExact.

Section PatternSheetExact.

Import Sheet Props Gen Look.

Context (type_name date_str : string).

Implicit Types (ws : Worksheet) (k : Z * Z) (p q : Pattern) (st : PatternSheet).

Local Abbreviation draw ws p r c :=
  (_generate_single_pattern_block ws (block_title type_name date_str p) (p_struct p) r c).

(** The clearing at the end of a round formats one cell of the gap
    column and leaves blank cells and gap cells as they are. *)
Lemma pair_spacer_get tc1 m ws k :
  get_cell ws k = blank ∨ get_cell ws k = gap_cell →
  get_cell (pair_spacer tc1 m ws) k
  = if bool_decide (k = (m, left_start_col + tc1)) then gap_cell else get_cell ws k.
Proof.
  intros Hk. unfold pair_spacer. cbv zeta.
  set (w1 := _format_blank_column _ _ _ ws).
  assert (get_cell w1 k
          = if bool_decide (k = (m, left_start_col + tc1)) then gap_cell
            else get_cell ws k) as H1.
  { subst w1. unfold _format_blank_column, range, block_spacing.
    replace (m + 1 - (m + 2 - 2)) with 1 by lia.
    replace (m + 2 - 2) with m by lia.
    change (seqZ m 1) with [0 + m]. rewrite Z.add_0_l.
    rewrite for_each_cons, for_each_nil. case_bool_decide as Heq.
    - subst k. rewrite get_upd_eq. by destruct Hk as [->| ->].
    - by rewrite get_upd_ne. }
  rewrite <- H1.
  assert (get_cell w1 k = blank ∨ get_cell w1 k = gap_cell) as Hk1.
  { rewrite H1. case_bool_decide; [by right|done]. }
  clear H1. generalize dependent w1. intros w1 Hk1.
  assert (set_border no_border (get_cell w1 k) = get_cell w1 k) as HX
    by (by destruct Hk1 as [->| ->]).
  apply (for_each_ind (λ w, get_cell w k = get_cell w1 k)); [done|].
  intros row w _ Hw.
  apply (for_each_ind (λ w, get_cell w k = get_cell w1 k)); [done|].
  intros col w' _ Hw'.
  destruct (decide ((row, col) = k)) as [<-|Hne].
  - by rewrite get_upd_eq, Hw'.
  - by rewrite get_upd_ne.
Qed.

Lemma existsb_ext_in {A} (f g : A → bool) (l : list A) :
  (∀ x, x ∈ l → f x = g x) → existsb f l = existsb g l.
Proof.
  induction l as [|x l IH]; intros H; [done|]. simpl.
  rewrite H by left. rewrite IH; [done|]. intros; apply H. by right.
Qed.

Lemma gap_row_old (log new : list Placed) (b : Placed) :
  (∀ a : Placed, a ∈ new → pl_row a ≠ pl_row b) → gap_row (log ++ new) b = gap_row log b.
Proof.
  intros H. unfold gap_row. rewrite filter_app.
  rewrite (filter_none _ new); [by rewrite app_nil_r|].
  apply Forall_forall. intros a Ha. by apply H.
Qed.

Lemma gap_row_new (log new : list Placed) (b : Placed) :
  (∀ a : Placed, a ∈ log → pl_row a ≠ pl_row b) → (∀ a : Placed, a ∈ new → pl_row a = pl_row b) →
  gap_row (log ++ new) b = foldr Z.max (pl_end b) (map pl_end new).
Proof.
  intros H1 H2. unfold gap_row. rewrite filter_app.
  rewrite (filter_none _ log) by (apply Forall_forall; intros a Ha; by apply H1).
  rewrite (filter_all _ new) by (by apply Forall_forall). done.
Qed.

(** The gap cells after a round: those before it and the one of the
    round, in the row [m] in which its blocks end. *)
Lemma is_gap_round (log new : list Placed) (b : Placed) m k :
  (∀ (a a' : Placed), a ∈ log → a' ∈ new → pl_row a ≠ pl_row a') →
  (∀ a : Placed, a ∈ new → pl_row a = pl_row b) →
  b ∈ new → pl_col b = left_start_col →
  (∀ a : Placed, a ∈ new → pl_col a = left_start_col → a = b) →
  foldr Z.max (pl_end b) (map pl_end new) = m →
  is_gap (log ++ new) k
  = is_gap log k
    || bool_decide (k = (m, left_start_col + st_total_cols (p_struct (pl_pattern b)))).
Proof.
  intros Hrows Hsame Hb0 Hcol Hothers Hm. unfold is_gap. rewrite existsb_app.
  f_equal.
  - apply existsb_ext_in. intros a Ha. unfold gap_at.
    rewrite gap_row_old; [done|]. intros a' Ha'. apply not_eq_sym. by apply Hrows.
  - assert (∀ a : Placed, a ∈ new →
              gap_at (log ++ new) a k
              = (pl_col a =? left_start_col) &&
                bool_decide (k = (m, left_start_col
                                     + st_total_cols (p_struct (pl_pattern b))))) as Ha.
    { intros a Ha. unfold gap_at.
      destruct (pl_col a =? left_start_col) eqn:E; [|done]. bools.
      rewrite (Hothers a Ha E).
      rewrite gap_row_new, Hm; [| |done].
      2: { intros a' Ha'. by apply Hrows. }
      simpl. destruct k as [kr kc]. cbn [fst snd].
      case_bool_decide as Hk.
      - injection Hk as -> ->. by rewrite !Z.eqb_refl.
      - destruct (kr =? m) eqn:E1; [|done]. destruct (kc =? _) eqn:E2; [|done].
        bools. destruct Hk. by f_equal. }
    rewrite (existsb_ext_in _ _ _ Ha).
    destruct (bool_decide (k = _)).
    + apply existsb_exists. exists b. split; [by apply list_elem_of_In|].
      rewrite Hcol. by rewrite Z.eqb_refl.
    + clear. induction new as [|a new IH]; [done|]. simpl.
      by rewrite andb_false_r.
Qed.

Lemma pair_step_exact group i st :
  (∀ p, p ∈ group → wf_pattern p) →
  pattern_sheet_ok type_name date_str st →
  pattern_sheet_exact type_name date_str st →
  pattern_sheet_exact type_name date_str (pair_step type_name date_str group i st).
Proof.
  intros Hwf [Hshow Hend] (Hin & Hout & Hfresh).
  destruct (group !! i) as [p|] eqn:H1; [|by rewrite pair_step_none].
  assert (∀ a : Placed, a ∈ ps_log st → pl_row a < ps_row st) as Hrow.
  { intros a Ha. specialize (Hend a Ha). unfold block_spacing in Hend.
    pose proof (sh_rows _ _ _ _ Hshow a Ha) as Hr.
    unfold placed_rect, pattern_rect, block_rect in Hr, Hend. simpl in Hr, Hend. lia. }
  assert (∀ k, (∀ a : Placed, a ∈ ps_log st → ¬ inside (placed_rect a) k) →
               get_cell (ps_ws st) k = blank ∨ get_cell (ps_ws st) k = gap_cell) as Hout'.
  { intros k Hk. rewrite (Hout k Hk). destruct (is_gap _ _); [by right|by left]. }
  assert (wf_pattern p) as Hp by (by eapply Hwf, list_elem_of_lookup_2).
  pose proof (wf_rows p Hp) as Hprows. destruct Hp as [Hpwf Hpcols].
  pose proof Hpwf as (Hptc & _).
  assert (∀ b' k, b' ∈ ps_log st → inside (placed_rect b') k → fst k < ps_row st)
    as Hold.
  { intros b' k Hb' Hk. specialize (Hend b' Hb'). unfold block_spacing in Hend.
    unfold inside in Hk. lia. }
  set (b1 := mkPlaced p (ps_row st) left_start_col (block_end p (ps_row st))).
  assert (∀ k, inside (placed_rect b1) k ↔
               (ps_row st ≤ fst k ≤ ps_row st + st_row_count (p_struct p) + 2 ∧
                1 ≤ snd k ≤ st_total_cols (p_struct p))) as Hb1.
  { intros k. unfold b1, inside, placed_rect, pattern_rect, block_rect, left_start_col.
    simpl. lia. }
  destruct (group !! (i + 1)%nat) as [q|] eqn:H2.
  - assert (wf_pattern q) as Hq by (by eapply Hwf, list_elem_of_lookup_2).
    pose proof (wf_rows q Hq) as Hqrows. destruct Hq as [Hqwf Hqcols].
    pose proof Hqwf as (Hqtc & _).
    rewrite (pair_step_two _ _ group i st p q) by done. cbv zeta.
    set (b2 := mkPlaced q (ps_row st) right_start_col (block_end q (ps_row st))).
    assert (∀ k, inside (placed_rect b2) k ↔
                 (ps_row st ≤ fst k ≤ ps_row st + st_row_count (p_struct q) + 2 ∧
                  12 ≤ snd k ≤ 12 + st_total_cols (p_struct q) - 1)) as Hb2.
    { intros k. unfold b2, inside, placed_rect, pattern_rect, block_rect, right_start_col.
      simpl. lia. }
    set (m := Z.max _ _).
    assert (block_end p (ps_row st) ≤ m ∧ block_end q (ps_row st) ≤ m) as [Hm1 Hm2]
      by (subst m; lia).
    unfold block_end in Hm1, Hm2.
    assert (∀ ws k, ¬ inside (placed_rect b1) k →
              get_cell (fst (draw ws p (ps_row st) left_start_col)) k = get_cell ws k)
      as Honly1 by (intros; by apply pattern_block_only).
    assert (∀ ws k, ¬ inside (placed_rect b2) k →
              get_cell (fst (draw ws q (ps_row st) right_start_col)) k = get_cell ws k)
      as Honly2 by (intros; by apply pattern_block_only).
    split_and!; cbn [ps_ws ps_row ps_log].
    + intros b' k Hb' Hk.
      apply elem_of_app in Hb' as [Hb'|Hb'];
        [apply elem_of_app in Hb' as [Hb'|Hb']|].
      * pose proof (Hold b' k Hb' Hk).
        rewrite pair_spacer_only by (done || lia).
        rewrite Honly2 by (rewrite Hb2; lia).
        rewrite Honly1 by (rewrite Hb1; lia).
        by apply Hin.
      * apply list_elem_of_singleton in Hb' as ->.
        pose proof (proj1 (Hb1 k) Hk) as Hk'.
        rewrite pair_spacer_only by (done || lia).
        rewrite Honly2 by (rewrite Hb2; lia).
        apply pattern_block_cell; [done|done|]. apply Hfresh. lia.
      * apply list_elem_of_singleton in Hb' as ->.
        pose proof (proj1 (Hb2 k) Hk) as Hk'.
        rewrite pair_spacer_only by (done || lia).
        apply pattern_block_cell; [done|done|].
        rewrite Honly1 by (rewrite Hb1; lia). apply Hfresh. lia.
    + intros k Hk.
      assert (∀ a : Placed, a ∈ ps_log st → ¬ inside (placed_rect a) k) as Hk0.
      { intros a Ha. apply Hk. apply elem_of_app. left. apply elem_of_app. by left. }
      assert (get_cell (fst (draw (fst (draw (ps_ws st) p (ps_row st) left_start_col))
                               q (ps_row st) right_start_col)) k
              = get_cell (ps_ws st) k) as Hsame.
      { rewrite Honly2, Honly1; [done| |].
        - apply Hk. apply elem_of_app. left. apply elem_of_app. right.
          by apply list_elem_of_singleton.
        - apply Hk. apply elem_of_app. right. by apply list_elem_of_singleton. }
      rewrite pair_spacer_get by (rewrite Hsame; by apply Hout').
      rewrite Hsame, (Hout k Hk0). rewrite <- app_assoc. fold b1.
      rewrite (is_gap_round (ps_log st) ([b1] ++ [b2]) b1 m k).
      * cbn [pl_pattern b1]. by destruct (is_gap _ _), (bool_decide _).
      * intros a a' Ha [->%list_elem_of_singleton| ->%list_elem_of_singleton]%elem_of_app;
          specialize (Hrow a Ha); simpl; lia.
      * by intros a [->%list_elem_of_singleton| ->%list_elem_of_singleton]%elem_of_app.
      * left.
      * done.
      * intros a [->%list_elem_of_singleton| ->%list_elem_of_singleton]%elem_of_app;
          [done|]. simpl. unfold left_start_col, right_start_col. lia.
      * simpl. subst m. lia.
    + intros k Hk. unfold block_spacing in Hk.
      rewrite pair_spacer_only by (done || lia).
      rewrite Honly2 by (rewrite Hb2; lia).
      rewrite Honly1 by (rewrite Hb1; lia).
      apply Hfresh. lia.
  - rewrite (pair_step_one _ _ group i st p) by done.
    assert (∀ ws k, ¬ inside (placed_rect b1) k →
              get_cell (fst (draw ws p (ps_row st) left_start_col)) k = get_cell ws k)
      as Honly1 by (intros; by apply pattern_block_only).
    unfold block_end.
    split_and!; cbn [ps_ws ps_row ps_log].
    + intros b' k [Hb'|Hb']%elem_of_app Hk.
      * pose proof (Hold b' k Hb' Hk).
        rewrite pair_spacer_only by (done || lia).
        rewrite Honly1 by (rewrite Hb1; lia).
        by apply Hin.
      * apply list_elem_of_singleton in Hb' as ->.
        pose proof (proj1 (Hb1 k) Hk) as Hk'.
        rewrite pair_spacer_only by (done || lia).
        apply pattern_block_cell; [done|done|]. apply Hfresh. lia.
    + intros k Hk.
      assert (∀ a : Placed, a ∈ ps_log st → ¬ inside (placed_rect a) k) as Hk0.
      { intros a Ha. apply Hk. apply elem_of_app. by left. }
      assert (get_cell (fst (draw (ps_ws st) p (ps_row st) left_start_col)) k
              = get_cell (ps_ws st) k) as Hsame.
      { rewrite Honly1; [done|]. apply Hk. apply elem_of_app. right.
        by apply list_elem_of_singleton. }
      rewrite pair_spacer_get by (rewrite Hsame; by apply Hout').
      rewrite Hsame, (Hout k Hk0).
      change (is_gap (ps_log st ++ [?x]) k) with (is_gap (ps_log st ++ [b1]) k).
      rewrite (is_gap_round (ps_log st) [b1] b1
                 (ps_row st + st_row_count (p_struct p) + 2) k).
      * cbn [pl_pattern b1]. by destruct (is_gap _ _), (bool_decide _).
      * intros a a' Ha ->%list_elem_of_singleton. specialize (Hrow a Ha). simpl. lia.
      * by intros a ->%list_elem_of_singleton.
      * left.
      * done.
      * by intros a ->%list_elem_of_singleton.
      * simpl. unfold block_end. lia.
    + intros k Hk. unfold block_spacing in Hk.
      rewrite pair_spacer_only by (done || lia).
      rewrite Honly1 by (rewrite Hb1; lia).
      apply Hfresh. lia.
Qed.

Lemma pattern_sheet_exact_final df :
  pattern_sheet_exact type_name date_str
    (_generate_type_pattern_sheet date_str empty_sheet type_name df).
Proof.
  unfold _generate_type_pattern_sheet. cbv zeta.
  set (groups := _group_by_column_range _).
  set (st0 := mkPatternSheet _ 1 []).
  enough (pattern_sheet_ok type_name date_str
            (for_each groups (λ group st,
               for_each (Py.range2 0 (length group))
                 (pair_step type_name date_str group) st) st0) ∧
          pattern_sheet_exact type_name date_str
            (for_each groups (λ group st,
               for_each (Py.range2 0 (length group))
                 (pair_step type_name date_str group) st) st0)) as [_ ?]; [done|].
  apply (for_each_ind (λ st, pattern_sheet_ok type_name date_str st ∧
                             pattern_sheet_exact type_name date_str st)).
  - split; [split; [apply shows_empty|]|].
    + intros p Hp. by apply elem_of_nil in Hp.
    + split_and!; [|done|done].
      intros p k Hp. by apply elem_of_nil in Hp.
  - intros g st Hg Hst.
    assert (∀ p, p ∈ g → wf_pattern p) as Hwf.
    { intros p Hp. eapply sorted_patterns_wf, band_subset; done. }
    apply (for_each_ind (λ st, pattern_sheet_ok type_name date_str st ∧
                               pattern_sheet_exact type_name date_str st)); [done|].
    intros i st' _ [Hok Hex].
    split; [by apply pair_step_ok|by apply pair_step_exact].
Qed.

End PatternSheetExact.

(** ** The name of the output file *)

Section PathFacts.

Import Path.

Lemma append_cancel_l (s a b : string) : s +:+ a = s +:+ b → a = b.
Proof. induction s as [|c s IH]; simpl; [done|]. intros [= H]. by apply IH. Qed.

Lemma append_split (a b c d : string) :
  String.length a = String.length b → a +:+ c = b +:+ d → a = b ∧ c = d.
Proof.
  revert b. induction a as [|x a IH]; intros [|y b] Hlen; simpl in *; try done.
  intros [= -> H]. injection Hlen as Hlen.
  destruct (IH b Hlen H) as [-> ->]. done.
Qed.

Lemma append_length (a b : string) :
  String.length (a +:+ b) = (String.length a + String.length b)%nat.
Proof. induction a as [|x a IH]; simpl; [done|]. by rewrite IH. Qed.

Lemma two_length n : 0 ≤ n < 100 → String.length (two n) = 2%nat.
Proof.
  intros Hn.
  assert (Forall (λ n, String.length (two n) = 2%nat) (seqZ 0 100)) as H.
  { apply (bool_decide_unpack _). vm_compute. exact I. }
  rewrite Forall_forall in H. apply H, elem_of_seqZ. lia.
Qed.

Lemma two_inj a b : 0 ≤ a < 100 → 0 ≤ b < 100 → two a = two b → a = b.
Proof.
  intros Ha Hb.
  assert (Forall (λ a, Forall (λ b, two a = two b → a = b) (seqZ 0 100)) (seqZ 0 100))
    as H.
  { apply (bool_decide_unpack _). vm_compute. exact I. }
  rewrite Forall_forall in H. specialize (H a). rewrite Forall_forall in H.
  apply H; apply elem_of_seqZ; lia.
Qed.

Lemma strftime_inj a b :
  valid a → valid b → strftime_mdHM a = strftime_mdHM b →
  dt_month a = dt_month b ∧ dt_day a = dt_day b ∧
  dt_hour a = dt_hour b ∧ dt_minute a = dt_minute b.
Proof.
  intros (Ha1 & Ha2 & Ha3 & Ha4) (Hb1 & Hb2 & Hb3 & Hb4). unfold strftime_mdHM.
  intros H.
  apply append_split in H as [H1 H]; [|by rewrite !two_length by lia].
  apply append_split in H as [H2 H]; [|by rewrite !two_length by lia].
  apply append_split in H as [H3 H4]; [|by rewrite !two_length by lia].
  split_and!; apply two_inj; (done || lia).
Qed.

Lemma filename_eq cfg now :
  filename cfg now
  = OUTPUT_PREFIX cfg +:+ (if USE_TIMESTAMP cfg then strftime_mdHM now else "") +:+ ".xlsx".
Proof. unfold filename. cbv zeta. case_bool_decide as H; [done|]. by rewrite H. Qed.

End PathFacts.


(** * The claims *)

Section Claims.

Import Sheet Props Gen Examples Plan.

(** ** C1: the row total of a truncated detail table *)

(** C1 (the code departs from the claim).  A detail table with nine
    sizes has ten columns and its tenth column is headed as the row
    total, but the data row is cut after ten cells, so the cell under the
    row-total header holds the quantity of the ninth size (9) and not
    the sum of the quantities of all sizes of that colour (45). *)
Theorem C1_truncated_row_total :
  let S := _get_pattern_table_structure nine_sizes in
  let ws := ps_ws (_generate_type_pattern_sheet today empty_sheet "T" nine_sizes) in
  st_total_cols S = 10 ∧ st_total_col_idx S = 10 ∧
  c_value (get_cell ws (2, 10)) = VStr "行合计" ∧
  c_value (get_cell ws (3, 1)) = VStr "Red" ∧
  c_value (get_cell ws (3, 10)) = VInt 9 ∧
  qty_sum (where_eq r_color "Red" nine_sizes) = 45.
Proof. vm_compute. repeat split. Qed.

(** ** C2: column counts *)

(** C2 (the code departs from the claim).  For one colour in nine sizes
    the summary table has eleven columns: its header list and its data
    row have eleven cells, and on the summary sheet the header 行合计
    and the row total 45 stand in column 11; [max_columns] is 10, and
    the detail table of the same records is cut to ten columns. *)
Theorem C2_summary_eleven_columns :
  let ws := ts_ws (_generate_original_type_sheet empty_sheet
                     (_calculate_type_aggregation today nine_sizes)) in
  map (λ it, (fst it, td_total_cols (snd it), len (td_headers (snd it)),
              map len (td_data (snd it))))
    (_calculate_type_aggregation today nine_sizes)
    = [("T", 11, 11, [11])] ∧
  Read.row_values ws 2 1 11
    = map VStr ["颜色"; "1"; "2"; "3"; "4"; "5"; "6"; "7"; "8"; "9"; "行合计"] ∧
  Read.row_values ws 3 1 11
    = [VStr "Red"; VInt 1; VInt 2; VInt 3; VInt 4; VInt 5; VInt 6; VInt 7; VInt 8;
       VInt 9; VInt 45] ∧
  max_columns = 10 ∧
  st_total_cols (_get_pattern_table_structure nine_sizes) = 10.
Proof. vm_compute. repeat split. Qed.

(** The column counts in general.  Every detail table has between 6 and
    10 columns; every summary table has the larger of 6 and the number
    of its sizes plus 2: the summary path pads but never cuts.  In both,
    the header list and every data row have exactly that many cells. *)
Theorem C2_column_counts date_str name group :
  let td := type_data_of date_str name group in
  let S := _get_pattern_table_structure group in
  (td_total_cols td = Z.max 6 (len (td_specs td) + 2) ∧
   len (td_headers td) = td_total_cols td ∧
   Forall (λ row, len row = td_total_cols td) (td_data td)) ∧
  (6 ≤ st_total_cols S ≤ 10 ∧
   len (st_headers S) = st_total_cols S ∧
   Forall (λ row, len row = st_total_cols S) (st_data S)).
Proof.
  cbv zeta. split.
  - split; [apply type_total_cols|]. split; [apply type_headers_len|].
    apply Forall_forall. intros row. apply type_rows_len.
  - split; [apply pattern_struct_cols|].
    destruct (pattern_struct_shape group) as (_ & Hh & Hr & _).
    split; [done|]. by apply Forall_forall.
Qed.

(** ** C3: the scenario with three records *)

(** The header row and the two data rows are not the ones of the
    scenario: the sizes and the colours come out sorted. *)
Lemma C3_scenario_order :
  ¬ (scenario_row today eval_cell 2
       = [VStr "颜色"; VStr "S"; VStr "M"; VStr "行合计"; VStr ""; VStr ""] ∧
     scenario_row today eval_cell 3
       = [VStr "Red"; VInt 3; VInt 5; VInt 8; VStr ""; VStr ""] ∧
     scenario_row today eval_cell 4
       = [VStr "Blue"; VInt 2; VInt 0; VInt 2; VStr ""; VStr ""]).
Proof. vm_compute. intros (H & _). discriminate H. Qed.

(** C3 (amended).  The summary block of type A for the three records has
    the headers 颜色, M, S, 行合计 (the sizes sorted as text) padded to 6
    columns, the data rows Blue, 0, 2, 2 and Red, 5, 3, 8, each padded
    with two empty texts (the colours sorted as text), and a total row of
    the label and three SUM formulas over rows 3 to 4, which evaluate to
    合计, 5, 5, 10. *)
Theorem C3_scenario_block date_str :
  map (λ it, (fst it, td_title (snd it), td_total_cols (snd it)))
    (_calculate_type_aggregation date_str scenario)
    = [("A", "A - " +:+ date_str, 6)] ∧
  scenario_row date_str eval_cell 2
    = [VStr "颜色"; VStr "M"; VStr "S"; VStr "行合计"; VStr ""; VStr ""] ∧
  scenario_row date_str eval_cell 3
    = [VStr "Blue"; VInt 0; VInt 2; VInt 2; VStr ""; VStr ""] ∧
  scenario_row date_str eval_cell 4
    = [VStr "Red"; VInt 5; VInt 3; VInt 8; VStr ""; VStr ""] ∧
  scenario_row date_str (λ ws k, c_value (get_cell ws k)) 5
    = [VStr "合计"; VSum 2 3 4; VSum 3 3 4; VSum 4 3 4; VNone; VNone] ∧
  map formula_text (scenario_row date_str (λ ws k, c_value (get_cell ws k)) 5)
    = [None; Some "=SUM(B3:B4)"; Some "=SUM(C3:C4)"; Some "=SUM(D3:D4)"; None; None] ∧
  scenario_row date_str eval_cell 5
    = [VStr "合计"; VInt 5; VInt 5; VInt 10; VNone; VNone].
Proof. vm_compute. repeat split. Qed.

(** ** C4: the order of the size columns *)

(** C4 (the code departs from the claim).  A sheet whose size cells are
    text: type T in the sizes 9 and 10, which both read as numbers, and
    type U in the size M.  On the summary sheet the table of T has its
    size columns in numeric order (9, 10), through [_sort_specs]; on the
    detail sheet of T the table of the same records has them in text
    order (10, 9): the detail path sorts with [sorted] alone. *)
Theorem C4_detail_sizes_as_text :
  Std.standardize (Std.ReadOk text_sizes)
    = inr [ mkRow "T" "P" "Red" "9" 1; mkRow "T" "P" "Red" "10" 1;
            mkRow "U" "Q" "Red" "M" 1 ] ∧
  match Std.generate today (Std.ReadOk text_sizes) with
  | Std.Saved [summary; detail_T; detail_U] =>
      ws_title summary = "类型数据汇总" ∧ ws_title detail_T = "T明细" ∧
      Read.row_values summary 1 1 1 = [VStr ("T - " +:+ today)] ∧
      Read.row_values summary 2 1 6
        = map VStr ["颜色"; "9"; "10"; "行合计"; ""; ""] ∧
      Read.row_values detail_T 1 1 1 = [VStr ("T - P - " +:+ today)] ∧
      Read.row_values detail_T 2 1 6
        = map VStr ["颜色"; "10"; "9"; "行合计"; ""; ""]
  | _ => False
  end ∧
  _sort_specs ["10"; "9"] = ["9"; "10"].
Proof. vm_compute. repeat split. Qed.

(** ** C5: two blocks per row on the detail sheets *)


(** The scenario of three patterns with seven columns each: the first
    two side by side from row 1, the third alone at the larger end row
    plus 2. *)
Example three_patterns_packed :
  map (λ pl, (p_name (pl_pattern pl), p_col_count (pl_pattern pl),
              pl_row pl, pl_col pl, pl_end pl))
    (ps_log (_generate_type_pattern_sheet today empty_sheet "T" three_patterns))
  = [("P1", 7, 1, 1, 4); ("P2", 7, 1, 12, 5); ("P3", 7, 7, 1, 10)].
Proof. vm_compute. reflexivity. Qed.

(** ** C6: blocks do not overlap and borders follow the blocks *)

(** C6 (the code departs from the claim).  For the three records of the
    scenario the block of type A on the summary sheet and the block of
    its pattern on the detail sheet are the rectangle of rows 1 to 5 and
    columns 1 to 6.  The title row is merged and only its first cell is
    given the border: the cells of columns 2 to 6 of row 1 lie in the
    rectangle and carry no border.  All cells of rows 2 to 5 carry the
    full thin border. *)
Theorem C6_title_band_unbordered :
  let summary := ts_ws (_generate_original_type_sheet empty_sheet
                          (_calculate_type_aggregation today scenario)) in
  let detail := ps_ws (_generate_type_pattern_sheet today empty_sheet "A" scenario) in
  let borders := λ ws row,
    map (λ col, c_border (get_cell ws (row, col))) [1; 2; 3; 4; 5; 6] in
  let title_row :=
    [block_border; default_border; default_border; default_border; default_border;
     default_border] in
  map type_block_rect (summary_blocks today scenario) = [mkRange 1 1 5 6] ∧
  map placed_rect (detail_blocks scenario) = [mkRange 1 1 5 6] ∧
  ws_merged summary = [mkRange 1 1 1 6] ∧
  ws_merged detail = [mkRange 1 1 1 6] ∧
  borders summary 1 = title_row ∧
  borders detail 1 = title_row ∧
  map (borders summary) [2; 3; 4; 5] = replicate 4 (replicate 6 block_border) ∧
  map (borders detail) [2; 3; 4; 5] = replicate 4 (replicate 6 block_border).
Proof. vm_compute. repeat split. Qed.

(** ** C7: which totals are formulas *)

(** The row-total cell of the first data row of the scenario is not a
    formula. *)
Lemma C7_row_total_is_literal :
  let st := _generate_original_type_sheet empty_sheet
              (_calculate_type_aggregation today scenario) in
  ¬ Forall (λ b,
      Forall (λ i,
        is_formula (c_value (get_cell (ts_ws st)
                      (tb_row b + 2 + i, td_total_col_idx (tb_data b)))) = true)
        (range 0 (td_data_rows (tb_data b)))) (ts_log st).
Proof.
  cbv zeta. intros H. apply Forall_inv in H. vm_compute in H.
  apply Forall_inv in H. discriminate H.
Qed.

(** C7 (amended).  For every table of the aggregation, at its place in
    the stack of the summary sheet, and for every table of a pattern, at
    its place on the detail sheet of its type, the total row holds under
    every shown size column and under the row-total column the formula
    SUM of that column over the data rows of the block; the row-total
    cell of each data row holds an integer computed by the generator,
    not a formula. *)
Theorem C7_total_cells date_str df type_name type_data :
  let summary :=
    _generate_original_type_sheet empty_sheet
      (_calculate_type_aggregation date_str df) in
  let detail := _generate_type_pattern_sheet date_str empty_sheet type_name type_data in
  Forall (λ b,
    let td := tb_data b in
    let r := tb_row b in
    let e := type_block_end b in
    Forall (λ col, c_value (get_cell (ts_ws summary) (e, col)) = VSum col (r + 2) (e - 1))
      (range 2 (2 + len (td_specs td)) ++ [td_total_col_idx td]) ∧
    Forall (λ i, ∃ z, c_value (get_cell (ts_ws summary) (r + 2 + i, td_total_col_idx td))
                      = VInt z)
      (range 0 (td_data_rows td))) (summary_blocks date_str df) ∧
  Forall (λ pl,
    let S := p_struct (pl_pattern pl) in
    let r := pl_row pl in
    let c := pl_col pl in
    let e := pl_end pl in
    Forall (λ o, c_value (get_cell (ps_ws detail) (e, c + o)) = VSum (c + o) (r + 2) (e - 1))
      (range 1 (1 + Z.min (st_spec_count S) (st_total_cols S - 1))
         ++ [st_total_col_idx S - 1]) ∧
    Forall (λ i, ∃ z, c_value (get_cell (ps_ws detail)
                                 (r + 2 + i, c + (st_total_col_idx S - 1))) = VInt z)
      (range 0 (st_row_count S))) (detail_blocks type_data).
Proof.
  cbv zeta.
  rewrite <- (summary_log date_str df), <- (detail_log date_str type_name type_data).
  split.
  - apply Forall_forall. intros b Hb.
    pose proof (type_log_elem date_str df b Hb) as Htd.
    pose proof (type_data_wf date_str (tb_name b)
                  (where_eq r_type (tb_name b) df)) as Hwf.
    pose proof (type_rows_total date_str (tb_name b)
                  (where_eq r_type (tb_name b) df)) as Htot.
    cbv zeta in Htot. rewrite <- Htd in Hwf, Htot.
    destruct Hwf as (Htc & Hlen & Hidx & _).
    pose proof (len_nonneg (td_data (tb_data b))) as Hrows. rewrite Hlen in Hrows.
    pose proof (len_nonneg (td_specs (tb_data b))) as Hspecs.
    split.
    + apply Forall_forall. intros col Hcol.
      assert (2 ≤ col ∧ (col ≤ 1 + len (td_specs (tb_data b))
                         ∨ col = td_total_col_idx (tb_data b))) as [Hc2 Hc].
      { apply elem_of_app in Hcol as [Hcol%elem_of_range|Hcol%list_elem_of_singleton]; lia. }
      apply (type_final_value date_str df b); [done| |].
      * unfold inside, type_block_rect, type_rect, block_rect, type_block_end.
        simpl. lia.
      * unfold type_block_end. rewrite type_value_sum by done.
        do 2 f_equal. lia.
    + apply Forall_forall. intros i Hi%elem_of_range.
      rewrite Forall_forall in Htot.
      destruct (Htot (item [] (td_data (tb_data b)) i)) as [z Hz].
      { apply item_elem. lia. }
      exists z. rewrite <- Hz.
      apply (type_final_value date_str df b); [done| |].
      * unfold inside, type_block_rect, type_rect, block_rect. simpl. lia.
      * apply type_value_data. lia.
  - apply Forall_forall. intros pl Hpl.
    destruct (pattern_log_elem _ _ _ _ Hpl) as (Hs & He & Hcol).
    pose proof (pattern_struct_wf (p_data (pl_pattern pl))) as Hwf.
    pose proof (pattern_rows_total (p_data (pl_pattern pl))) as Htot.
    cbv zeta in Htot. rewrite <- Hs in Hwf, Htot.
    destruct Hwf as (Htc & Hlen & Hsc & Hidx & _).
    pose proof (len_nonneg (st_data (p_struct (pl_pattern pl)))) as Hrows.
    rewrite Hlen in Hrows. rewrite He. unfold block_end.
    split.
    + apply Forall_forall. intros o Ho.
      assert (1 ≤ o < st_total_cols (p_struct (pl_pattern pl)) ∧
              (o ≤ st_spec_count (p_struct (pl_pattern pl))
               ∨ o + 1 = st_total_col_idx (p_struct (pl_pattern pl)))) as [Ho1 Ho2].
      { apply elem_of_app in Ho as [Ho%elem_of_range|Ho%list_elem_of_singleton]; lia. }
      apply (pattern_final_value date_str type_name type_data pl); [done| |].
      * unfold inside, placed_rect, pattern_rect, block_rect. simpl. lia.
      * rewrite pattern_value_sum by (done || lia). do 2 f_equal. lia.
    + apply Forall_forall. intros i Hi%elem_of_range.
      rewrite Forall_forall in Htot.
      destruct (Htot (item [] (st_data (p_struct (pl_pattern pl))) i)) as [z Hz].
      { apply item_elem. lia. }
      exists z. rewrite <- Hz.
      apply (pattern_final_value date_str type_name type_data pl); [done| |].
      * unfold inside, placed_rect, pattern_rect, block_rect. simpl. lia.
      * apply pattern_value_data. lia.
Qed.

(** ** C8: the stack of blocks on the summary sheet *)

(** C8 (the code departs from the claim).  With two types, the first
    one with two colours, the block of A takes the rows 1 to 5 and the
    block of B starts in row 7: the title row lies [block_spacing] = 2
    rows below the total row before it, so one spacer row, row 6, and
    not two, separates the blocks.  The cells of the spacer row are
    blank and carry no border. *)
Theorem C8_one_spacer_row :
  let ws := ts_ws (_generate_original_type_sheet empty_sheet
                     (_calculate_type_aggregation today two_types)) in
  map (λ b, (tb_name b, td_total_cols (tb_data b), tb_row b, type_block_end b))
    (summary_blocks today two_types)
    = [("A", 6, 1, 5); ("B", 6, 7, 10)] ∧
  map (λ row, c_value (get_cell ws (row, 1))) [4; 5; 6; 7; 8]
    = [VStr "Red"; VStr "合计"; VNone; VStr ("B - " +:+ today); VStr "颜色"] ∧
  map (λ col, get_cell ws (6, col)) [1; 2; 3; 4; 5; 6] = replicate 6 blank ∧
  block_spacing = 2.
Proof. vm_compute. repeat split. Qed.

(** ** C9: a required field without a column *)

(** C9.  When one of the required fields (类型, 图案, 颜色, 规格, 数量)
    has no column under any of its aliases in the sheet that was read,
    [generate] ends by raising the ValueError of a missing field to its
    caller: the outcome is decided by [standardize], no sheet is built
    and no workbook is handed to [save]. *)
Theorem C9_missing_field date_str df standard_col aliases :
  (standard_col, aliases) ∈ Std.field_mapping →
  Forall (λ alias, Std.lower alias ∉ map Std.lower (Std.rf_columns df)) aliases →
  ∃ missing,
    missing ∈ map fst Std.field_mapping ∧
    Std.standardize (Std.ReadOk df) = inl (Std.ValueError missing) ∧
    Std.generate date_str (Std.ReadOk df) = Std.Raised (Std.ValueError missing) ∧
    ∀ wb, Std.generate date_str (Std.ReadOk df) ≠ Std.Saved wb.
Proof.
  intros Hin Hno.
  destruct (match_fields_missing (Std.rf_columns df) Std.field_mapping
              standard_col aliases ∅ Hin (match_alias_none _ _ Hno))
    as (missing & Hm & Hf).
  exists missing. unfold Std.generate, Std.standardize. rewrite Hf.
  split_and!; try done.
Qed.

Lemma C9_missing_field_witness :
  ("规格", ["规格"; "尺寸"; "尺码"]) ∈ Std.field_mapping ∧
  Forall (λ alias, Std.lower alias ∉ map Std.lower (Std.rf_columns no_size_column))
    ["规格"; "尺寸"; "尺码"] ∧
  ∃ missing,
    missing ∈ map fst Std.field_mapping ∧
    Std.standardize (Std.ReadOk no_size_column) = inl (Std.ValueError missing) ∧
    Std.generate today (Std.ReadOk no_size_column) = Std.Raised (Std.ValueError missing) ∧
    ∀ wb, Std.generate today (Std.ReadOk no_size_column) ≠ Std.Saved wb.
Proof.
  assert (("规格", ["规格"; "尺寸"; "尺码"]) ∈ Std.field_mapping) as H1.
  { apply (bool_decide_unpack _). vm_compute. exact I. }
  assert (Forall (λ alias, Std.lower alias ∉ map Std.lower (Std.rf_columns no_size_column))
            ["规格"; "尺寸"; "尺码"]) as H2.
  { apply (bool_decide_unpack _). vm_compute. exact I. }
  split; [exact H1|]. split; [exact H2|].
  exact (C9_missing_field today no_size_column "规格" ["规格"; "尺寸"; "尺码"] H1 H2).
Defined.

(** ** C10: the rows of a block *)

(** C10.  A block anchored at row [r] has its title in row [r], its
    headers in row [r + 1], one data row per distinct colour of the
    group in rows [r + 2] and following, in sorted order, and its total
    row in row [r + rowCount + 2], where [rowCount] is the number of
    distinct colours: [rowCount + 3] rows in all.  The detail renderer
    writes in no other row and returns [r + rowCount + 2]; on the summary
    sheet the same rows hold the block of every table of the aggregation
    at its place in the stack, with the anchor column 1. *)
Theorem C10_block_rows date_str df ws title pattern_data r c :
  let S := _get_pattern_table_structure pattern_data in
  let colors := Py.sorted (Py.unique (map r_color pattern_data)) in
  let res := _generate_single_pattern_block ws title S r c in
  let summary :=
    _generate_original_type_sheet empty_sheet
      (_calculate_type_aggregation date_str df) in
  (st_row_count S = len (Py.unique (map r_color pattern_data)) ∧
   snd res = r + st_row_count S + 2 ∧
   (∀ k, get_cell (fst res) k = get_cell ws k ∨ r ≤ fst k ≤ r + st_row_count S + 2) ∧
   c_value (get_cell (fst res) (r, c)) = VStr title ∧
   c_value (get_cell (fst res) (r + 1, c)) = VStr "颜色" ∧
   map (λ i, c_value (get_cell (fst res) (r + 2 + i, c))) (seqZ 0 (st_row_count S))
     = map VStr colors ∧
   c_value (get_cell (fst res) (r + st_row_count S + 2, c)) = VStr "合计") ∧
  Forall (λ b,
    let td := tb_data b in
    let r := tb_row b in
    let group := where_eq r_type (tb_name b) df in
    td_data_rows td = len (Py.unique (map r_color group)) ∧
    c_value (get_cell (ts_ws summary) (r, 1)) = VStr (td_title td) ∧
    c_value (get_cell (ts_ws summary) (r + 1, 1)) = VStr "颜色" ∧
    map (λ i, c_value (get_cell (ts_ws summary) (r + 2 + i, 1)))
      (seqZ 0 (td_data_rows td))
      = map VStr (Py.sorted (Py.unique (map r_color group))) ∧
    c_value (get_cell (ts_ws summary) (r + td_data_rows td + 2, 1)) = VStr "合计")
    (summary_blocks date_str df).
Proof.
  cbv zeta. rewrite <- (summary_log date_str df). split.
  - set (S := _get_pattern_table_structure pattern_data).
    pose proof (pattern_struct_wf pattern_data) as Hwf. fold S in Hwf.
    destruct (pattern_struct_shape pattern_data) as (_ & _ & _ & Hlen & Hrows & _).
    fold S in Hlen, Hrows.
    pose proof Hwf as (Htc & _ & _ & [Hidx _] & Hnn).
    pose proof (len_nonneg (st_data S)) as Hn. rewrite Hlen in Hn.
    assert (∀ k v, inside (pattern_rect S r c) k →
              pattern_value title S r c k = Some v →
              c_value (get_cell (fst (_generate_single_pattern_block ws title S r c)) k)
              = v) as Hval.
    { intros k v Hin Hv. by eapply pattern_block_value. }
    split_and!.
    + rewrite Hrows. unfold len, Py.sorted. by rewrite length_sorted_by.
    + apply pattern_block_end.
    + intros k. destruct (decide (r ≤ fst k ≤ r + st_row_count S + 2)); [by right|].
      left. apply pattern_block_only; [done|].
      unfold inside, pattern_rect, block_rect. simpl. lia.
    + apply Hval; [|apply pattern_value_title].
      unfold inside, pattern_rect, block_rect. simpl. lia.
    + replace (r + 1, c) with (r + 1, c + 0) by (f_equal; lia).
      erewrite (Hval (r + 1, c + 0)); [| |apply pattern_value_header].
      * f_equal. apply pattern_headers_first.
      * unfold inside, pattern_rect, block_rect. simpl. lia.
    + rewrite <- pattern_rows_first. fold S.
      rewrite <- (map_seqZ_item [] (λ row, item (VStr "") row 0) (st_data S)).
      rewrite Hlen. apply map_ext_in. intros i Hi%list_elem_of_In%elem_of_seqZ.
      replace (r + 2 + i, c) with (r + 2 + i, c + 0) by (f_equal; lia).
      apply Hval; [|apply pattern_value_data; lia].
      unfold inside, pattern_rect, block_rect. simpl. lia.
    + apply Hval; [|by apply pattern_value_label].
      unfold inside, pattern_rect, block_rect. simpl. lia.
  - apply Forall_forall. intros b Hb.
    pose proof (type_log_elem date_str df b Hb) as Htd.
    set (group := where_eq r_type (tb_name b) df) in *.
    pose proof (type_data_wf date_str (tb_name b) group) as Hwf.
    pose proof (type_rows_first date_str (tb_name b) group) as Hfirst.
    pose proof (type_headers_first date_str (tb_name b) group) as Hhead.
    rewrite <- Htd in Hwf, Hfirst, Hhead.
    destruct Hwf as (Htc & Hlen & Hidx & _).
    pose proof (len_nonneg (td_data (tb_data b))) as Hrows. rewrite Hlen in Hrows.
    pose proof (len_nonneg (td_specs (tb_data b))) as Hspecs.
    assert (∀ k v, inside (type_block_rect b) k →
              type_value (tb_data b) (tb_row b) k = Some v →
              c_value (get_cell (ts_ws (_generate_original_type_sheet empty_sheet
                         (_calculate_type_aggregation date_str df))) k) = v) as Hval.
    { intros k v Hin Hv. by eapply (type_final_value date_str df b). }
    split_and!.
    + rewrite Htd. unfold type_data_of; cbn [td_data_rows]. fold group.
      unfold len, Py.sorted. by rewrite length_sorted_by.
    + apply Hval; [|apply type_value_title].
      unfold inside, type_block_rect, type_rect, block_rect. simpl. lia.
    + erewrite (Hval (tb_row b + 1, 1)); [| |apply type_value_header].
      * by rewrite Z.sub_diag, Hhead.
      * unfold inside, type_block_rect, type_rect, block_rect. simpl. lia.
    + rewrite <- Hfirst.
      rewrite <- (map_seqZ_item [] (λ row, item (VStr "") row 0) (td_data (tb_data b))).
      rewrite Hlen. apply map_ext_in. intros i Hi%list_elem_of_In%elem_of_seqZ.
      erewrite (Hval (tb_row b + 2 + i, 1)); [| |apply type_value_data; lia].
      * by rewrite Z.sub_diag.
      * unfold inside, type_block_rect, type_rect, block_rect. simpl. lia.
    + apply Hval; [|by apply type_value_label].
      unfold inside, type_block_rect, type_rect, block_rect. simpl. lia.
Qed.

End Claims.
(** * Further properties of the generator *)

Section Extras.

Import Sheet Props Gen Read Order Look Plan.

(** ** The summary sheet *)





(** ** The detail sheets *)

(** X3.  For records whose sums are exact, the finished detail sheet
    shows at the place of every block of [detail_blocks] the table of
    its pattern, built from the records of the type with that pattern: the
    sizes in text order; the header row reads 颜色, the first eight
    sizes, 行合计, padded with empty texts to six columns; every row
    holds the colour and then the first nine of the cells made of the
    quantity of every size followed by the sum of all quantities of the
    colour.  So with up to eight sizes a row ends with its total, and
    with nine sizes or more the total is cut off, the cell under 行合计
    holds the quantity of the ninth size, and the quantities of the
    tenth size and beyond stand nowhere on the sheet. *)
Theorem X3_detail_table date_str type_name type_data :
  exact type_data →
  let st := _generate_type_pattern_sheet date_str empty_sheet type_name type_data in
  Forall (λ pl,
    let group := where_eq r_pattern (p_name (pl_pattern pl)) type_data in
    let specs := specs_of group in
    let cols := Z.min 10 (Z.max 6 (len specs + 2)) in
    p_data (pl_pattern pl) = group ∧
    st_total_cols (p_struct (pl_pattern pl)) = cols ∧
    row_values (ps_ws st) (pl_row pl + 1) (pl_col pl) cols
      = map VStr (["颜色"] ++ take 8 specs ++ ["行合计"] ++ times "" (4 - len specs)) ∧
    values (ps_ws st) (pl_row pl + 2) (pl_col pl) (len (colors_of group)) cols
      = map (λ color,
          [VStr color]
            ++ take 9 (map (λ spec, VInt (qty group color spec)) specs
                         ++ [VInt (qty_sum (where_eq r_color color group))])
            ++ times (VStr "") (4 - len specs)) (colors_of group))
    (detail_blocks type_data).
Proof.
  intros Hexact. cbv zeta. rewrite <- (detail_log date_str type_name type_data).
  apply Forall_forall. intros pl Hpl.
  destruct (detail_block_wf date_str type_name type_data pl Hpl) as (Hdata & Hs & _).
  set (group := where_eq r_pattern (p_name (pl_pattern pl)) type_data) in *.
  assert (exact group) as Hg by apply exact_where, Hexact.
  destruct (pattern_struct_closed group) as (Hsc & Hrc & Htc & Hidx & Hh & Hd).
  specialize (Hd Hg).
  destruct (pattern_struct_shape group) as (_ & Hhl & Hrl & Hdl & _).
  rewrite <- Hs in Hsc, Hrc, Htc, Hidx, Hh, Hd, Hhl, Hrl, Hdl.
  split_and!; [done..| |].
  - rewrite <- Hh, <- Htc. apply (row_values_eq _ _ _ "").
    + done.
    + intros j Hj. by apply detail_header_cell.
  - rewrite <- Htc, <- Hrc.
    transitivity (st_data (p_struct (pl_pattern pl))).
    2: { rewrite Hd. apply map_ext. intros color. by rewrite qty_cells_exact. }
    apply values_eq; [done|done|].
    intros i j Hi Hj. by apply detail_data_cell.
Qed.

Lemma X3_detail_table_witness :
  exact Examples.three_patterns ∧
  (let st := _generate_type_pattern_sheet Examples.today empty_sheet "T" Examples.three_patterns in
  Forall (λ pl,
    let group := where_eq r_pattern (p_name (pl_pattern pl)) Examples.three_patterns in
    let specs := specs_of group in
    let cols := Z.min 10 (Z.max 6 (len specs + 2)) in
    p_data (pl_pattern pl) = group ∧
    st_total_cols (p_struct (pl_pattern pl)) = cols ∧
    row_values (ps_ws st) (pl_row pl + 1) (pl_col pl) cols
      = map VStr (["颜色"] ++ take 8 specs ++ ["行合计"] ++ times "" (4 - len specs)) ∧
    values (ps_ws st) (pl_row pl + 2) (pl_col pl) (len (colors_of group)) cols
      = map (λ color,
          [VStr color]
            ++ take 9 (map (λ spec, VInt (qty group color spec)) specs
                         ++ [VInt (qty_sum (where_eq r_color color group))])
            ++ times (VStr "") (4 - len specs)) (colors_of group))
    (detail_blocks Examples.three_patterns)).
Proof.
  assert (exact Examples.three_patterns) as He by (apply Z.leb_le; vm_compute; reflexivity).
  split; [exact He|]. exact (X3_detail_table Examples.today "T" Examples.three_patterns He).
Defined.

(** X4.  For records whose sums are exact, the totals of a detail
    sheet, as a spreadsheet evaluates them: the total row of every block
    of [detail_blocks] shows, behind its label, the first nine
    of the cells made of the summed quantity of the pattern in every
    size followed by the summed quantity of the whole pattern.  With up
    to eight sizes the last formula is the grand total of the pattern;
    with nine sizes or more the formula under 行合计 adds up the ninth
    size only. *)
Theorem X4_detail_totals date_str type_name type_data :
  exact type_data →
  let st := _generate_type_pattern_sheet date_str empty_sheet type_name type_data in
  Forall (λ pl,
    let group := where_eq r_pattern (p_name (pl_pattern pl)) type_data in
    let specs := specs_of group in
    row_shown (ps_ws st) (pl_end pl) (pl_col pl) (Z.min 10 (len specs + 2))
    = [VStr "合计"]
        ++ take 9 (map (λ spec, VInt (qty_sum (where_eq r_spec spec group))) specs
                     ++ [VInt (qty_sum group)])) (detail_blocks type_data).
Proof.
  intros Hexact. cbv zeta. rewrite <- (detail_log date_str type_name type_data).
  apply Forall_forall. intros pl Hpl.
  destruct (detail_block_wf date_str type_name type_data pl Hpl)
    as (Hdata & Hs & _ & He & _).
  set (group := where_eq r_pattern (p_name (pl_pattern pl)) type_data) in *.
  destruct (pattern_struct_closed group) as (Hsc & Hrc & Htc & Hidx & _).
  rewrite <- Hs in Hsc, Hrc, Htc, Hidx.
  pose proof (len_nonneg (specs_of group)) as Hn.
  pose proof (len_nonneg (colors_of group)) as Hr.
  set (opts := take 9 (map Some (specs_of group) ++ [None])).
  assert (len opts = Z.min 9 (len (specs_of group) + 1)) as Hlen.
  { subst opts. unfold len. rewrite length_take, length_app, length_map.
    cbn [length]. lia. }
  assert (take 9 (map (λ spec, VInt (qty_sum (where_eq r_spec spec group)))
                    (specs_of group) ++ [VInt (qty_sum group)])
          = map (λ x : option string,
                   VInt (match x with
                         | Some spec => qty_sum (where_eq r_spec spec group)
                         | None => qty_sum group
                         end)) opts) as ->.
  { subst opts. rewrite fmap_take. f_equal. rewrite fmap_app. f_equal.
    rewrite <- list_fmap_compose. done. }
  unfold row_shown.
  replace (Z.min 10 (len (specs_of group) + 2)) with (1 + len opts) by lia.
  rewrite seqZ_app by (pose proof (len_nonneg opts); lia). rewrite map_app. f_equal.
  { change (seqZ 0 1) with [0]. cbn [map]. rewrite Z.add_0_r.
    unfold eval_cell.
    by rewrite (detail_label_cell date_str type_name type_data pl Hpl). }
  rewrite <- (fmap_add_seqZ (0 + 1) 0). rewrite map_map.
  apply map_seqZ_lookup. intros j x Hj Hx.
  replace (0 + 1 + j) with (1 + j) by lia.
  by apply (detail_total_shown date_str type_name type_data Hexact pl j x).
Qed.

Lemma X4_detail_totals_witness :
  exact Examples.three_patterns ∧
  (let st := _generate_type_pattern_sheet Examples.today empty_sheet "T" Examples.three_patterns in
  Forall (λ pl,
    let group := where_eq r_pattern (p_name (pl_pattern pl)) Examples.three_patterns in
    let specs := specs_of group in
    row_shown (ps_ws st) (pl_end pl) (pl_col pl) (Z.min 10 (len specs + 2))
    = [VStr "合计"]
        ++ take 9 (map (λ spec, VInt (qty_sum (where_eq r_spec spec group))) specs
                     ++ [VInt (qty_sum group)])) (detail_blocks Examples.three_patterns)).
Proof.
  assert (exact Examples.three_patterns) as He by (apply Z.leb_le; vm_compute; reflexivity).
  split; [exact He|]. exact (X4_detail_totals Examples.today "T" Examples.three_patterns He).
Defined.

(** X5.  For records whose sums are exact: when no pattern of the type
    has more than eight sizes, the grand totals of the blocks of its
    detail sheet, as a spreadsheet shows them under 行合计 in the total
    rows of the blocks of [detail_blocks], add up to the summed quantity
    of all records of the type. *)
Theorem X5_detail_adds_up date_str type_name type_data :
  exact type_data →
  Forall (λ g, len (specs_of (snd g)) ≤ 8) (groupby r_pattern type_data) →
  let st := _generate_type_pattern_sheet date_str empty_sheet type_name type_data in
  foldr (λ pl acc,
      shown_number (ps_ws st)
        (pl_end pl, pl_col pl + st_total_col_idx (p_struct (pl_pattern pl)) - 1) + acc)
    0 (detail_blocks type_data)
  = qty_sum type_data.
Proof.
  intros Hexact Hsmall. cbv zeta.
  rewrite <- (detail_log date_str type_name type_data).
  rewrite (foldr_add_ext _
             (λ pl, qty_sum (where_eq r_pattern (p_name (pl_pattern pl)) type_data))).
  - transitivity (foldr (λ name acc, qty_sum (where_eq r_pattern name type_data) + acc) 0
                    (map (λ pl, p_name (pl_pattern pl))
                       (ps_log (_generate_type_pattern_sheet date_str empty_sheet
                                  type_name type_data)))).
    { by rewrite foldr_fmap. }
    rewrite (foldr_add_perm _ _ _ (detail_names date_str type_name type_data)).
    apply qty_sum_by; [apply sorted_unique_NoDup|].
    intros r Hr. apply sorted_unique_elem, list_elem_of_fmap. eauto.
  - intros pl Hpl.
    destruct (detail_block_wf date_str type_name type_data pl Hpl) as (_ & Hs & _).
    set (group := where_eq r_pattern (p_name (pl_pattern pl)) type_data) in *.
    destruct (pattern_struct_closed group) as (_ & _ & _ & Hidx & _).
    rewrite <- Hs in Hidx.
    pose proof (len_nonneg (specs_of group)) as Hn.
    assert (len (specs_of group) ≤ 8) as Hle.
    { rewrite Forall_forall in Hsmall.
      apply (Hsmall (p_name (pl_pattern pl), group)).
      unfold groupby. apply list_elem_of_fmap. exists (p_name (pl_pattern pl)).
      split; [done|].
      rewrite <- (detail_names date_str type_name type_data).
      apply list_elem_of_fmap. eauto. }
    unfold shown_number.
    replace (pl_col pl + st_total_col_idx (p_struct (pl_pattern pl)) - 1)
      with (pl_col pl + (1 + len (specs_of group))) by lia.
    rewrite (detail_total_shown date_str type_name type_data Hexact pl
               (len (specs_of group)) None); [done..|].
    assert (Z.to_nat (len (specs_of group)) = length (specs_of group)) as ->
      by (unfold len; lia).
    rewrite lookup_take_lt by (unfold len in Hle; lia).
    rewrite lookup_app_r by (by rewrite length_map).
    by rewrite length_map, Nat.sub_diag.
Qed.

Lemma X5_detail_adds_up_witness :
  exact Examples.three_patterns ∧
  Forall (λ g, len (specs_of (snd g)) ≤ 8) (groupby r_pattern Examples.three_patterns) ∧
  let st := _generate_type_pattern_sheet Examples.today empty_sheet "T"
              Examples.three_patterns in
  foldr (λ pl acc,
      shown_number (ps_ws st)
        (pl_end pl, pl_col pl + st_total_col_idx (p_struct (pl_pattern pl)) - 1) + acc)
    0 (detail_blocks Examples.three_patterns)
  = qty_sum Examples.three_patterns.
Proof.
  assert (exact Examples.three_patterns) as He.
  { apply Z.leb_le. vm_compute. reflexivity. }
  assert (Forall (λ g, len (specs_of (snd g)) ≤ 8)
            (groupby r_pattern Examples.three_patterns)) as H.
  { apply (bool_decide_unpack _). vm_compute. exact I. }
  split; [exact He|]. split; [exact H|].
  exact (X5_detail_adds_up Examples.today "T" _ He H).
Defined.

(** X6.  No block is empty: every block of the summary sheet and of a
    detail sheet has at least one data row and at least one size, so
    every SUM formula ranges over at least one row, from the first data
    row down to the last. *)
Theorem X6_blocks_nonempty date_str df type_name type_data :
  let summary := _generate_original_type_sheet empty_sheet
                   (_calculate_type_aggregation date_str df) in
  let detail := _generate_type_pattern_sheet date_str empty_sheet type_name type_data in
  Forall (λ b, 1 ≤ td_data_rows (tb_data b) ∧ 1 ≤ len (td_specs (tb_data b)))
    (ts_log summary) ∧
  Forall (λ pl, 1 ≤ st_row_count (p_struct (pl_pattern pl)) ∧
                1 ≤ st_spec_count (p_struct (pl_pattern pl))) (ps_log detail).
Proof.
  cbv zeta. split; apply Forall_forall.
  - intros b Hb. by apply (summary_block_nonempty date_str df).
  - intros pl Hpl. by apply (detail_block_nonempty date_str type_name type_data).
Qed.

(** ** The order of sizes, tables and blocks *)

(** X7.  [_sort_specs] on sizes that all read as whole numbers (of a
    magnitude a float holds without rounding) returns the same sizes,
    each as often as it was given, in ascending order of their values:
    9 comes before 10. *)
Theorem X7_sort_specs_numbers specs :
  Forall (λ s, ∃ n, whole s n) specs →
  _sort_specs specs ≡ₚ specs ∧
  StronglySorted (λ s t, ∀ m n, whole s m → whole t n → m ≤ n) (_sort_specs specs).
Proof. intros H. split; [apply sort_specs_perm|by apply sort_specs_whole]. Qed.

Lemma X7_sort_specs_numbers_witness :
  Forall (λ s, ∃ n, whole s n) ["10"; "9"; "120"; "38"] ∧
  _sort_specs ["10"; "9"; "120"; "38"] ≡ₚ ["10"; "9"; "120"; "38"] ∧
  StronglySorted (λ s t, ∀ m n, whole s m → whole t n → m ≤ n)
    (_sort_specs ["10"; "9"; "120"; "38"]).
Proof.
  assert (Forall (λ s, ∃ n, whole s n) ["10"; "9"; "120"; "38"]) as H.
  { repeat constructor.
    - exists 10, 10%Q. split; [reflexivity|]. split; [reflexivity|].
      intros Hgt; discriminate Hgt.
    - exists 9, 9%Q. split; [reflexivity|]. split; [reflexivity|].
      intros Hgt; discriminate Hgt.
    - exists 120, 120%Q. split; [reflexivity|]. split; [reflexivity|].
      intros Hgt; discriminate Hgt.
    - exists 38, 38%Q. split; [reflexivity|]. split; [reflexivity|].
      intros Hgt; discriminate Hgt. }
  split; [exact H|]. exact (X7_sort_specs_numbers _ H).
Defined.

(** X8.  As soon as one size is no number (here: an ASCII text that
    [float] rejects), [_sort_specs] falls back to [sorted]: all sizes,
    the numeric ones too, come out in ascending text order, so that 10
    comes before 9. *)
Theorem X8_sort_specs_text specs s :
  s ∈ specs → is_ascii s → Py.float_of s = None →
  _sort_specs specs = Py.sorted specs ∧
  _sort_specs specs ≡ₚ specs ∧
  StronglySorted text_le (_sort_specs specs).
Proof.
  intros Hs _ Hnone. rewrite (sort_specs_fallback specs s Hs Hnone).
  split; [done|]. split; [apply sorted_by_perm|apply sorted_text_le].
Qed.

Lemma X8_sort_specs_text_witness :
  "M" ∈ ["S"; "10"; "M"; "9"] ∧ is_ascii "M" ∧ Py.float_of "M" = None ∧
  _sort_specs ["S"; "10"; "M"; "9"] = Py.sorted ["S"; "10"; "M"; "9"] ∧
  _sort_specs ["S"; "10"; "M"; "9"] ≡ₚ ["S"; "10"; "M"; "9"] ∧
  StronglySorted text_le (_sort_specs ["S"; "10"; "M"; "9"]).
Proof.
  assert ("M" ∈ ["S"; "10"; "M"; "9"]) as H1 by (do 2 right; left).
  assert (is_ascii "M") as H2 by (repeat constructor; simpl; lia).
  assert (Py.float_of "M" = None) as H3 by reflexivity.
  split; [exact H1|]. split; [exact H2|]. split; [exact H3|].
  exact (X8_sort_specs_text _ _ H1 H2 H3).
Defined.

(** X9.  [_sort_patterns_by_columns], in either direction, returns the
    patterns it was given, each once, each with the table structure of
    its own records and the column count of that structure; the list is
    in ascending (or, for desc, descending) order of column count; and
    the sort is stable in both directions: patterns of one column count
    keep the order in which they were given. *)
Theorem X9_sort_patterns patterns desc :
  let sorted := _sort_patterns_by_columns patterns desc in
  map (λ p, (p_name p, p_data p)) sorted ≡ₚ patterns ∧
  Forall (λ p, p_struct p = _get_pattern_table_structure (p_data p) ∧
               p_col_count p = st_total_cols (p_struct p)) sorted ∧
  StronglySorted (λ a b, if desc then p_col_count b ≤ p_col_count a
                         else p_col_count a ≤ p_col_count b) sorted ∧
  ∀ w, map (λ p, (p_name p, p_data p)) (filter (λ p, p_col_count p = w) sorted)
       = filter (λ p, st_total_cols (_get_pattern_table_structure (snd p)) = w) patterns.
Proof.
  cbv zeta. split_and!.
  - apply sorted_patterns_names.
  - apply Forall_forall. intros p Hp.
    by apply sorted_patterns_elem in Hp as (? & ? & _).
  - unfold _sort_patterns_by_columns.
    destruct desc; [apply sorted_key_desc|apply sorted_key_asc].
  - intros w. unfold _sort_patterns_by_columns. rewrite sorted_key_stable.
    induction patterns as [|[name data] patterns IH]; [done|].
    cbn [map]. rewrite !filter_cons. cbn [p_col_count fst snd].
    destruct (decide (st_total_cols (_get_pattern_table_structure data) = w));
      cbn [map p_name p_data]; by rewrite IH.
Qed.

(** X10.  [_group_by_column_range] splits any list of tables into at
    most two bands, none of them empty: the tables of 6 to 7 columns,
    and all the others (whatever their column count); each band keeps
    the order of the list, and together the bands hold the tables of
    the list, each once. *)
Theorem X10_column_bands sorted_patterns :
  let bands := _group_by_column_range sorted_patterns in
  (length bands ≤ 2)%nat ∧
  Forall (λ g, g ≠ [] ∧ g `sublist_of` sorted_patterns) bands ∧
  concat bands
  = filter (λ p, 6 ≤ p_col_count p ≤ 7) sorted_patterns
      ++ filter (λ p, ¬ 6 ≤ p_col_count p ≤ 7) sorted_patterns ∧
  concat bands ≡ₚ sorted_patterns.
Proof.
  cbv zeta. split_and!.
  - unfold _group_by_column_range. cbv zeta.
    etrans; [apply length_filter|]. done.
  - apply Forall_forall. intros g Hg.
    apply band_elem in Hg as [Hne [->| ->]]; (split; [done|apply sublist_filter]).
  - apply bands_concat.
  - rewrite bands_concat. apply filter_app_complement.
Qed.



(** ** Reading the input *)

(** X13.  Which error [standardize] raises for a missing field, for any
    sheet that could be read: it raises the ValueError of a field
    exactly when that field is the first one, in the order 类型, 图案,
    颜色, 规格, 数量, that has no column under any of its aliases
    (compared without regard to the case of letters), whatever other
    fields are missing too and whatever the rows hold.  So no such
    error is raised exactly when every field has a column. *)
Theorem X13_standardize_outcome df :
  let columns := Std.rf_columns df in
  (∀ field,
     Std.standardize (Std.ReadOk df) = inl (Std.ValueError field) ↔
     ∃ pre aliases post,
       Std.field_mapping = pre ++ (field, aliases) :: post ∧
       Forall (Columns.found columns) pre ∧
       Forall (λ alias, ¬ Columns.present columns alias) aliases) ∧
  ((∀ field, Std.standardize (Std.ReadOk df) ≠ inl (Std.ValueError field)) ↔
   Forall (Columns.found columns) Std.field_mapping).
Proof.
  cbv zeta. unfold Std.standardize.
  pose proof (match_fields_outcome (Std.rf_columns df) Std.field_mapping ∅
                field_aliases_nonempty) as H.
  destruct (Std.match_fields _ _ _) as [e|cols].
  - destruct H as (pre & field & aliases & post & Hmap & -> & Hpre & Hal).
    split.
    + intros field'. split.
      * intros [= <-]. by exists pre, aliases, post.
      * intros (pre' & aliases' & post' & Hmap' & Hpre' & Hal').
        rewrite Hmap in Hmap'.
        by injection (first_without_unique _ _ _ _ _ _ _ Hmap' Hpre
                        (not_found _ field _ Hal) Hpre' (not_found _ field' _ Hal'))
          as ->.
    + split; [intros Hno; by destruct (Hno field)|].
      intros Hall. rewrite Hmap in Hall.
      apply Forall_app in Hall as [_ [Hf _]%Forall_cons].
      by destruct (not_found _ field _ Hal).
  - split.
    + intros field. split; [done|].
      intros (pre & aliases & post & Hmap & _ & Hal).
      rewrite Hmap in H. apply Forall_app in H as [_ [Hf _]%Forall_cons].
      by destruct (not_found _ field _ Hal).
    + done.
Qed.

(** X14.  A sheet that has the columns but no rows is no error:
    [generate] hands a workbook to [save] that holds the summary sheet
    alone, with its title and without any cell or merged range, and no
    detail sheet. *)
Theorem X14_empty_table date_str columns :
  Forall (Columns.found columns) Std.field_mapping →
  Std.generate date_str (Std.ReadOk (Std.mkRawFrame columns []))
  = Std.Saved [mkWorksheet "类型数据汇总" ∅ []].
Proof.
  intros Hall. unfold Std.generate, Std.standardize. cbn [Std.rf_columns Std.rf_rows].
  pose proof (match_fields_outcome columns Std.field_mapping ∅
                field_aliases_nonempty) as H.
  destruct (Std.match_fields _ _ _) as [e|cols]; [|reflexivity].
  destruct H as (pre & field & aliases & post & Hmap & _ & _ & Hno).
  rewrite Forall_forall in Hall.
  assert (Columns.found columns (field, aliases)) as Hf.
  { apply Hall. rewrite Hmap. apply elem_of_app. right. left. }
  apply Exists_exists in Hf as (alias & Ha & Hp).
  rewrite Forall_forall in Hno. by destruct (Hno alias Ha).
Qed.

Lemma X14_empty_table_witness :
  Forall (Columns.found ["宝贝类型"; "花纹"; "颜色"; "尺码"; "库存"]) Std.field_mapping ∧
  Std.generate Examples.today
    (Std.ReadOk (Std.mkRawFrame ["宝贝类型"; "花纹"; "颜色"; "尺码"; "库存"] []))
  = Std.Saved [mkWorksheet "类型数据汇总" ∅ []].
Proof.
  assert (Forall (Columns.found ["宝贝类型"; "花纹"; "颜色"; "尺码"; "库存"])
            Std.field_mapping) as H.
  { unfold Columns.found, Columns.present.
    apply (bool_decide_unpack _). vm_compute. exact I. }
  split; [exact H|]. exact (X14_empty_table Examples.today _ H).
Defined.

(** ** The look of the sheets *)


(** X16.  A finished detail sheet, cell by cell, from the blocks of
    [detail_blocks] alone.  A position inside a block holds what
    [pattern_cell] says, in the same look as on the summary sheet.  Outside the blocks the only cells that are not
    blank are the gap cells, one per round of the pairing loop: the
    cell right of the left block in the row in which the round ends,
    the lower of the total rows of its blocks; it is filled white and
    centred, without value or border.  [_format_blank_column] is called
    for that one row, so the rest of the gap column stays blank. *)
Theorem X16_detail_cells date_str type_name type_data :
  let st := _generate_type_pattern_sheet date_str empty_sheet type_name type_data in
  ∀ k, get_cell (ps_ws st) k
       = match List.find (λ pl, in_range (placed_rect pl) k)
                 (detail_blocks type_data) with
         | Some pl =>
             pattern_cell (block_title type_name date_str (pl_pattern pl))
               (p_struct (pl_pattern pl)) (pl_row pl) (pl_col pl) k
         | None => if is_gap (detail_blocks type_data) k then gap_cell else blank
         end.
Proof.
  cbv zeta. intros k. rewrite <- (detail_log date_str type_name type_data).
  destruct (pattern_sheet_exact_final type_name date_str type_data) as (Hin & Hout & _).
  destruct (List.find _ _) as [pl|] eqn:E.
  - apply find_some in E as [Hb Hk]. apply Hin; [by apply list_elem_of_In|].
    by apply in_range_inside.
  - apply Hout. intros pl Hb Hk. eapply find_none in E; [|by apply list_elem_of_In].
    apply in_range_inside in Hk. simpl in E. congruence.
Qed.

(** ** The output file *)

(** X17.  [get_output_path] names the file by the prefix and the month,
    day, hour and minute of the clock: two runs get the same path
    exactly when they agree on these four, whatever the year and the
    second, so that a run in the same minute (or a year later to the
    minute) writes to the file of the earlier one.  The output directory
    exists afterwards. *)
Theorem X17_output_path join cfg dirs dirs' a b :
  Path.USE_TIMESTAMP cfg = true → Path.valid a → Path.valid b →
  (∀ x y, join (Path.OUTPUT_DIR cfg) x = join (Path.OUTPUT_DIR cfg) y → x = y) →
  (snd (Path.get_output_path join cfg dirs a) = snd (Path.get_output_path join cfg dirs' b)
   ↔ Path.dt_month a = Path.dt_month b ∧ Path.dt_day a = Path.dt_day b ∧
     Path.dt_hour a = Path.dt_hour b ∧ Path.dt_minute a = Path.dt_minute b) ∧
  fst (Path.get_output_path join cfg dirs a) (Path.OUTPUT_DIR cfg) = true.
Proof.
  intros Hts Ha Hb Hjoin. split.
  - unfold Path.get_output_path. cbn [snd]. rewrite !filename_eq, Hts. split.
    + intros H%Hjoin. apply append_cancel_l in H.
      apply append_split in H as [H _].
      * by apply strftime_inj.
      * unfold Path.strftime_mdHM. destruct Ha as (? & ? & ? & ?), Hb as (? & ? & ? & ?).
        rewrite !append_length, !two_length by lia. done.
    + intros (H1 & H2 & H3 & H4). unfold Path.strftime_mdHM.
      by rewrite H1, H2, H3, H4.
  - unfold Path.get_output_path. cbn [fst].
    destruct (dirs (Path.OUTPUT_DIR cfg)) eqn:E; simpl; [done|].
    by rewrite bool_decide_true.
Qed.

Lemma X17_output_path_witness :
  let join := λ d f : string, d +:+ "/" +:+ f in
  let a := Path.mkDateTime 2026 11 3 14 5 9 in
  let b := Path.mkDateTime 2027 11 3 14 5 58 in
  Path.USE_TIMESTAMP Path.config = true ∧ Path.valid a ∧ Path.valid b ∧
  (∀ x y, join (Path.OUTPUT_DIR Path.config) x = join (Path.OUTPUT_DIR Path.config) y
          → x = y) ∧
  (snd (Path.get_output_path join Path.config (λ _, false) a)
   = snd (Path.get_output_path join Path.config (λ _, true) b)
   ↔ Path.dt_month a = Path.dt_month b ∧ Path.dt_day a = Path.dt_day b ∧
     Path.dt_hour a = Path.dt_hour b ∧ Path.dt_minute a = Path.dt_minute b) ∧
  fst (Path.get_output_path join Path.config (λ _, false) a)
    (Path.OUTPUT_DIR Path.config) = true.
Proof.
  cbv zeta.
  assert (Path.valid (Path.mkDateTime 2026 11 3 14 5 9)) as Ha
    by (unfold Path.valid; simpl; lia).
  assert (Path.valid (Path.mkDateTime 2027 11 3 14 5 58)) as Hb
    by (unfold Path.valid; simpl; lia).
  assert (∀ x y : string,
            Path.OUTPUT_DIR Path.config +:+ "/" +:+ x
            = Path.OUTPUT_DIR Path.config +:+ "/" +:+ y → x = y) as Hj.
  { intros x y H. apply append_cancel_l in H. by apply (append_cancel_l "/"). }
  split; [reflexivity|]. split; [exact Ha|]. split; [exact Hb|]. split; [exact Hj|].
  exact (X17_output_path (λ d f, d +:+ "/" +:+ f) Path.config (λ _, false) (λ _, true)
           _ _ eq_refl Ha Hb Hj).
Defined.

(** The three patterns of the example: the first round ends in row 5,
    the second in row 10; both gap cells stand in column 8. *)
Example three_patterns_gaps :
  let st := _generate_type_pattern_sheet Examples.today empty_sheet "T"
              Examples.three_patterns in
  filter (λ k, is_gap (ps_log st) k = true)
    (k ← seqZ 1 12; (λ c, (k, c)) <$> seqZ 1 22)
  = [(5, 8); (10, 8)].
Proof. vm_compute. reflexivity. Qed.

End Extras.
